(** * VTU ECU simulator: signal codec, driving cycle and OBD-II Mode 01 handler

    A shallow embedding of [ecu_sim.c] together with the headers it
    includes ([vtu/can_defs.h], [vtu/obd2_pids.h]).

    - C [float] values are rationals; every arithmetic operation is followed
      by [b32], round-to-nearest-even onto the binary32 grid (24-bit
      significand, least exponent -149), one rounding per operation in the
      order of evaluation of the C expression.  Overflow to infinity and NaN
      are not represented: no quantity of the program comes near 2^128.
    - Conversions from [float] to an integer type truncate; when the integral
      part does not fit the target type the C conversion has no defined
      result, which the model renders as [None].
    - [sinf] comes from libm; the simulation is parametrised by it.
    - The process state is the global [vehicle] record plus the frames
      written to the CAN socket so far.

    The development also covers the consumers of these frames and the rest
    of the shared library: [vtu/dtc_codes.h] and [vtu_common.c], the frame
    decoder of [telemetry_main.c], and the OBD-II gateway [obdgw_main.c]. *)

From Stdlib Require Import ZArith QArith Qround Qabs Qpower Lqa Lia List Bool.
From Stdlib Require Import SpecFloat.
From Stdlib Require String Ascii.
Import ListNotations.

Open Scope Q_scope.

(* ====================================================================== *)
(** * Binary32 arithmetic *)
(* ====================================================================== *)

Module F32.

(** Nearest integer, ties to even. *)
Definition RNE (x : Q) : Z :=
  let f := Qfloor x in
  match Qcompare (x - inject_Z f) (1 # 2) with
  | Lt => f
  | Gt => (f + 1)%Z
  | Eq => if Z.even f then f else (f + 1)%Z
  end.

(** [ilog2 x] is the integer [k] with [2^k <= x < 2^(k+1)], for [0 < x]. *)
Definition ilog2 (x : Q) : Z :=
  let k := (Z.log2 (Qnum x) - Z.log2 (Zpos (Qden x)))%Z in
  if Qle_bool (2 ^ k) x then k else (k - 1)%Z.

(** Exponent of the unit in the last place of the binade of [x]. *)
Definition b32_exp (x : Q) : Z := Z.max (ilog2 (Qabs x) - 23) (-149).

(** Rounding of a real (here rational) number to binary32. *)
Definition b32 (x : Q) : Q :=
  if Qeq_bool x 0 then 0
  else let e := b32_exp x in Qred (inject_Z (RNE (x / 2 ^ e)) * 2 ^ e).

(** The C type [float]: a rational that is meant to lie on the binary32
    grid.  Terms of this type are read in [f32_scope], where the arithmetic
    signs denote the rounded operations. *)
Definition float : Type := Q.

Declare Scope f32_scope.
Delimit Scope f32_scope with f32.
Bind Scope f32_scope with float.

Definition fadd (x y : float) : float := b32 (x + y)%Q.
Definition fsub (x y : float) : float := b32 (x - y)%Q.
Definition fmul (x y : float) : float := b32 (x * y)%Q.
Definition fdiv (x y : float) : float := b32 (x / y)%Q.

Infix "+" := fadd : f32_scope.
Infix "-" := fsub : f32_scope.
Infix "*" := fmul : f32_scope.
Infix "/" := fdiv : f32_scope.

(** A decimal literal with suffix [f]. *)
Definition lit (q : Q) : float := b32 q.

(** [(float)n] for an integer [n]. *)
Definition of_int (n : Z) : float := b32 (inject_Z n).

(** Integral part, rounding toward zero. *)
Definition Qtrunc (x : Q) : Z := Z.quot (Qnum x) (Zpos (Qden x)).

(** [fmodf x y = x - n*y], [n] the quotient truncated toward zero; the
    operation is exact in IEEE arithmetic, so no rounding follows. *)
Definition fmodf (x y : float) : float :=
  (x - inject_Z (Qtrunc (x / y)) * y)%Q.

Definition Qltb (x y : Q) : bool := negb (Qle_bool y x).
Definition fltb (x y : float) : bool := Qltb x y.

(** Conversion of a float to an integer type with range [lo..hi]. *)
Definition cast_to (lo hi : Z) (x : float) : option Z :=
  let t := Qtrunc x in
  if ((lo <=? t) && (t <=? hi))%Z then Some t else None.

Definition to_uint8 : float -> option Z := cast_to 0 255.
Definition to_uint16 : float -> option Z := cast_to 0 65535.
Definition to_uint32 : float -> option Z := cast_to 0 4294967295.
Definition to_int : float -> option Z := cast_to (-2147483648) 2147483647.

(** A value is a binary32 number when rounding leaves it unchanged. *)
Definition is_float (x : Q) : Prop := b32 x == x.

End F32.

Export F32.

(** Sequencing of computations that may leave defined behaviour. *)
Definition obind {A B : Type} (o : option A) (k : A -> option B) : option B :=
  match o with
  | Some a => k a
  | None => None
  end.

Notation "x <- c ;; k" := (obind c (fun x => k))
  (at level 61, c at next level, right associativity).
Notation "' p <- c ;; k" := (obind c (fun x => match x with p => k end))
  (at level 61, p pattern, c at next level, right associativity).

(* ====================================================================== *)
(** * vtu/can_defs.h *)
(* ====================================================================== *)

Module CanDefs.

Definition CAN_ID_ENGINE_DATA_1 : Z := 0x100.
Definition CAN_ID_ENGINE_DATA_2 : Z := 0x101.
Definition CAN_ID_TRANS_DATA : Z := 0x200.
Definition CAN_ID_BCM_DATA : Z := 0x300.

Definition CAN_ID_OBD_BROADCAST : Z := 0x7DF.
Definition CAN_ID_OBD_ECU_ENGINE : Z := 0x7E0.
Definition CAN_ID_OBD_RESP_ENGINE : Z := 0x7E8.

(** [struct can_frame]: identifier, length code and the 8-byte data array. *)
Record can_frame := mk_frame {
  can_id : Z;
  can_dlc : Z;
  data : list Z
}.

(** [d[i]] for a byte array. *)
Definition byte_at (d : list Z) (i : nat) : Z := nth i d 0%Z.

Definition CAN_GET_U16_BE (d : list Z) (offset : nat) : Z :=
  Z.lor (Z.land (Z.shiftl (byte_at d offset) 8) 0xFFFF) (byte_at d (offset + 1)).

Definition CAN_GET_U8 (d : list Z) (offset : nat) : Z :=
  Z.land (byte_at d offset) 0xFF.

Definition CAN_GET_U16_LE (d : list Z) (offset : nat) : Z :=
  Z.lor (Z.land (Z.shiftl (byte_at d (offset + 1)) 8) 0xFFFF) (byte_at d offset).

Definition ENGINE1_RPM_FACTOR : float := lit (25 # 100).
Definition ENGINE1_COOLANT_OFFSET : Z := 40.
Definition ENGINE1_THROTTLE_FACTOR : float := lit (392157 # 1000000).
Definition ENGINE1_MAF_FACTOR : float := lit (1 # 100).

Definition ENGINE1_GET_RPM (d : list Z) : float :=
  (of_int (CAN_GET_U16_BE d 0) * ENGINE1_RPM_FACTOR)%f32.
Definition ENGINE1_GET_COOLANT (d : list Z) : Z :=
  (CAN_GET_U8 d 2 - ENGINE1_COOLANT_OFFSET)%Z.
Definition ENGINE1_GET_THROTTLE (d : list Z) : float :=
  (of_int (CAN_GET_U8 d 3) * ENGINE1_THROTTLE_FACTOR)%f32.
Definition ENGINE1_GET_MAF (d : list Z) : float :=
  (of_int (CAN_GET_U16_BE d 4) * ENGINE1_MAF_FACTOR)%f32.

Definition TRANS_TEMP_OFFSET : Z := 40.

Definition TRANS_GET_GEAR (d : list Z) : Z := CAN_GET_U8 d 0.
Definition TRANS_GET_FLUID_TEMP (d : list Z) : Z :=
  (CAN_GET_U8 d 1 - TRANS_TEMP_OFFSET)%Z.
Definition TRANS_GET_OUTPUT_RPM (d : list Z) : Z := CAN_GET_U16_BE d 2.

End CanDefs.

Export CanDefs.

(* ====================================================================== *)
(** * vtu/obd2_pids.h *)
(* ====================================================================== *)

Module Obd2.

Definition OBD2_MODE_CURRENT_DATA : Z := 0x01.
Definition OBD2_RESPONSE_OFFSET : Z := 0x40.

Definition OBD2_PID_SUPPORTED_01_20 : Z := 0x00.
Definition OBD2_PID_ENGINE_LOAD : Z := 0x04.
Definition OBD2_PID_COOLANT_TEMP : Z := 0x05.
Definition OBD2_PID_ENGINE_RPM : Z := 0x0C.
Definition OBD2_PID_VEHICLE_SPEED : Z := 0x0D.
Definition OBD2_PID_INTAKE_TEMP : Z := 0x0F.
Definition OBD2_PID_MAF : Z := 0x10.
Definition OBD2_PID_THROTTLE_POS : Z := 0x11.
Definition OBD2_PID_SUPPORTED_21_40 : Z := 0x20.
Definition OBD2_PID_FUEL_LEVEL : Z := 0x2F.
Definition OBD2_PID_AMBIENT_TEMP : Z := 0x46.
Definition OBD2_PID_OIL_TEMP : Z := 0x5C.

Definition obd2_calc_engine_load (a : Z) : float :=
  (of_int a * 100 / 255)%f32.
Definition obd2_calc_coolant_temp (a : Z) : Z := (a - 40)%Z.
Definition obd2_calc_rpm (a b : Z) : float :=
  ((of_int a * 256 + of_int b) / 4)%f32.
Definition obd2_calc_speed (a : Z) : Z := a.
Definition obd2_calc_intake_temp (a : Z) : Z := (a - 40)%Z.
Definition obd2_calc_maf (a b : Z) : float :=
  ((of_int a * 256 + of_int b) / 100)%f32.
Definition obd2_calc_throttle (a : Z) : float :=
  (of_int a * 100 / 255)%f32.
Definition obd2_calc_fuel_level (a : Z) : float :=
  (of_int a * 100 / 255)%f32.
Definition obd2_calc_ambient_temp (a : Z) : Z := (a - 40)%Z.
Definition obd2_calc_oil_temp (a : Z) : Z := (a - 40)%Z.

End Obd2.

Export Obd2.

(* ====================================================================== *)
(** * ecu_sim.c *)
(* ====================================================================== *)

Module EcuSim.

(** The anonymous struct behind the global [vehicle]. *)
Record vehicle_t := mk_vehicle {
  rpm : float;
  coolant_temp : float;
  throttle : float;
  maf : float;
  engine_load : float;
  intake_temp : float;
  gear : Z;
  trans_temp : float;
  fuel_level : float;
  odometer : Z;
  vehicle_speed : float;
  sim_time : float
}.

Definition vehicle_init : vehicle_t :=
  {| rpm := 800; coolant_temp := 85; throttle := 15; maf := 5;
     engine_load := 20; intake_temp := 25; gear := 0; trans_temp := 60;
     fuel_level := 75; odometer := 45231; vehicle_speed := 0;
     sim_time := 0 |}.

(** Process state: the global [vehicle] and the frames written to the
    socket, oldest first. *)
Record ecu := mk_ecu {
  vehicle : vehicle_t;
  bus : list can_frame
}.

Definition ecu_init : ecu := {| vehicle := vehicle_init; bus := [] |}.

(** ** CAN socket *)

(** [can_send]: a zeroed frame receives the identifier, the length and the
    first [len] bytes of [data], and is written to the socket. *)
Definition can_send (id : Z) (d : list Z) (len : Z) (s : ecu) : ecu :=
  let n := Z.to_nat len in
  {| vehicle := vehicle s;
     bus := bus s ++ [ {| can_id := id; can_dlc := len;
                          data := firstn n d ++ repeat 0%Z (8 - n) |} ] |}.

(** [a[i] = x] on a byte array; the stored value is reduced to 8 bits. *)
Fixpoint set_byte (i : nat) (x : Z) (a : list Z) : list Z :=
  match a, i with
  | [], _ => []
  | _ :: t, O => Z.land x 0xFF :: t
  | h :: t, S j => h :: set_byte j x t
  end.

Definition zeroed8 : list Z := repeat 0%Z 8.

(** ** Vehicle simulation *)

Section Simulation.

Variable sinf : float -> float.

(** The four phases assign rpm, throttle, vehicle_speed and gear. *)
Definition drive_phase (cycle t : float) : option (float * float * float * Z) :=
  if fltb cycle 10 then
    Some ((800 + 50 * sinf (t * 2))%f32, 0, 0, 0%Z)
  else if fltb cycle 25 then
    let accel_progress := ((cycle - 10) / 15)%f32 in
    g <- to_int (accel_progress * of_int 5)%f32 ;;
    let gear := (1 + g)%Z in
    Some ((800 + 4200 * accel_progress)%f32,
          (30 + 50 * accel_progress)%f32,
          (120 * accel_progress)%f32,
          if (gear >? 6)%Z then 6%Z else gear)
  else if fltb cycle 45 then
    Some ((2500 + 200 * sinf (t * lit (5 # 10)))%f32,
          (25 + 5 * sinf (t * lit (3 # 10)))%f32,
          (100 + 10 * sinf (t * lit (2 # 10)))%f32,
          6%Z)
  else
    let decel_progress := ((cycle - 45) / 15)%f32 in
    g <- to_int (decel_progress * of_int 5)%f32 ;;
    let gear := (6 - g)%Z in
    Some ((2500 - 1700 * decel_progress)%f32,
          (25 * (1 - decel_progress))%f32,
          (100 * (1 - decel_progress))%f32,
          if (gear <? 0)%Z then 0%Z else gear).

Definition update_vehicle (dt : float) (v : vehicle_t) : option vehicle_t :=
  let t := (sim_time v + dt)%f32 in
  let cycle := fmodf t 60 in
  '(rpm', throttle', speed', gear') <- drive_phase cycle t ;;
  let load := (throttle' * lit (8 # 10) + 10)%f32 in
  let maf' := ((rpm' / 1000) * (load / 100) * 15)%f32 in
  let coolant := (85 + 10 * sinf (t * lit (1 # 100)))%f32 in
  let trans := (70 + 20 * (load / 100))%f32 in
  let intake := (25 + 5 * sinf (t * lit (5 # 100)))%f32 in
  let fuel := (75 - fmodf (t * lit (1 # 100)) 50)%f32 in
  inc <- to_uint32 (speed' * dt / 3600)%f32 ;;
  Some {| rpm := rpm'; coolant_temp := coolant; throttle := throttle';
          maf := maf'; engine_load := load; intake_temp := intake;
          gear := gear'; trans_temp := trans; fuel_level := fuel;
          odometer := ((odometer v + inc) mod 2 ^ 32)%Z;
          vehicle_speed := speed'; sim_time := t |}.

Definition update_simulation (dt : float) (s : ecu) : option ecu :=
  v <- update_vehicle dt (vehicle s) ;;
  Some {| vehicle := v; bus := bus s |}.

(** The argument [0.001f] of the call in [main]. *)
Definition main_dt : float := lit (1 # 1000).

Definition tick : vehicle_t -> option vehicle_t := update_vehicle main_dt.

(** The vehicle after [n] iterations of the main loop. *)
Fixpoint run (n : nat) (v : vehicle_t) : option vehicle_t :=
  match n with
  | O => Some v
  | S k => v' <- run k v ;; tick v'
  end.

End Simulation.

(** ** CAN message generation *)

Definition pct_raw (x : float) : option Z := to_uint8 (x * 255 / 100)%f32.

Definition engine_data_1 (v : vehicle_t) : option (list Z) :=
  rpm_raw <- to_uint16 (rpm v / lit (25 # 100))%f32 ;;
  let d := set_byte 0 (Z.land (Z.shiftr rpm_raw 8) 0xFF) zeroed8 in
  let d := set_byte 1 (Z.land rpm_raw 0xFF) d in
  c <- to_uint8 (coolant_temp v + 40)%f32 ;;
  let d := set_byte 2 c d in
  th <- pct_raw (throttle v) ;;
  let d := set_byte 3 th d in
  maf_raw <- to_uint16 (maf v / lit (1 # 100))%f32 ;;
  let d := set_byte 4 (Z.land (Z.shiftr maf_raw 8) 0xFF) d in
  let d := set_byte 5 (Z.land maf_raw 0xFF) d in
  l <- pct_raw (engine_load v) ;;
  Some (set_byte 6 l d).

Definition send_engine_data_1 (s : ecu) : option ecu :=
  d <- engine_data_1 (vehicle s) ;;
  Some (can_send CAN_ID_ENGINE_DATA_1 d 8 s).

Definition engine_data_2 (v : vehicle_t) : option (list Z) :=
  i <- to_uint8 (intake_temp v + 40)%f32 ;;
  let d := set_byte 0 i zeroed8 in
  l <- pct_raw (engine_load v) ;;
  Some (set_byte 1 l d).

Definition send_engine_data_2 (s : ecu) : option ecu :=
  d <- engine_data_2 (vehicle s) ;;
  Some (can_send CAN_ID_ENGINE_DATA_2 d 8 s).

Definition trans_data (v : vehicle_t) : option (list Z) :=
  let d := set_byte 0 (gear v) zeroed8 in
  t <- to_uint8 (trans_temp v + 40)%f32 ;;
  let d := set_byte 1 t d in
  speed_raw <- to_uint16 (vehicle_speed v) ;;
  let d := set_byte 2 (Z.land (Z.shiftr speed_raw 8) 0xFF) d in
  Some (set_byte 3 (Z.land speed_raw 0xFF) d).

Definition send_trans_data (s : ecu) : option ecu :=
  d <- trans_data (vehicle s) ;;
  Some (can_send CAN_ID_TRANS_DATA d 8 s).

Definition bcm_data (v : vehicle_t) : option (list Z) :=
  f <- pct_raw (fuel_level v) ;;
  let d := set_byte 0 f zeroed8 in
  let d := set_byte 1 (Z.land (Z.shiftr (odometer v) 24) 0xFF) d in
  let d := set_byte 2 (Z.land (Z.shiftr (odometer v) 16) 0xFF) d in
  let d := set_byte 3 (Z.land (Z.shiftr (odometer v) 8) 0xFF) d in
  Some (set_byte 4 (Z.land (odometer v) 0xFF) d).

Definition send_bcm_data (s : ecu) : option ecu :=
  d <- bcm_data (vehicle s) ;;
  Some (can_send CAN_ID_BCM_DATA d 8 s).

(** ** OBD-II response handler *)

(** The [switch (pid)] of [handle_obd2_mode01]: the response array and the
    length [len] it leaves behind. *)
Definition mode01_response (v : vehicle_t) (pid : Z) : option (list Z * Z) :=
  let r := set_byte 1 (OBD2_MODE_CURRENT_DATA + OBD2_RESPONSE_OFFSET) zeroed8 in
  let r := set_byte 2 pid r in
  if (pid =? OBD2_PID_SUPPORTED_01_20)%Z then
    let r := set_byte 0 6 r in
    let r := set_byte 3 0x18 r in
    let r := set_byte 4 0x3E r in
    let r := set_byte 5 0x80 r in
    let r := set_byte 6 0x00 r in
    Some (r, 7%Z)
  else if (pid =? OBD2_PID_ENGINE_LOAD)%Z then
    let r := set_byte 0 3 r in
    x <- pct_raw (engine_load v) ;;
    Some (set_byte 3 x r, 4%Z)
  else if (pid =? OBD2_PID_COOLANT_TEMP)%Z then
    let r := set_byte 0 3 r in
    x <- to_uint8 (coolant_temp v + 40)%f32 ;;
    Some (set_byte 3 x r, 4%Z)
  else if (pid =? OBD2_PID_ENGINE_RPM)%Z then
    let r := set_byte 0 4 r in
    rpm_raw <- to_uint16 (rpm v * 4)%f32 ;;
    let r := set_byte 3 (Z.land (Z.shiftr rpm_raw 8) 0xFF) r in
    let r := set_byte 4 (Z.land rpm_raw 0xFF) r in
    Some (r, 5%Z)
  else if (pid =? OBD2_PID_VEHICLE_SPEED)%Z then
    let r := set_byte 0 3 r in
    x <- to_uint8 (vehicle_speed v) ;;
    Some (set_byte 3 x r, 4%Z)
  else if (pid =? OBD2_PID_INTAKE_TEMP)%Z then
    let r := set_byte 0 3 r in
    x <- to_uint8 (intake_temp v + 40)%f32 ;;
    Some (set_byte 3 x r, 4%Z)
  else if (pid =? OBD2_PID_MAF)%Z then
    let r := set_byte 0 4 r in
    maf_raw <- to_uint16 (maf v * 100)%f32 ;;
    let r := set_byte 3 (Z.land (Z.shiftr maf_raw 8) 0xFF) r in
    let r := set_byte 4 (Z.land maf_raw 0xFF) r in
    Some (r, 5%Z)
  else if (pid =? OBD2_PID_THROTTLE_POS)%Z then
    let r := set_byte 0 3 r in
    x <- pct_raw (throttle v) ;;
    Some (set_byte 3 x r, 4%Z)
  else if (pid =? OBD2_PID_FUEL_LEVEL)%Z then
    let r := set_byte 0 3 r in
    x <- pct_raw (fuel_level v) ;;
    Some (set_byte 3 x r, 4%Z)
  else
    let r := set_byte 0 3 r in
    let r := set_byte 1 0x7F r in
    let r := set_byte 2 OBD2_MODE_CURRENT_DATA r in
    let r := set_byte 3 0x12 r in
    Some (r, 4%Z).

Definition handle_obd2_mode01 (pid : Z) (s : ecu) : option ecu :=
  '(response, len) <- mode01_response (vehicle s) pid ;;
  if (len >? 0)%Z then Some (can_send CAN_ID_OBD_RESP_ENGINE response len s)
  else Some s.

(** The PID on which [process_obd2_request] dispatches. *)
Definition request_pid (frame : can_frame) : Z :=
  if (can_dlc frame >=? 3)%Z then byte_at (data frame) 2 else 0%Z.

Definition request_mode (frame : can_frame) : Z := byte_at (data frame) 1.

Definition process_obd2_request (frame : can_frame) (s : ecu) : option ecu :=
  if negb (can_id frame =? CAN_ID_OBD_BROADCAST)%Z
     && negb (can_id frame =? CAN_ID_OBD_ECU_ENGINE)%Z
  then Some s
  else if (can_dlc frame <? 2)%Z then Some s
  else
    let mode := request_mode frame in
    let pid := request_pid frame in
    if (mode =? OBD2_MODE_CURRENT_DATA)%Z then handle_obd2_mode01 pid s
    else Some s.

(** ** Timing utilities *)

(** Reduction to [uint64_t]. *)
Definition u64 (x : Z) : Z := (x mod 2 ^ 64)%Z.

(** [get_time_ms] on the [timespec] that [clock_gettime] filled in:
    [(uint64_t)tv_sec * 1000 + tv_nsec / 1000000], the division being the
    signed one of [long], the rest unsigned 64-bit arithmetic. *)
Definition get_time_ms (tv_sec tv_nsec : Z) : Z :=
  u64 (u64 (u64 tv_sec * 1000) + u64 (Z.quot tv_nsec 1000000)).

(** [sleep_ms]: the [timespec] (seconds, nanoseconds) handed to
    [nanosleep]. *)
Definition sleep_ms (ms : Z) : Z * Z :=
  (Z.quot ms 1000, (Z.rem ms 1000 * 1000000)%Z).

(** ** Main loop *)

Definition ENGINE_CYCLE_MS : Z := 10.
Definition ENGINE2_CYCLE_MS : Z := 100.
Definition TRANS_CYCLE_MS : Z := 50.
Definition BCM_CYCLE_MS : Z := 100.

(** The four [last_*] locals of [main]. *)
Record timers := mk_timers {
  last_engine1 : Z;
  last_engine2 : Z;
  last_trans : Z;
  last_bcm : Z
}.

(** [now - last >= period] on [uint64_t]. *)
Definition due (now last period : Z) : bool := (period <=? u64 (now - last))%Z.

(** [if (now - last >= period) { send(sock); last = now; }] *)
Definition periodic (now last period : Z) (send : ecu -> option ecu) (s : ecu)
    : option (ecu * Z) :=
  if due now last period then s' <- send s ;; Some (s', now)
  else Some (s, last).

Section MainLoop.

Variable sinf : float -> float.

(** One pass of the [while (running)] loop: [now] is what [get_time_ms]
    returned, [rx] the frame [can_receive] delivered, if it delivered one. *)
Definition loop_pass (now : Z) (rx : option can_frame) (st : ecu * timers)
    : option (ecu * timers) :=
  let tm := snd st in
  s <- update_simulation sinf main_dt (fst st) ;;
  '(s, l1) <- periodic now (last_engine1 tm) ENGINE_CYCLE_MS send_engine_data_1 s ;;
  '(s, l2) <- periodic now (last_engine2 tm) ENGINE2_CYCLE_MS send_engine_data_2 s ;;
  '(s, l3) <- periodic now (last_trans tm) TRANS_CYCLE_MS send_trans_data s ;;
  '(s, l4) <- periodic now (last_bcm tm) BCM_CYCLE_MS send_bcm_data s ;;
  s <- match rx with
       | Some frame => process_obd2_request frame s
       | None => Some s
       end ;;
  Some (s, {| last_engine1 := l1; last_engine2 := l2;
              last_trans := l3; last_bcm := l4 |}).

(** The passes made while [running] stays set, one input per pass. *)
Fixpoint main_loop (inputs : list (Z * option can_frame)) (st : ecu * timers)
    : option (ecu * timers) :=
  match inputs with
  | [] => Some st
  | (now, rx) :: rest => st' <- loop_pass now rx st ;; main_loop rest st'
  end.

End MainLoop.

(** The state at the first test of [running]: [now] is the first reading of
    the clock, copied to the four timers. *)
Definition main_init (now : Z) : ecu * timers :=
  (ecu_init, {| last_engine1 := now; last_engine2 := now;
                last_trans := now; last_bcm := now |}).

End EcuSim.

Export EcuSim.

(* ====================================================================== *)
(** * ecu_sim.c with the conversions of the implementation *)
(* ====================================================================== *)

(** Conversions beyond the range of the target type.

    C gives no result for the conversion of a float whose integral part
    does not fit the unsigned target; the program goes on with whatever the
    implementation stores.  [oor hi k] stands for that value, for the
    integral part [k] and a target type of maximum [hi]. *)

Section OutOfRange.

Variable oor : Z -> Z -> Z.





End OutOfRange.

(* ====================================================================== *)
(** * Integer conversions of C *)
(* ====================================================================== *)

Module CInt.

Local Open Scope Z_scope.

Definition INT_MAX : Z := 2147483647.

(** Conversion to an unsigned type reduces modulo [2^w]. *)
Definition to_u8 (x : Z) : Z := (x mod 2 ^ 8)%Z.
Definition to_u16 (x : Z) : Z := (x mod 2 ^ 16)%Z.
Definition to_u32 (x : Z) : Z := (x mod 2 ^ 32)%Z.

(** Conversion to [int8_t]: implementation-defined for values that do not
    fit; GCC and Clang reduce modulo [2^8] into [-128..127]. *)
Definition to_i8 (x : Z) : Z := ((x + 128) mod 2 ^ 8 - 128)%Z.

(** [x << n] on [int]: defined for a non-negative [x] whose shifted value
    fits. *)
Definition shl_int (x : Z) (n : Z) : option Z :=
  if ((0 <=? x) && (Z.shiftl x n <=? INT_MAX))%Z then Some (Z.shiftl x n)
  else None.

End CInt.

Export CInt.

(* ====================================================================== *)
(** * vtu/dtc_codes.h *)
(* ====================================================================== *)

Module DtcCodes.

Import Stdlib.Strings.String Stdlib.Strings.Ascii.
Local Open Scope Z_scope.
Local Open Scope string_scope.

Definition DTC_P0100_DESC := "Mass Air Flow Circuit Malfunction".
Definition DTC_P0101_DESC := "Mass Air Flow Circuit Range/Performance".
Definition DTC_P0102_DESC := "Mass Air Flow Circuit Low Input".
Definition DTC_P0103_DESC := "Mass Air Flow Circuit High Input".
Definition DTC_P0115_DESC := "Engine Coolant Temperature Circuit Malfunction".
Definition DTC_P0116_DESC := "Engine Coolant Temperature Circuit Range/Performance".
Definition DTC_P0117_DESC := "Engine Coolant Temperature Circuit Low Input".
Definition DTC_P0118_DESC := "Engine Coolant Temperature Circuit High Input".
Definition DTC_P0120_DESC := "Throttle Position Sensor Circuit Malfunction".
Definition DTC_P0121_DESC := "Throttle Position Sensor Circuit Range/Performance".
Definition DTC_P0171_DESC := "System Too Lean (Bank 1)".
Definition DTC_P0172_DESC := "System Too Rich (Bank 1)".
Definition DTC_P0300_DESC := "Random/Multiple Cylinder Misfire Detected".
Definition DTC_P0301_DESC := "Cylinder 1 Misfire Detected".
Definition DTC_P0302_DESC := "Cylinder 2 Misfire Detected".
Definition DTC_P0303_DESC := "Cylinder 3 Misfire Detected".
Definition DTC_P0304_DESC := "Cylinder 4 Misfire Detected".
Definition DTC_P0420_DESC := "Catalyst System Efficiency Below Threshold (Bank 1)".
Definition DTC_P0430_DESC := "Catalyst System Efficiency Below Threshold (Bank 2)".
Definition DTC_P0440_DESC := "Evaporative Emission Control System Malfunction".
Definition DTC_P0442_DESC :=
  "Evaporative Emission Control System Leak Detected (small leak)".
Definition DTC_P0455_DESC :=
  "Evaporative Emission Control System Leak Detected (large leak)".
Definition DTC_P0500_DESC := "Vehicle Speed Sensor Malfunction".
Definition DTC_P0505_DESC := "Idle Control System Malfunction".
Definition DTC_P0700_DESC := "Transmission Control System Malfunction".
Definition DTC_P0715_DESC := "Input/Turbine Speed Sensor Circuit Malfunction".
Definition DTC_P0720_DESC := "Output Speed Sensor Circuit Malfunction".

(** Value of a [char]; plain [char] is unsigned on the ARM targets the
    project builds for. *)
Definition char_code (c : ascii) : Z := Z.of_N (N_of_ascii c).

(** Conversion of an [int] to [char]. *)
Definition chr (z : Z) : ascii := ascii_of_N (Z.to_N (to_u8 z)).

(** [s[i]] for a C string: its characters, then the terminating NUL; there
    is no defined value beyond the terminator. *)
Definition char_at (s : string) (i : nat) : option Z :=
  match get i s with
  | Some c => Some (char_code c)
  | None => if Nat.eqb i (length s) then Some 0%Z else None
  end.

Definition categories : list ascii := ["P"%char; "C"%char; "B"%char; "U"%char].

(** [dtc_decode]: the C string left in [out]. *)
Definition dtc_decode (byte1 byte2 : Z) : string :=
  String (nth (Z.to_nat (Z.land (Z.shiftr byte1 6) 0x03)) categories zero)
 (String (chr (char_code "0" + Z.land (Z.shiftr byte1 4) 0x03))
 (String (chr (char_code "0" + Z.land byte1 0x0F))
 (String (chr (char_code "0" + Z.land (Z.shiftr byte2 4) 0x0F))
 (String (chr (char_code "0" + Z.land byte2 0x0F))
  EmptyString)))).

(** The [switch (dtc[0])] of [dtc_encode]. *)
Definition category_of (c : Z) : option Z :=
  if ((c =? char_code "P") || (c =? char_code "p"))%Z then Some 0%Z
  else if ((c =? char_code "C") || (c =? char_code "c"))%Z then Some 1%Z
  else if ((c =? char_code "B") || (c =? char_code "b"))%Z then Some 2%Z
  else if ((c =? char_code "U") || (c =? char_code "u"))%Z then Some 3%Z
  else None.

(** [dtc_encode]: the return value and the contents of [*byte1] and
    [*byte2] afterwards, given their contents before the call. *)
Definition dtc_encode (dtc : string) (byte1 byte2 : Z) : option (Z * Z * Z) :=
  c0 <- char_at dtc 0 ;;
  match category_of c0 with
  | None => Some ((-1)%Z, byte1, byte2)
  | Some cat =>
      c1 <- char_at dtc 1 ;;
      h1 <- shl_int (c1 - char_code "0") 4 ;;
      c2 <- char_at dtc 2 ;;
      let byte1 := to_u8 (Z.lor (Z.lor (Z.shiftl cat 6) h1) (c2 - char_code "0")) in
      c3 <- char_at dtc 3 ;;
      h3 <- shl_int (c3 - char_code "0") 4 ;;
      c4 <- char_at dtc 4 ;;
      let byte2 := to_u8 (Z.lor h3 (c4 - char_code "0")) in
      Some (0%Z, byte1, byte2)
  end.

End DtcCodes.

(* ====================================================================== *)
(** * vtu_common.c *)
(* ====================================================================== *)

Module VtuCommon.

Import Stdlib.Strings.String Stdlib.Strings.Ascii.
Import DtcCodes.
Local Open Scope Z_scope.
Local Open Scope string_scope.

(** [strcmp(a, b) == 0] *)
Definition streq (a b : string) : bool := String.eqb a b.

Definition vtu_get_dtc_description (dtc_code : string) : string :=
  if streq dtc_code "P0100" then DTC_P0100_DESC
  else if streq dtc_code "P0101" then DTC_P0101_DESC
  else if streq dtc_code "P0102" then DTC_P0102_DESC
  else if streq dtc_code "P0103" then DTC_P0103_DESC
  else if streq dtc_code "P0115" then DTC_P0115_DESC
  else if streq dtc_code "P0116" then DTC_P0116_DESC
  else if streq dtc_code "P0117" then DTC_P0117_DESC
  else if streq dtc_code "P0118" then DTC_P0118_DESC
  else if streq dtc_code "P0120" then DTC_P0120_DESC
  else if streq dtc_code "P0121" then DTC_P0121_DESC
  else if streq dtc_code "P0171" then DTC_P0171_DESC
  else if streq dtc_code "P0172" then DTC_P0172_DESC
  else if streq dtc_code "P0300" then DTC_P0300_DESC
  else if streq dtc_code "P0301" then DTC_P0301_DESC
  else if streq dtc_code "P0302" then DTC_P0302_DESC
  else if streq dtc_code "P0303" then DTC_P0303_DESC
  else if streq dtc_code "P0304" then DTC_P0304_DESC
  else if streq dtc_code "P0420" then DTC_P0420_DESC
  else if streq dtc_code "P0430" then DTC_P0430_DESC
  else if streq dtc_code "P0440" then DTC_P0440_DESC
  else if streq dtc_code "P0442" then DTC_P0442_DESC
  else if streq dtc_code "P0455" then DTC_P0455_DESC
  else if streq dtc_code "P0500" then DTC_P0500_DESC
  else if streq dtc_code "P0505" then DTC_P0505_DESC
  else if streq dtc_code "P0700" then DTC_P0700_DESC
  else if streq dtc_code "P0715" then DTC_P0715_DESC
  else if streq dtc_code "P0720" then DTC_P0720_DESC
  else "Unknown DTC".

Definition vtu_get_pid_name (pid : Z) : string :=
  if (pid =? OBD2_PID_ENGINE_LOAD)%Z then "Engine Load"
  else if (pid =? OBD2_PID_COOLANT_TEMP)%Z then "Coolant Temperature"
  else if (pid =? OBD2_PID_ENGINE_RPM)%Z then "Engine RPM"
  else if (pid =? OBD2_PID_VEHICLE_SPEED)%Z then "Vehicle Speed"
  else if (pid =? OBD2_PID_INTAKE_TEMP)%Z then "Intake Air Temperature"
  else if (pid =? OBD2_PID_MAF)%Z then "MAF Air Flow Rate"
  else if (pid =? OBD2_PID_THROTTLE_POS)%Z then "Throttle Position"
  else if (pid =? OBD2_PID_FUEL_LEVEL)%Z then "Fuel Tank Level"
  else if (pid =? OBD2_PID_AMBIENT_TEMP)%Z then "Ambient Air Temperature"
  else if (pid =? OBD2_PID_OIL_TEMP)%Z then "Engine Oil Temperature"
  else "Unknown PID".

Definition vtu_get_pid_units (pid : Z) : string :=
  if (pid =? OBD2_PID_ENGINE_LOAD)%Z then "%"
  else if (pid =? OBD2_PID_COOLANT_TEMP)%Z then "°C"
  else if (pid =? OBD2_PID_ENGINE_RPM)%Z then "rpm"
  else if (pid =? OBD2_PID_VEHICLE_SPEED)%Z then "km/h"
  else if (pid =? OBD2_PID_INTAKE_TEMP)%Z then "°C"
  else if (pid =? OBD2_PID_MAF)%Z then "g/s"
  else if (pid =? OBD2_PID_THROTTLE_POS)%Z then "%"
  else if (pid =? OBD2_PID_FUEL_LEVEL)%Z then "%"
  else if (pid =? OBD2_PID_AMBIENT_TEMP)%Z then "°C"
  else if (pid =? OBD2_PID_OIL_TEMP)%Z then "°C"
  else "".

Definition vtu_common_version : string := "1.0.0".

End VtuCommon.

(* ====================================================================== *)
(** * telemetry_main.c *)
(* ====================================================================== *)

Module Telemetry.

Local Open Scope Z_scope.

Definition CAN_ID_ENGINE : Z := 0x100.
Definition CAN_ID_THROTTLE : Z := 0x101.
Definition CAN_ID_SPEED : Z := 0x200.
Definition CAN_ID_FUEL : Z := 0x300.

(** From [linux/can.h]. *)
Definition CAN_SFF_MASK : Z := 0x7FF.

(** The vehicle state decoded from CAN: [uint16_t rpm], [int8_t
    coolant_temp], [uint32_t odometer], [time_t last_update], the rest
    [uint8_t]. *)
Record vehicle_t := mk_vehicle {
  rpm : Z;
  coolant_temp : Z;
  engine_load : Z;
  throttle : Z;
  speed : Z;
  odometer : Z;
  fuel_level : Z;
  last_update : Z
}.

(** [vehicle = {0}] *)
Definition vehicle_init : vehicle_t :=
  {| rpm := 0; coolant_temp := 0; engine_load := 0; throttle := 0;
     speed := 0; odometer := 0; fuel_level := 0; last_update := 0 |}.

(** [decode_can_frame]; [now] is the value [time(NULL)] returns. *)
Definition decode_can_frame (now : Z) (frame : can_frame) (v : vehicle_t)
    : vehicle_t :=
  let d := byte_at (data frame) in
  let id := Z.land (can_id frame) CAN_SFF_MASK in
  if (id =? CAN_ID_ENGINE)%Z then
    let rpm0 := to_u16 (Z.lor (Z.shiftl (d 0%nat) 8) (d 1%nat)) in
    {| rpm := to_u16 (Z.quot rpm0 4);
       coolant_temp := to_i8 (d 2%nat - 40);
       engine_load := to_u8 (d 3%nat);
       throttle := throttle v; speed := speed v; odometer := odometer v;
       fuel_level := fuel_level v;
       last_update := now |}
  else if (id =? CAN_ID_THROTTLE)%Z then
    {| rpm := rpm v; coolant_temp := coolant_temp v;
       engine_load := engine_load v;
       throttle := to_u8 (Z.quot (d 0%nat * 100) 255);
       speed := speed v; odometer := odometer v; fuel_level := fuel_level v;
       last_update := last_update v |}
  else if (id =? CAN_ID_SPEED)%Z then
    {| rpm := rpm v; coolant_temp := coolant_temp v;
       engine_load := engine_load v; throttle := throttle v;
       speed := to_u8 (d 0%nat);
       odometer := to_u32 (Z.lor (Z.lor (Z.shiftl (d 2%nat) 16)
                                        (Z.shiftl (d 3%nat) 8)) (d 4%nat));
       fuel_level := fuel_level v; last_update := last_update v |}
  else if (id =? CAN_ID_FUEL)%Z then
    {| rpm := rpm v; coolant_temp := coolant_temp v;
       engine_load := engine_load v; throttle := throttle v;
       speed := speed v; odometer := odometer v;
       fuel_level := to_u8 (Z.quot (d 0%nat * 100) 255);
       last_update := last_update v |}
  else v.

End Telemetry.

(* ====================================================================== *)
(** * obdgw_main.c *)
(* ====================================================================== *)

Module ObdGw.

Local Open Scope Z_scope.

Definition OBD2_REQUEST_BROADCAST : Z := 0x7DF.
Definition OBD2_REQUEST_ECU1 : Z := 0x7E0.
Definition OBD2_RESPONSE_ECU1 : Z := 0x7E8.

(** The gateway's own [vehicle_state]: [uint16_t rpm, engine_load, maf],
    [int8_t coolant_temp], the rest [uint8_t]. *)
Record vehicle_state_t := mk_state {
  rpm : Z;
  speed : Z;
  coolant_temp : Z;
  throttle : Z;
  fuel_level : Z;
  engine_load : Z;
  maf : Z;
  intake_temp : Z
}.

Definition vehicle_state_init : vehicle_state_t :=
  {| rpm := 850; speed := 0; coolant_temp := 90; throttle := 15;
     fuel_level := 75; engine_load := 25; maf := 10; intake_temp := 25 |}.

(** [update_simulation]: the state is the [static int tick] and
    [vehicle_state]; [r1 r2 r3] are the values the three calls of [rand]
    return. *)
Definition update_simulation (r1 r2 r3 : Z) (st : Z * vehicle_state_t)
    : option (Z * vehicle_state_t) :=
  let '(tick, v) := st in
  if (tick =? INT_MAX)%Z then None
  else
    let tick := (tick + 1)%Z in
    let coolant :=
      if (Z.rem tick 10 =? 0)%Z then
        if (coolant_temp v <? 95)%Z then to_i8 (coolant_temp v + 1)
        else coolant_temp v
      else coolant_temp v in
    Some (tick,
          {| rpm := to_u16 (800 + Z.rem r1 100);
             speed := speed v;
             coolant_temp := coolant;
             throttle := to_u8 (12 + Z.rem r2 6);
             fuel_level := fuel_level v;
             engine_load := to_u16 (20 + Z.rem r3 10);
             maf := maf v;
             intake_temp := intake_temp v |}).

(** [build_mode01_response]: the frame left in [*response] for return
    value 0, [None] for -1. *)
Definition build_mode01_response (pid : Z) (v : vehicle_state_t)
    : option can_frame :=
  let positive (n : Z) (r : list Z) : list Z :=
    set_byte 2 pid (set_byte 1 0x41 (set_byte 0 n r)) in
  let frame (r : list Z) : option can_frame :=
    Some {| can_id := OBD2_RESPONSE_ECU1; can_dlc := 8; data := r |} in
  if (pid =? OBD2_PID_ENGINE_LOAD)%Z then
    let r := positive 3 zeroed8 in
    frame (set_byte 3 (Z.quot (engine_load v * 255) 100) r)
  else if (pid =? OBD2_PID_COOLANT_TEMP)%Z then
    let r := positive 3 zeroed8 in
    frame (set_byte 3 (coolant_temp v + 40) r)
  else if (pid =? OBD2_PID_ENGINE_RPM)%Z then
    let rpm_encoded := to_u16 (rpm v * 4) in
    let r := positive 4 zeroed8 in
    let r := set_byte 3 (Z.land (Z.shiftr rpm_encoded 8) 0xFF) r in
    frame (set_byte 4 (Z.land rpm_encoded 0xFF) r)
  else if (pid =? OBD2_PID_VEHICLE_SPEED)%Z then
    let r := positive 3 zeroed8 in
    frame (set_byte 3 (speed v) r)
  else if (pid =? OBD2_PID_INTAKE_TEMP)%Z then
    let r := positive 3 zeroed8 in
    frame (set_byte 3 (intake_temp v + 40) r)
  else if (pid =? OBD2_PID_MAF)%Z then
    let maf_encoded := to_u16 (maf v * 100) in
    let r := positive 4 zeroed8 in
    let r := set_byte 3 (Z.land (Z.shiftr maf_encoded 8) 0xFF) r in
    frame (set_byte 4 (Z.land maf_encoded 0xFF) r)
  else if (pid =? OBD2_PID_THROTTLE_POS)%Z then
    let r := positive 3 zeroed8 in
    frame (set_byte 3 (Z.quot (throttle v * 255) 100) r)
  else if (pid =? OBD2_PID_FUEL_LEVEL)%Z then
    let r := positive 3 zeroed8 in
    frame (set_byte 3 (Z.quot (fuel_level v * 255) 100) r)
  else if (pid =? OBD2_PID_SUPPORTED_01_20)%Z then
    let r := positive 6 zeroed8 in
    let r := set_byte 3 0x18 r in
    let r := set_byte 4 0x38 r in
    let r := set_byte 5 0x80 r in
    frame (set_byte 6 0x01 r)
  else if (pid =? OBD2_PID_SUPPORTED_21_40)%Z then
    let r := positive 6 zeroed8 in
    let r := set_byte 3 0x00 r in
    let r := set_byte 4 0x00 r in
    let r := set_byte 5 0x40 r in
    frame (set_byte 6 0x00 r)
  else None.

(** [process_obd2_request]: the frames written to the socket so far, and
    afterwards. *)
Definition process_obd2_request (request : can_frame) (v : vehicle_state_t)
    (bus : list can_frame) : list can_frame :=
  let length := byte_at (data request) 0 in
  let mode := byte_at (data request) 1 in
  let pid := byte_at (data request) 2 in
  if (length <? 2)%Z then bus
  else if (mode =? OBD2_MODE_CURRENT_DATA)%Z then
    match build_mode01_response pid v with
    | Some response => bus ++ [response]
    | None => bus
    end
  else bus.

(** What a pass of the loop of [main] meets: a frame read in full, no
    frame (time-out, interrupted [select], short read), or a failed [read],
    after which the pass is abandoned by [continue]. *)
Inductive event :=
  | Received (frame : can_frame)
  | Idle
  | ReadFailed.

(** One pass of the loop; [r] holds the three values [rand] returns when
    the pass reaches [update_simulation]. *)
Definition loop_pass (e : event) (r : Z * Z * Z)
    (st : Z * vehicle_state_t * list can_frame)
    : option (Z * vehicle_state_t * list can_frame) :=
  let '(tick, v, bus) := st in
  let '(r1, r2, r3) := r in
  match e with
  | ReadFailed => Some st
  | _ =>
      let bus := match e with
                 | Received frame => process_obd2_request frame v bus
                 | _ => bus
                 end in
      '(tick, v) <- update_simulation r1 r2 r3 (tick, v) ;;
      Some (tick, v, bus)
  end.

Fixpoint main_loop (inputs : list (event * (Z * Z * Z)))
    (st : Z * vehicle_state_t * list can_frame)
    : option (Z * vehicle_state_t * list can_frame) :=
  match inputs with
  | [] => Some st
  | (e, r) :: rest => st' <- loop_pass e r st ;; main_loop rest st'
  end.

Definition main_init : Z * vehicle_state_t * list can_frame :=
  (0, vehicle_state_init, []).

End ObdGw.

(* ====================================================================== *)
(** * Vocabulary of the statements *)
(* ====================================================================== *)

Definition reply (s : ecu) (f : can_frame) : ecu :=
  {| vehicle := vehicle s; bus := bus s ++ [f] |}.

Definition obd_response (len : Z) (payload : list Z) : can_frame :=
  {| can_id := CAN_ID_OBD_RESP_ENGINE; can_dlc := len; data := payload |}.

Definition obd_request_id (frame : can_frame) : Prop :=
  can_id frame = CAN_ID_OBD_BROADCAST \/ can_id frame = CAN_ID_OBD_ECU_ENGINE.

Definition supported_pids : list Z :=
  [0x00; 0x04; 0x05; 0x0C; 0x0D; 0x0F; 0x10; 0x11; 0x2F]%Z.

Definition negative_response : can_frame :=
  obd_response 4 [0x03; 0x7F; 0x01; 0x12; 0; 0; 0; 0]%Z.

Definition bitmap_response : can_frame :=
  obd_response 7 [0x06; 0x41; 0x00; 0x18; 0x3E; 0x80; 0x00; 0]%Z.

(** A positive answer to a supported-PID query: declared length 6, service
    byte 0x41, the PID, then four bitmap bytes. *)
Definition is_bitmap_response (pid : Z) (f : can_frame) : Prop :=
  exists b3 b4 b5 b6 : Z,
    f = obd_response 7 [0x06; 0x41; pid; b3; b4; b5; b6; 0]%Z.

Definition request (id dlc : Z) (payload : list Z) : can_frame :=
  {| can_id := id; can_dlc := dlc; data := payload |}.

(** A vehicle in second gear at 2000 rpm. *)
Definition v_rpm_2000 : vehicle_t :=
  {| rpm := 2000; coolant_temp := 85; throttle := 15; maf := 5;
     engine_load := 20; intake_temp := 25; gear := 2; trans_temp := 60;
     fuel_level := 75; odometer := 45231; vehicle_speed := 30;
     sim_time := 12 |}.

(** The declared ranges of the physical fields. *)
Definition in_bounds (v : vehicle_t) : Prop :=
  0 <= rpm v <= 16383.75 /\
  0 <= throttle v <= 100 /\
  0 <= engine_load v <= 100 /\
  0 <= fuel_level v <= 100 /\
  0 <= vehicle_speed v <= 255 /\
  (0 <= gear v <= 7)%Z.

(** What every phase of the driving cycle guarantees for the rpm, throttle,
    vehicle_speed and gear it assigns. *)
Definition phase_ok (r : Q * Q * Q * Z) : Prop :=
  let '(rpm', throttle', speed', gear') := r in
  750 <= rpm' <= 5000 /\ 0 <= throttle' <= 80 /\ 0 <= speed' <= 120 /\
  (0 <= gear' <= 6)%Z.

(** Unit roundoff and underflow threshold of binary32. *)
Definition u32 : Q := 2 ^ (-24).
Definition eta32 : Q := 2 ^ (-150).

(** Numbers of the binary32 grid: an integer significand of at most 24 bits
    times a power of two not below [2^-149]. *)
Definition on_grid (x : Q) : Prop :=
  exists m e : Z, (Z.abs m <= 2 ^ 24)%Z /\ (-149 <= e)%Z /\ x == inject_Z m * 2 ^ e.

(** The position in the 60-second driving cycle at which a state was
    computed. *)
Definition cycle_of (v : vehicle_t) : Q := fmodf (sim_time v) 60.

(** Two consecutive states lie on either side of the boundary [b]. *)
Definition crosses (b : Q) (v1 v2 : vehicle_t) : Prop :=
  cycle_of v1 < b /\ b <= cycle_of v2.

(** From one state to the next, rpm changes by at most [dr] and
    vehicle_speed by at most [ds]. *)
Definition jump_within (dr ds : Q) (v1 v2 : vehicle_t) : Prop :=
  Qabs (rpm v2 - rpm v1) <= dr /\
  Qabs (vehicle_speed v2 - vehicle_speed v1) <= ds.

(** A cycle position within 1/256 s after, respectively before, a boundary. *)
Definition near_start (lo c : Q) : Prop := lo <= c <= lo + (1 # 256).
Definition near_end (hi c : Q) : Prop := hi - (1 # 256) <= c < hi.

(** [sim_time] after [n] iterations of the main loop. *)
Fixpoint clock (n : nat) : float :=
  match n with
  | O => 0
  | S k => (clock k + main_dt)%f32
  end.

(** The claim of continuity at the boundary [b], with bounds [dr] on the
    change of rpm and [ds] on the change of vehicle_speed. *)
Definition continuous_at (sinf : float -> float) (b dr ds : Q) : Prop :=
  forall n v1 v2,
    run sinf n vehicle_init = Some v1 -> tick sinf v1 = Some v2 ->
    crosses b v1 v2 -> jump_within dr ds v1 v2.

(** The initial vehicle with its clock set to [t]. *)
Definition at_time (t : float) : vehicle_t :=
  {| rpm := 800; coolant_temp := 85; throttle := 15; maf := 5;
     engine_load := 20; intake_temp := 25; gear := 0; trans_temp := 60;
     fuel_level := 75; odometer := 45231; vehicle_speed := 0;
     sim_time := t |}.

(** Modelled from the spec: the decode rule of ENGINE_1 byte 6,
    [load = raw * 100/255]; [can_defs.h] lists the byte as reserved and has no
    macro for it. *)
Definition ENGINE1_GET_LOAD (d : list Z) : Q :=
  inject_Z (CAN_GET_U8 d 6) * 100 / 255.

(** Modelled from the spec: the decode rule of BCM byte 0,
    [fuel = raw * 100/255]; [can_defs.h] has no macros for the BCM message. *)
Definition BCM_GET_FUEL_LEVEL (d : list Z) : Q :=
  inject_Z (CAN_GET_U8 d 0) * 100 / 255.

(** Modelled from the spec: the decode rule of BCM bytes 1-4,
    [odometer = raw], a big-endian 32-bit value. *)
Definition BCM_GET_ODOMETER (d : list Z) : Z :=
  (byte_at d 1 * 2 ^ 24 + byte_at d 2 * 2 ^ 16 + byte_at d 3 * 2 ^ 8
   + byte_at d 4)%Z.

(** States whose fields lie in the ranges the payload layout declares. *)
Definition encodable (v : vehicle_t) : Prop :=
  is_float (rpm v) /\ 0 <= rpm v <= 16383.75 /\
  -40 <= coolant_temp v <= 215 /\
  0 <= throttle v <= 100 /\
  0 <= maf v <= 655.35 /\
  0 <= engine_load v <= 100 /\
  (0 <= gear v <= 7)%Z /\
  -40 <= trans_temp v <= 215 /\
  0 <= fuel_level v <= 100 /\
  (0 <= odometer v < 2 ^ 32)%Z /\
  0 <= vehicle_speed v <= 255.

(** Decoded values of the three payloads against the state they encode,
    with tolerance [tm] for maf, [tt] for the temperatures and [ts] for
    vehicle_speed. *)
Definition decodes_within (tm tt ts : Q) (v : vehicle_t)
    (d1 d2 d3 : list Z) : Prop :=
  Qabs (rpm v - ENGINE1_GET_RPM d1) < 0.25 /\
  Qabs (maf v - ENGINE1_GET_MAF d1) <= tm /\
  Qabs (throttle v - ENGINE1_GET_THROTTLE d1) < 100 / 255 /\
  Qabs (engine_load v - ENGINE1_GET_LOAD d1) < 100 / 255 /\
  Qabs (fuel_level v - BCM_GET_FUEL_LEVEL d3) < 100 / 255 /\
  Qabs (coolant_temp v - inject_Z (ENGINE1_GET_COOLANT d1)) <= tt /\
  Qabs (trans_temp v - inject_Z (TRANS_GET_FLUID_TEMP d2)) <= tt /\
  Qabs (vehicle_speed v - inject_Z (TRANS_GET_OUTPUT_RPM d2)) <= ts /\
  TRANS_GET_GEAR d2 = gear v /\
  BCM_GET_ODOMETER d3 = odometer v.

(** A state inside all declared ranges with fractional temperatures and
    speed. *)
Definition v_fractional : vehicle_t :=
  {| rpm := 2000; coolant_temp := 85.5; throttle := 15;
     maf := lit 16.039999; engine_load := 20; intake_temp := 25; gear := 3;
     trans_temp := 60.5; fuel_level := 75; odometer := 45231;
     vehicle_speed := 50.5; sim_time := 12 |}.

(** The payloads of [v_fractional]. *)
Definition d1_fractional : list Z := [0x1F; 0x40; 125; 38; 0x06; 0x43; 51; 0]%Z.
Definition d2_fractional : list Z := [3; 100; 0; 50; 0; 0; 0; 0]%Z.
Definition d3_fractional : list Z := [191; 0x00; 0x00; 0xB0; 0xAF; 0; 0; 0]%Z.






(** ** The standard library's IEEE specification

    [SpecFloat] specifies the IEEE operations on a (sign, significand,
    exponent) representation; at precision 24 and exponent bound 128 it is
    binary32.  The definitions below allow [b32] to be compared with it. *)

(** Value of a finite number of [SpecFloat]. *)
Definition SF2Q (f : spec_float) : option Q :=
  match f with
  | S754_zero _ => Some 0
  | S754_finite s m e =>
      Some ((if s then - inject_Z (Zpos m) else inject_Z (Zpos m)) * 2 ^ e)
  | _ => None
  end.

(** The binary32 number nearest to [n/d], by [SpecFloat]'s division. *)
Definition SFratio (n d : positive) : spec_float :=
  SFdiv 24 128 (binary_normalize 24 128 (Zpos n) 0 false)
               (binary_normalize 24 128 (Zpos d) 0 false).

Definition agree (f : spec_float) (x : Q) : bool :=
  match SF2Q f with
  | Some y => Qeq_bool y x
  | None => false
  end.

(** ** A concrete [sinf]

    Statements about the simulation hold for every [sinf] with values in
    [-1, 1].  Where a run has to be evaluated, the following function takes
    the place of libm: reduction by multiples of pi, then the Taylor
    polynomial of degree 11, rounded to binary32 and clamped to [-1, 1]. *)

Definition pi_approx : Q := 3141592653589793 # 1000000000000000.

Definition clamp1 (x : Q) : Q :=
  if Qle_bool x (-1) then -1 else if Qle_bool 1 x then 1 else x.

(** Odd Taylor polynomial of the sine up to degree 11, in Horner form. *)
Definition sin_poly (r : Q) : Q :=
  let r2 := r * r in
  r * (1 - r2 / 6 * (1 - r2 / 20 * (1 - r2 / 42 * (1 - r2 / 72 * (1 - r2 / 110))))).

Definition sinf_model (x : float) : float :=
  let k := RNE (x / pi_approx) in
  let r := b32 (x - inject_Z k * pi_approx) in
  let s := b32 (sin_poly r) in
  clamp1 (if Z.even k then s else - s).

(** Two ticks from [at_time t0] under [sinf_model] straddle the boundary
    [b], and the two states satisfy [concl]. *)
Definition boundary_case (t0 : float) (b : Q)
    (concl : vehicle_t -> vehicle_t -> Prop) : Prop :=
  exists v1 v2,
    (0 <= sim_time (at_time t0) <= 32768 /\
     tick sinf_model (at_time t0) = Some v1 /\ tick sinf_model v1 = Some v2 /\
     crosses b v1 v2) /\ concl v1 v2.

(* ====================================================================== *)
(** * Vocabulary of the further properties *)
(* ====================================================================== *)

(** States every Mode 01 answer is defined for: each value inside the range
    of the field that carries it. *)
Definition answerable (v : vehicle_t) : Prop :=
  0 <= engine_load v <= 100 /\
  -40 <= coolant_temp v <= 215 /\
  0 <= rpm v <= 16383.75 /\
  0 <= vehicle_speed v <= 255 /\
  -40 <= intake_temp v <= 215 /\
  0 <= maf v <= 655.35 /\
  0 <= throttle v <= 100 /\
  0 <= fuel_level v <= 100.

(** A frame as the kernel delivers it: eight data bytes, each in 0..255;
    the length code says how many are payload, the rest is zero. *)
Definition tidy_frame (f : can_frame) : Prop :=
  length (data f) = 8%nat /\
  Forall (fun b => (0 <= b <= 255)%Z) (data f) /\
  (0 <= can_dlc f <= 8)%Z /\
  forall i, (Z.to_nat (can_dlc f) <= i)%nat -> byte_at (data f) i = 0%Z.

(** Shape of what the switch leaves behind. *)
Definition response_shape (pid : Z) (r : list Z) (len : Z) : Prop :=
  length r = 8%nat /\ Forall (fun b => (0 <= b <= 255)%Z) r /\
  (len = 4 \/ len = 5 \/ len = 7)%Z /\
  byte_at r 0 = (len - 1)%Z /\
  (forall i, (Z.to_nat len <= i)%nat -> byte_at r i = 0%Z) /\
  (In pid supported_pids -> byte_at r 1 = 0x41%Z /\ byte_at r 2 = pid) /\
  (~ In pid supported_pids -> byte_at r 1 = 0x7F%Z /\ byte_at r 2 = 0x01%Z /\
                              byte_at r 3 = 0x12%Z).

(** A state whose maf is 0.05f rounded down by one unit in the last place. *)
Definition v_maf_edge : vehicle_t :=
  {| rpm := 800; coolant_temp := 85; throttle := 15;
     maf := lit 0.049999997; engine_load := 20; intake_temp := 25; gear := 0;
     trans_temp := 60; fuel_level := 75; odometer := 45231;
     vehicle_speed := 0; sim_time := 0 |}.

(** What the driving cycle keeps every field within. *)
Definition driving_ranges (v : vehicle_t) : Prop :=
  is_float (rpm v) /\
  750 <= rpm v <= 5000 /\
  0 <= throttle v <= 80 /\
  10 <= engine_load v <= 74 /\
  1 <= maf v <= 57 /\
  75 <= coolant_temp v <= 95 /\
  20 <= intake_temp v <= 30 /\
  60 <= trans_temp v <= 85 /\
  25 <= fuel_level v <= 75 /\
  0 <= vehicle_speed v <= 120 /\
  (0 <= gear v <= 6)%Z /\
  odometer v = 45231%Z /\
  0 <= sim_time v <= 32768.

(** The largest value [sim_time] takes: adding [0.001f] to it rounds back
    to it. *)
Definition SIM_TIME_CAP : float := 32768.

(** The vehicle once the clock has stopped, with odometer reading [o]. *)
Definition stalled (sinf : float -> float) (o : Z) : vehicle_t :=
  let t := SIM_TIME_CAP in
  let load := (0 * lit (8 # 10) + 10)%f32 in
  {| rpm := (800 + 50 * sinf (t * 2))%f32;
     coolant_temp := (85 + 10 * sinf (t * lit (1 # 100)))%f32;
     throttle := 0;
     maf := (((800 + 50 * sinf (t * 2)) / 1000) * (load / 100) * 15)%f32;
     engine_load := load;
     intake_temp := (25 + 5 * sinf (t * lit (5 # 100)))%f32;
     gear := 0;
     trans_temp := (70 + 20 * (load / 100))%f32;
     fuel_level := (75 - fmodf (t * lit (1 # 100)) 50)%f32;
     odometer := o;
     vehicle_speed := 0;
     sim_time := t |}.

(** [(int)(progress * 5)], with [progress = (cycle - lo) / 15.0f]. *)
Definition gear_steps (cycle lo : float) : Z :=
  Qtrunc (((cycle - lo) / 15) * of_int 5)%f32.

(** Number of frames with identifier [id] among those written so far. *)
Definition count_id (id : Z) (b : list can_frame) : Z :=
  Z.of_nat (length (filter (fun f => (can_id f =? id)%Z) b)).

(** The test [process_obd2_request] makes before it answers. *)
Definition accepted (f : can_frame) : bool :=
  (((can_id f =? CAN_ID_OBD_BROADCAST) || (can_id f =? CAN_ID_OBD_ECU_ENGINE))
   && (2 <=? can_dlc f) && (request_mode f =? OBD2_MODE_CURRENT_DATA))%Z.

(** Number of passes in which an accepted request was received. *)
Definition requests (inputs : list (Z * option can_frame)) : Z :=
  Z.of_nat (length (filter (fun i => match snd i with
                                     | Some f => accepted f
                                     | None => false
                                     end) inputs)).

(** Successive readings of a monotonic clock, starting from [prev]. *)
Fixpoint readings (prev : Z) (l : list Z) : Prop :=
  match l with
  | [] => True
  | x :: r => (prev <= x < 2 ^ 64)%Z /\ readings x r
  end.

(** Effect of one guarded broadcast. *)
Definition fired (now last period id : Z) (s s' : ecu) (l' : Z) : Prop :=
  if due now last period
  then l' = now /\ exists f, s' = reply s f /\ can_id f = id
  else l' = last /\ s' = s.

(** What the loop keeps true of one timer and its identifier: the timer
    lies between the first and the latest reading, and one period has
    elapsed for every frame sent. *)
Definition paced (now0 now period last count : Z) : Prop :=
  (now0 <= last <= now)%Z /\ (period * count <= last - now0)%Z.

Definition all_paced (now0 now : Z) (st : ecu * timers) : Prop :=
  paced now0 now ENGINE_CYCLE_MS (last_engine1 (snd st))
        (count_id CAN_ID_ENGINE_DATA_1 (bus (fst st))) /\
  paced now0 now ENGINE2_CYCLE_MS (last_engine2 (snd st))
        (count_id CAN_ID_ENGINE_DATA_2 (bus (fst st))) /\
  paced now0 now TRANS_CYCLE_MS (last_trans (snd st))
        (count_id CAN_ID_TRANS_DATA (bus (fst st))) /\
  paced now0 now BCM_CYCLE_MS (last_bcm (snd st))
        (count_id CAN_ID_BCM_DATA (bus (fst st))).

(** A [timespec] as [clock_gettime] and [nanosleep] understand it. *)
Definition normalized (tv_sec tv_nsec : Z) : Prop :=
  (0 <= tv_sec)%Z /\ (0 <= tv_nsec < 1000000000)%Z.

(** One [timespec] is not later than another. *)
Definition not_later (s1 n1 s2 n2 : Z) : Prop :=
  (s1 < s2 \/ (s1 = s2 /\ n1 <= n2))%Z.

(** Bytes stored as the send functions store a 16-bit raw value. *)
Definition store_u16_be (r : Z) : list Z :=
  [Z.land (Z.land (Z.shiftr r 8) 0xFF) 0xFF; Z.land (Z.land r 0xFF) 0xFF].

Module DtcVocabulary.

Import Stdlib.Strings.String Stdlib.Strings.Ascii.

Import DtcCodes.

Local Open Scope Z_scope.

(** The five-character codes [dtc_decode] can produce: a category letter,
    a digit 0-3, and three characters in ['0' .. '0'+15]. *)
Definition dtc_well_formed (s : string) : bool :=
  match s with
  | String c0 (String c1 (String c2 (String c3 (String c4 EmptyString)))) =>
      existsb (Ascii.eqb c0) categories
      && ((48 <=? char_code c1) && (char_code c1 <=? 51))
      && ((48 <=? char_code c2) && (char_code c2 <=? 63))
      && ((48 <=? char_code c3) && (char_code c3 <=? 63))
      && ((48 <=? char_code c4) && (char_code c4 <=? 63))
  | _ => false
  end.

(** The bytes, for exhaustive checks. *)
Definition bytes256 : list Z := map Z.of_nat (seq 0 256).

End DtcVocabulary.

Export DtcVocabulary.

(** The Mode 01 PIDs that have an entry in the name and unit tables. *)
Definition named_pids : list Z :=
  [0x04; 0x05; 0x0C; 0x0D; 0x0F; 0x10; 0x11; 0x2F; 0x46; 0x5C]%Z.

(** The PIDs [build_mode01_response] has a case for. *)
Definition gateway_pids : list Z :=
  [0x04; 0x05; 0x0C; 0x0D; 0x0F; 0x10; 0x11; 0x2F; 0x00; 0x20]%Z.

(** The requests the gateway answers: length byte at least 2, mode 0x01,
    a PID it knows. *)
Definition gateway_answers (request : can_frame) : bool :=
  ((2 <=? byte_at (data request) 0) && (byte_at (data request) 1 =? 0x01))%Z
  && existsb (Z.eqb (byte_at (data request) 2)) gateway_pids.

(** The data bytes of the gateway's answer for [pid]. *)
Definition gateway_data (pid : Z) (v : ObdGw.vehicle_state_t) : list Z :=
  match ObdGw.build_mode01_response pid v with
  | Some f => data f
  | None => []
  end.

(** Values of the gateway's state that its response bytes can carry. *)
Definition gateway_plausible (v : ObdGw.vehicle_state_t) : Prop :=
  (0 <= ObdGw.rpm v <= 16383 /\ 0 <= ObdGw.maf v <= 655 /\
   -40 <= ObdGw.coolant_temp v <= 127 /\ 0 <= ObdGw.intake_temp v <= 215 /\
   0 <= ObdGw.speed v <= 255 /\ 0 <= ObdGw.engine_load v <= 100 /\
   0 <= ObdGw.throttle v <= 100 /\ 0 <= ObdGw.fuel_level v <= 100)%Z.

(** What the gateway's loop keeps true of its state and of the frames it
    has written. *)
Definition gateway_invariant (st : Z * ObdGw.vehicle_state_t * list can_frame)
    : Prop :=
  let '(tick, v, bus) := st in
  (800 <= ObdGw.rpm v <= 899 /\ 12 <= ObdGw.throttle v <= 17 /\
   20 <= ObdGw.engine_load v <= 29 /\ 90 <= ObdGw.coolant_temp v <= 95 /\
   ObdGw.speed v = 0 /\ ObdGw.fuel_level v = 75 /\ ObdGw.maf v = 10 /\
   ObdGw.intake_temp v = 25)%Z /\
  Forall (fun f => can_id f = ObdGw.OBD2_RESPONSE_ECU1 /\ can_dlc f = 8%Z /\
                   byte_at (data f) 1 = 0x41%Z) bus.

(** Number of passes that reach [update_simulation]. *)
Definition updates (inputs : list (ObdGw.event * (Z * Z * Z))) : Z :=
  Z.of_nat (length (filter (fun i => match fst i with
                                     | ObdGw.ReadFailed => false
                                     | _ => true
                                     end) inputs)).

(** Every value [rand] returned is non-negative. *)
Definition rand_values (inputs : list (ObdGw.event * (Z * Z * Z))) : Prop :=
  Forall (fun i => let '(r1, r2, r3) := snd i in
                   (0 <= r1 /\ 0 <= r2 /\ 0 <= r3)%Z) inputs.

(** A request for the engine speed on the broadcast identifier. *)
Definition rpm_request : can_frame :=
  request 0x7DF 3 [0x02; 0x01; 0x0C; 0; 0; 0; 0; 0]%Z.

(* ====================================================================== *)
(** * Facts about binary32 rounding *)
(* ====================================================================== *)

Module F32Facts.

Lemma Qtrunc_nonneg x : 0 <= x -> Qtrunc x = Qfloor x.
Proof.
  destruct x as [n d]; unfold Qle, Qtrunc, Qfloor; simpl; intros H.
  apply Z.quot_div_nonneg; lia.
Qed.

Lemma Qtrunc_opp x : Qtrunc (- x) = (- Qtrunc x)%Z.
Proof.
  destruct x as [n d]; unfold Qtrunc; simpl. apply Z.quot_opp_l. lia.
Qed.

Lemma Qtrunc_comp x y : x == y -> Qtrunc x = Qtrunc y.
Proof.
  intros E. destruct (Qlt_le_dec x 0) as [N | P].
  - assert (Hx : Qtrunc x = (- Qtrunc (- x))%Z) by (rewrite Qtrunc_opp; lia).
    assert (Hy : Qtrunc y = (- Qtrunc (- y))%Z) by (rewrite Qtrunc_opp; lia).
    rewrite Hx, Hy, !Qtrunc_nonneg by lra.
    f_equal. apply Qfloor_comp. lra.
  - rewrite !Qtrunc_nonneg by lra. now apply Qfloor_comp.
Qed.

Lemma pow2_pos k : 0 < 2 ^ k.
Proof. apply Qpower_0_lt. lra. Qed.

Lemma pow2_lt j k : (j < k)%Z -> 2 ^ j < 2 ^ k.
Proof. intros. apply Qpower_lt_compat_l; [lia | lra]. Qed.

Lemma pow2_le j k : (j <= k)%Z -> 2 ^ j <= 2 ^ k.
Proof. intros. apply Qpower_le_compat_l; [lia | lra]. Qed.

Lemma pow2_add j k : 2 ^ (j + k) == 2 ^ j * 2 ^ k.
Proof. apply Qpower_plus. lra. Qed.

Lemma pow2_Z k : (0 <= k)%Z -> inject_Z (2 ^ k) == 2 ^ k.
Proof. intros. now rewrite Zpower_Qpower. Qed.
Lemma pow2_succ k : 2 ^ (k + 1) == 2 * 2 ^ k.
Proof. rewrite pow2_add. change (2 ^ 1) with 2. ring. Qed.

Lemma ilog2_spec x : 0 < x -> 2 ^ ilog2 x <= x /\ x < 2 ^ (ilog2 x + 1).
Proof.
  intros Hx. unfold ilog2.
  set (n := Qnum x). set (d := Zpos (Qden x)).
  assert (Hn : (0 < n)%Z) by (unfold n; destruct x as [xn xd]; unfold Qlt in Hx; simpl in *; lia).
  assert (Hd : (0 < d)%Z) by (unfold d; lia).
  set (a := Z.log2 n). set (b := Z.log2 d).
  destruct (Z.log2_spec n Hn) as [Ha1 Ha2]. destruct (Z.log2_spec d Hd) as [Hb1 Hb2].
  fold a in Ha1, Ha2. fold b in Hb1, Hb2.
  assert (Ha0 : (0 <= a)%Z) by apply Z.log2_nonneg.
  assert (Hb0 : (0 <= b)%Z) by apply Z.log2_nonneg.
  assert (QA1 : 2 ^ a <= inject_Z n).
  { rewrite <- pow2_Z by lia. rewrite <- Zle_Qle. exact Ha1. }
  assert (QA2 : inject_Z n < 2 * 2 ^ a).
  { assert (E : 2 * 2 ^ a == inject_Z (2 ^ Z.succ a)).
    { rewrite pow2_Z by lia. unfold Z.succ. now rewrite pow2_succ. }
    rewrite E. rewrite <- Zlt_Qlt. exact Ha2. }
  assert (QB1 : 2 ^ b <= inject_Z d).
  { rewrite <- pow2_Z by lia. rewrite <- Zle_Qle. exact Hb1. }
  assert (QB2 : inject_Z d < 2 * 2 ^ b).
  { assert (E : 2 * 2 ^ b == inject_Z (2 ^ Z.succ b)).
    { rewrite pow2_Z by lia. unfold Z.succ. now rewrite pow2_succ. }
    rewrite E. rewrite <- Zlt_Qlt. exact Hb2. }
  assert (Hxd : x * inject_Z d == inject_Z n).
  { destruct x as [xn xd]. unfold n, d, Qeq, inject_Z; simpl. rewrite ?Pos.mul_1_r. ring. }
  assert (PA := pow2_pos a). assert (PB := pow2_pos b).
  assert (Ek : 2 ^ (a - b) * 2 ^ b == 2 ^ a).
  { rewrite <- pow2_add. now replace (a - b + b)%Z with a by lia. }
  assert (Ek1 : 2 ^ (a - b + 1) == 2 * 2 ^ (a - b)).
  { apply pow2_succ. }
  assert (Ek2 : 2 * 2 ^ (a - b - 1) == 2 ^ (a - b)).
  { replace (a - b)%Z with ((a - b - 1) + 1)%Z at 2 by lia. now rewrite pow2_succ. }
  assert (PK := pow2_pos (a - b)). assert (PK1 := pow2_pos (a - b - 1)).
  destruct (Qle_bool (2 ^ (a - b)) x) eqn:E.
  - apply Qle_bool_iff in E. split; [exact E|].
    rewrite Ek1. nra.
  - assert (Hlt : x < 2 ^ (a - b)).
    { apply Qnot_le_lt. intro H. apply Qle_bool_iff in H. congruence. }
    replace (a - b - 1 + 1)%Z with (a - b)%Z by lia. split; [|exact Hlt].
    nra.
Qed.

Lemma ilog2_unique x k : 2 ^ k <= x -> x < 2 ^ (k + 1) -> ilog2 x = k.
Proof.
  intros H1 H2.
  assert (Hx : 0 < x) by (pose proof (pow2_pos k); lra).
  destruct (ilog2_spec x Hx) as [S1 S2].
  assert (A : (ilog2 x < k + 1)%Z).
  { apply Qpower_lt_compat_l_inv with (q := 2); lra. }
  assert (B : (k < ilog2 x + 1)%Z).
  { apply Qpower_lt_compat_l_inv with (q := 2); lra. }
  lia.
Qed.

Lemma ilog2_comp x y : 0 < x -> x == y -> ilog2 x = ilog2 y.
Proof.
  intros Hx E. symmetry. destruct (ilog2_spec x Hx).
  apply ilog2_unique; lra.
Qed.

Lemma ilog2_mono x y : 0 < x -> x <= y -> (ilog2 x <= ilog2 y)%Z.
Proof.
  intros Hx Hxy.
  destruct (ilog2_spec x Hx) as [S1 _].
  destruct (ilog2_spec y) as [_ S2]; [lra|].
  assert (A : (ilog2 x < ilog2 y + 1)%Z).
  { apply Qpower_lt_compat_l_inv with (q := 2); lra. }
  lia.
Qed.

Lemma RNE_cases x :
  let f := Qfloor x in
  (x - inject_Z f < 1 # 2 /\ RNE x = f) \/
  (1 # 2 < x - inject_Z f /\ RNE x = (f + 1)%Z) \/
  (x - inject_Z f == 1 # 2 /\ RNE x = if Z.even f then f else (f + 1)%Z).
Proof.
  intros f. unfold RNE. fold f.
  destruct (Qcompare_spec (x - inject_Z f) (1 # 2)) as [E | L | G]; auto.
Qed.

Lemma Qfloor_bounds x : inject_Z (Qfloor x) <= x /\ x < inject_Z (Qfloor x) + 1.
Proof.
  split; [apply Qfloor_le|].
  pose proof (Qlt_floor x) as H. rewrite inject_Z_plus in H. exact H.
Qed.

Lemma Qfloor_unique x n : inject_Z n <= x -> x < inject_Z n + 1 -> Qfloor x = n.
Proof.
  intros H1 H2. destruct (Qfloor_bounds x) as [F1 F2].
  assert (A : (Qfloor x < n + 1)%Z).
  { rewrite Zlt_Qlt, inject_Z_plus. change (inject_Z 1) with 1. lra. }
  assert (B : (n < Qfloor x + 1)%Z).
  { rewrite Zlt_Qlt, inject_Z_plus. change (inject_Z 1) with 1. lra. }
  lia.
Qed.

Lemma RNE_comp x y : x == y -> RNE x = RNE y.
Proof.
  intros E. unfold RNE. rewrite (Qfloor_comp _ _ E).
  assert (C : Qcompare (x - inject_Z (Qfloor y)) (1 # 2)
            = Qcompare (y - inject_Z (Qfloor y)) (1 # 2)) by now rewrite E.
  now rewrite C.
Qed.

Lemma RNE_Z n : RNE (inject_Z n) = n.
Proof.
  unfold RNE. rewrite Qfloor_Z.
  assert (C : Qcompare (inject_Z n - inject_Z n) (1 # 2) = Lt).
  { rewrite <- Qlt_alt. lra. }
  now rewrite C.
Qed.

Lemma RNE_err x : inject_Z (RNE x) - (1 # 2) <= x /\ x <= inject_Z (RNE x) + (1 # 2).
Proof.
  destruct (Qfloor_bounds x) as [F1 F2].
  destruct (RNE_cases x) as [[H E] | [[H E] | [H E]]]; rewrite E.
  - lra.
  - rewrite inject_Z_plus. change (inject_Z 1) with 1. lra.
  - destruct (Z.even (Qfloor x)).
    + lra.
    + rewrite inject_Z_plus. change (inject_Z 1) with 1. lra.
Qed.

Lemma RNE_range x : (Qfloor x <= RNE x <= Qfloor x + 1)%Z.
Proof.
  destruct (RNE_cases x) as [[H E] | [[H E] | [H E]]]; rewrite E; try lia.
  destruct (Z.even (Qfloor x)); lia.
Qed.

Lemma RNE_mono x y : x <= y -> (RNE x <= RNE y)%Z.
Proof.
  intros Hxy. pose proof (Qfloor_resp_le _ _ Hxy) as Hf.
  destruct (Z.eq_dec (Qfloor x) (Qfloor y)) as [E | N].
  - destruct (RNE_cases x) as [[H1 E1] | [[H1 E1] | [H1 E1]]];
    destruct (RNE_cases y) as [[H2 E2] | [[H2 E2] | [H2 E2]]];
    rewrite E1, E2; rewrite E in *; try lia; try lra;
    destruct (Z.even (Qfloor y)); try lia; lra.
  - pose proof (RNE_range x). pose proof (RNE_range y). lia.
Qed.

Lemma inj_sub n m : inject_Z (n - m) == inject_Z n - inject_Z m.
Proof. unfold Z.sub. now rewrite inject_Z_plus, inject_Z_opp. Qed.

Lemma RNE_opp x : RNE (- x) = (- RNE x)%Z.
Proof.
  destruct (Qfloor_bounds x) as [F1 F2].
  destruct (Qeq_dec x (inject_Z (Qfloor x))) as [E | N].
  - rewrite (RNE_comp x _ E).
    assert (E' : - x == inject_Z (- Qfloor x)) by (rewrite inject_Z_opp; lra).
    rewrite (RNE_comp _ _ E'). now rewrite !RNE_Z.
  - assert (Hlt : inject_Z (Qfloor x) < x).
    { apply Qle_lt_or_eq in F1. destruct F1; [auto | exfalso; apply N; lra]. }
    assert (Ff : Qfloor (- x) = (- Qfloor x - 1)%Z).
    { apply Qfloor_unique; rewrite inj_sub, inject_Z_opp; change (inject_Z 1) with 1; lra. }
    assert (Fi : inject_Z (Qfloor (- x)) == - inject_Z (Qfloor x) - 1).
    { rewrite Ff, inj_sub, inject_Z_opp. change (inject_Z 1) with 1. ring. }
    destruct (RNE_cases x) as [[H1 E1] | [[H1 E1] | [H1 E1]]];
    destruct (RNE_cases (- x)) as [[H2 E2] | [[H2 E2] | [H2 E2]]];
    rewrite E1, E2; rewrite Ff in *; try lia; try lra.
    rewrite Z.even_sub, Z.even_opp. change (Z.even 1) with false.
    destruct (Z.even (Qfloor x)); simpl; lia.
Qed.

Lemma b32_zero x : x == 0 -> b32 x = 0.
Proof.
  intros E. unfold b32. apply Qeq_bool_iff in E. now rewrite E.
Qed.

Lemma b32_nz x : ~ x == 0 ->
  b32 x == inject_Z (RNE (x / 2 ^ b32_exp x)) * 2 ^ b32_exp x.
Proof.
  intros N. unfold b32. destruct (Qeq_bool x 0) eqn:E.
  - apply Qeq_bool_iff in E. contradiction.
  - cbv zeta. apply Qred_correct.
Qed.

Lemma Qabs_pos_nz x : ~ x == 0 -> 0 < Qabs x.
Proof.
  intros N. pose proof (Qabs_nonneg x) as H.
  apply Qle_lt_or_eq in H. destruct H as [H | H]; [exact H|].
  exfalso. apply N. destruct (Qabs_Qle_condition x 0) as [C _].
  assert (Qabs x <= 0) by lra. specialize (C H0). lra.
Qed.

Lemma b32_exp_comp x y : ~ x == 0 -> x == y -> b32_exp x = b32_exp y.
Proof.
  intros N E. unfold b32_exp. f_equal. f_equal.
  apply ilog2_comp; [now apply Qabs_pos_nz | now rewrite E].
Qed.

Lemma b32_comp x y : x == y -> b32 x == b32 y.
Proof.
  intros E. destruct (Qeq_dec x 0) as [Z | N].
  - rewrite (b32_zero x Z), (b32_zero y); [reflexivity | now rewrite <- E].
  - assert (N' : ~ y == 0) by now rewrite <- E.
    rewrite (b32_nz x N), (b32_nz y N'), (b32_exp_comp x y N E).
    assert (R : RNE (x / 2 ^ b32_exp y) = RNE (y / 2 ^ b32_exp y)).
    { apply RNE_comp. now rewrite E. }
    now rewrite R.
Qed.

#[global] Instance b32_proper : Proper (Qeq ==> Qeq) b32.
Proof. exact b32_comp. Qed.

Lemma b32_exp_opp x : ~ x == 0 -> b32_exp (- x) = b32_exp x.
Proof.
  intros N. unfold b32_exp. f_equal. f_equal.
  apply ilog2_comp.
  - apply Qabs_pos_nz. lra.
  - apply Qabs_opp.
Qed.

Lemma b32_opp x : b32 (- x) == - b32 x.
Proof.
  destruct (Qeq_dec x 0) as [Z | N].
  - rewrite (b32_zero x Z), (b32_zero (- x)); lra.
  - assert (N' : ~ - x == 0) by lra.
    rewrite (b32_nz x N), (b32_nz _ N'), (b32_exp_opp x N).
    assert (R : RNE (- x / 2 ^ b32_exp x) = (- RNE (x / 2 ^ b32_exp x))%Z).
    { rewrite <- RNE_opp. apply RNE_comp. field. pose proof (pow2_pos (b32_exp x)). lra. }
    rewrite R, inject_Z_opp. ring.
Qed.

Lemma b32_exp_ge x : (-149 <= b32_exp x)%Z.
Proof. unfold b32_exp. lia. Qed.

Lemma b32_exp_log x : (ilog2 (Qabs x) - 23 <= b32_exp x)%Z.
Proof. unfold b32_exp. lia. Qed.

Lemma div_pow2_le x y e : x <= y -> x / 2 ^ e <= y / 2 ^ e.
Proof.
  intros H. pose proof (pow2_pos e) as P.
  apply Qmult_le_r with (z := 2 ^ e); [exact P|].
  field_simplify; lra.
Qed.

Lemma div_pow2_lt x e k : x < 2 ^ (e + k) -> x / 2 ^ e < 2 ^ k.
Proof.
  intros H. pose proof (pow2_pos e) as P.
  apply Qmult_lt_r with (z := 2 ^ e); [exact P|].
  rewrite pow2_add in H. field_simplify; lra.
Qed.

Lemma div_pow2_ge x e k : 2 ^ (e + k) <= x -> 2 ^ k <= x / 2 ^ e.
Proof.
  intros H. pose proof (pow2_pos e) as P.
  apply Qmult_le_r with (z := 2 ^ e); [exact P|].
  rewrite pow2_add in H. field_simplify; lra.
Qed.

Lemma b32_nonneg x : 0 <= x -> 0 <= b32 x.
Proof.
  intros H. destruct (Qeq_dec x 0) as [Z | N].
  - rewrite (b32_zero x Z). lra.
  - rewrite (b32_nz x N). pose proof (pow2_pos (b32_exp x)) as P.
    assert (R : (0 <= RNE (x / 2 ^ b32_exp x))%Z).
    { rewrite <- (RNE_Z 0). apply RNE_mono.
      pose proof (div_pow2_le 0 x (b32_exp x) H) as D.
      change (inject_Z 0) with 0. unfold Qdiv in D at 1. lra. }
    rewrite Zle_Qle in R. change (inject_Z 0) with 0 in R. nra.
Qed.

Lemma b32_mono_pos x y : 0 < x -> x <= y -> b32 x <= b32 y.
Proof.
  intros Hx Hxy.
  assert (Nx : ~ x == 0) by lra. assert (Ny : ~ y == 0) by lra.
  rewrite (b32_nz x Nx), (b32_nz y Ny).
  assert (Ax : Qabs x == x) by (apply Qabs_pos; lra).
  assert (Ay : Qabs y == y) by (apply Qabs_pos; lra).
  assert (Lx : ilog2 (Qabs x) = ilog2 x) by (apply ilog2_comp; [now apply Qabs_pos_nz | exact Ax]).
  assert (Ly : ilog2 (Qabs y) = ilog2 y) by (apply ilog2_comp; [now apply Qabs_pos_nz | exact Ay]).
  pose proof (ilog2_mono x y Hx Hxy) as Hl.
  set (ex := b32_exp x). set (ey := b32_exp y).
  assert (Hex : ex = Z.max (ilog2 x - 23) (-149)) by (unfold ex, b32_exp; now rewrite Lx).
  assert (Hey : ey = Z.max (ilog2 y - 23) (-149)) by (unfold ey, b32_exp; now rewrite Ly).
  pose proof (pow2_pos ex) as Px. pose proof (pow2_pos ey) as Py.
  destruct (Z.eq_dec ex ey) as [E | NE].
  - rewrite E. apply Qmult_le_compat_r; [|lra].
    rewrite <- Zle_Qle. apply RNE_mono. now apply div_pow2_le.
  - assert (Hlt : (ex + 1 <= ey)%Z) by lia.
    destruct (ilog2_spec x Hx) as [_ Sx]. destruct (ilog2_spec y) as [Sy _]; [lra|].
    assert (Ux : (RNE (x / 2 ^ ex) <= 2 ^ 24)%Z).
    { rewrite <- (RNE_Z (2 ^ 24)). apply RNE_mono. apply Qlt_le_weak.
      rewrite pow2_Z by lia. apply div_pow2_lt.
      apply Qlt_le_trans with (1 := Sx). apply pow2_le. lia. }
    assert (Uy : (2 ^ 23 <= RNE (y / 2 ^ ey))%Z).
    { rewrite <- (RNE_Z (2 ^ 23)). apply RNE_mono.
      rewrite pow2_Z by lia. apply div_pow2_ge.
      apply Qle_trans with (2 := Sy). apply pow2_le. lia. }
    rewrite Zle_Qle in Ux, Uy. rewrite pow2_Z in Ux, Uy by lia.
    apply Qle_trans with (2 ^ 24 * 2 ^ ex).
    + apply Qmult_le_compat_r; lra.
    + apply Qle_trans with (2 ^ 23 * 2 ^ ey).
      * rewrite <- !pow2_add. apply pow2_le. lia.
      * apply Qmult_le_compat_r; lra.
Qed.

Lemma b32_mono x y : x <= y -> b32 x <= b32 y.
Proof.
  intros H. destruct (Qlt_le_dec 0 x) as [Px | Nx].
  - now apply b32_mono_pos.
  - destruct (Qlt_le_dec y 0) as [Ny | Py].
    + assert (M : b32 (- y) <= b32 (- x)) by (apply b32_mono_pos; lra).
      rewrite !b32_opp in M. lra.
    + assert (A : b32 x <= 0).
      { assert (B : 0 <= b32 (- x)) by (apply b32_nonneg; lra).
        rewrite b32_opp in B. lra. }
      pose proof (b32_nonneg y Py). lra.
Qed.

Lemma b32_exp_cases x :
  b32_exp x = (-149)%Z \/ b32_exp x = (ilog2 (Qabs x) - 23)%Z.
Proof. unfold b32_exp. lia. Qed.

Lemma b32_err_abs x :
  ~ x == 0 -> Qabs (b32 x - x) <= 2 ^ (b32_exp x - 1).
Proof.
  intros N. rewrite (b32_nz x N).
  set (e := b32_exp x). pose proof (pow2_pos e) as P.
  destruct (RNE_err (x / 2 ^ e)) as [A B].
  assert (E : x == (x / 2 ^ e) * 2 ^ e) by (field; lra).
  assert (H : 2 ^ (e - 1) * 2 == 2 ^ e).
  { replace e with ((e - 1) + 1)%Z at 2 by lia. rewrite pow2_succ. ring. }
  apply Qabs_Qle_condition. split; nra.
Qed.

Lemma b32_err x : Qabs (b32 x - x) <= Qabs x * u32 + eta32.
Proof.
  destruct (Qeq_dec x 0) as [Z | N].
  - rewrite (b32_zero x Z), Z. unfold u32, eta32.
    pose proof (pow2_pos (-150)). change (Qabs (0 - 0)) with 0. change (Qabs 0) with 0. lra.
  - pose proof (b32_err_abs x N) as H.
    pose proof (Qabs_pos_nz x N) as Hx.
    pose proof (pow2_pos (-150)) as P1. pose proof (pow2_pos (-24)) as P2.
    destruct (b32_exp_cases x) as [E | E]; rewrite E in H.
    + unfold u32, eta32. change (-149 - 1)%Z with (-150)%Z in H. nra.
    + destruct (ilog2_spec (Qabs x) Hx) as [S _].
      replace (ilog2 (Qabs x) - 23 - 1)%Z with (ilog2 (Qabs x) + -24)%Z in H by lia.
      rewrite pow2_add in H. unfold u32, eta32. nra.
Qed.

Lemma b32_err_nonneg x :
  0 <= x -> x * (1 - u32) - eta32 <= b32 x /\ b32 x <= x * (1 + u32) + eta32.
Proof.
  intros H. pose proof (b32_err x) as E.
  rewrite (Qabs_pos x H) in E. apply Qabs_Qle_condition in E. lra.
Qed.

Lemma Qabs_inject m : Qabs (inject_Z m) == inject_Z (Z.abs m).
Proof. reflexivity. Qed.

Lemma b32_exact_lt m e :
  (Z.abs m < 2 ^ 24)%Z -> (-149 <= e)%Z -> b32 (inject_Z m * 2 ^ e) == inject_Z m * 2 ^ e.
Proof.
  intros Hm He. set (x := inject_Z m * 2 ^ e).
  pose proof (pow2_pos e) as Pe.
  destruct (Qeq_dec x 0) as [Z | N]; [rewrite (b32_zero x Z); lra|].
  rewrite (b32_nz x N). set (ex := b32_exp x).
  assert (Hex : (ex <= e)%Z).
  { pose proof (Qabs_pos_nz x N) as Hx.
    destruct (ilog2_spec (Qabs x) Hx) as [S _].
    assert (A : Qabs x < 2 ^ (e + 24)).
    { unfold x. rewrite Qabs_Qmult, Qabs_inject, (Qabs_pos (2 ^ e)) by lra.
      rewrite pow2_add, <- (pow2_Z 24) by lia.
      rewrite Zlt_Qlt in Hm. nra. }
    assert (B : (ilog2 (Qabs x) < e + 24)%Z).
    { apply Qpower_lt_compat_l_inv with (q := 2); lra. }
    unfold ex, b32_exp. lia. }
  pose proof (pow2_pos ex) as Px.
  assert (D : x / 2 ^ ex == inject_Z (m * 2 ^ (e - ex))).
  { rewrite inject_Z_mult, pow2_Z by lia. unfold x.
    replace e with ((e - ex) + ex)%Z at 1 by lia. rewrite pow2_add. field. lra. }
  rewrite (RNE_comp _ _ D), RNE_Z, <- D. field. lra.
Qed.

Lemma b32_exact x : on_grid x -> b32 x == x.
Proof.
  intros (m & e & Hm & He & E). rewrite E.
  destruct (Z.eq_dec (Z.abs m) (2 ^ 24)) as [T | T].
  - assert (E' : inject_Z m * 2 ^ e == inject_Z (m / 2) * 2 ^ (e + 1)).
    { rewrite pow2_succ.
      assert (M : m = (2 * (m / 2))%Z).
      { destruct (Z.abs_eq_or_opp m) as [A | A]; rewrite A in T.
        - rewrite T. reflexivity.
        - assert (m = (- 2 ^ 24)%Z) by lia. subst m. reflexivity. }
      rewrite M at 1. rewrite inject_Z_mult. change (inject_Z 2) with 2. ring. }
    rewrite E'. apply b32_exact_lt; [|lia].
    destruct (Z.abs_eq_or_opp m) as [A | A]; rewrite A in T.
    + rewrite T. reflexivity.
    + assert (m = (- 2 ^ 24)%Z) by lia. subst m. reflexivity.
  - apply b32_exact_lt; lia.
Qed.

Lemma b32_on_grid x : on_grid (b32 x).
Proof.
  destruct (Qeq_dec x 0) as [Z | N].
  - exists 0%Z, 0%Z. rewrite (b32_zero x Z). repeat split; try lia; try reflexivity.
  - exists (RNE (x / 2 ^ b32_exp x)), (b32_exp x).
    split; [|split; [apply b32_exp_ge | apply (b32_nz x N)]].
    set (e := b32_exp x). pose proof (pow2_pos e) as Pe.
    pose proof (Qabs_pos_nz x N) as Hx.
    destruct (ilog2_spec (Qabs x) Hx) as [_ S].
    assert (A : Qabs x < 2 ^ (e + 24)).
    { apply Qlt_le_trans with (1 := S). apply pow2_le. pose proof (b32_exp_log x). fold e in H. lia. }
    assert (B : Qabs (x / 2 ^ e) < 2 ^ 24).
    { unfold Qdiv. rewrite Qabs_Qmult, Qabs_Qinv, (Qabs_pos (2 ^ e)) by lra.
      apply div_pow2_lt. exact A. }
    apply Qabs_Qlt_condition in B.
    assert (U : (RNE (x / 2 ^ e) <= 2 ^ 24)%Z).
    { rewrite <- (RNE_Z (2 ^ 24)). apply RNE_mono. rewrite pow2_Z by lia. lra. }
    assert (L : (- 2 ^ 24 <= RNE (x / 2 ^ e))%Z).
    { rewrite <- (RNE_Z (- 2 ^ 24)). apply RNE_mono. rewrite inject_Z_opp, pow2_Z by lia. lra. }
    lia.
Qed.

Lemma is_float_on_grid x : is_float x <-> on_grid x.
Proof.
  split.
  - intros F. destruct (b32_on_grid x) as (m & e & Hm & He & E).
    exists m, e. unfold is_float in F. repeat split; auto. rewrite <- F. exact E.
  - apply b32_exact.
Qed.

Lemma b32_idem x : b32 (b32 x) == b32 x.
Proof. apply b32_exact, b32_on_grid. Qed.

Lemma Qltb_spec x y : reflect (x < y) (Qltb x y).
Proof.
  unfold Qltb. destruct (Qle_bool y x) eqn:E; constructor.
  - apply Qle_bool_iff in E. lra.
  - apply Qnot_le_lt. intro H. apply Qle_bool_iff in H. congruence.
Qed.

Lemma fltb_spec x y : reflect (x < y) (fltb x y).
Proof. apply Qltb_spec. Qed.

Lemma b32_in lo hi x :
  is_float lo -> is_float hi -> lo <= x <= hi -> lo <= b32 x <= hi.
Proof.
  unfold is_float. intros Flo Fhi [H1 H2]. split.
  - rewrite <- Flo. now apply b32_mono.
  - rewrite <- Fhi. now apply b32_mono.
Qed.

Lemma b32_le_hi hi x : is_float hi -> x <= hi -> b32 x <= hi.
Proof. unfold is_float. intros F H. rewrite <- F. now apply b32_mono. Qed.

Lemma b32_ge_lo lo x : is_float lo -> lo <= x -> lo <= b32 x.
Proof. unfold is_float. intros F H. rewrite <- F. now apply b32_mono. Qed.

Lemma Qtrunc_bounds x : 0 <= x -> inject_Z (Qtrunc x) <= x /\ x < inject_Z (Qtrunc x) + 1.
Proof. intros H. rewrite Qtrunc_nonneg by exact H. apply Qfloor_bounds. Qed.

Lemma Qtrunc_range x lo hi :
  (lo <= 0)%Z -> 0 <= x -> x <= inject_Z hi -> (lo <= Qtrunc x <= hi)%Z.
Proof.
  intros L H0 H1. rewrite Qtrunc_nonneg by exact H0. split.
  - apply Z.le_trans with 0%Z; [exact L|]. rewrite <- (Qfloor_Z 0). now apply Qfloor_resp_le.
  - rewrite <- (Qfloor_Z hi). now apply Qfloor_resp_le.
Qed.

Lemma cast_to_some lo hi x :
  (lo <= 0)%Z -> 0 <= x -> x <= inject_Z hi ->
  cast_to lo hi x = Some (Qtrunc x) /\ (0 <= Qtrunc x <= hi)%Z.
Proof.
  intros L H0 H1. pose proof (Qtrunc_range x lo hi L H0 H1) as [A B].
  pose proof (Qtrunc_range x 0 hi (Z.le_refl 0) H0 H1) as [C _].
  unfold cast_to. destruct (Z.leb_spec lo (Qtrunc x)); [|lia].
  destruct (Z.leb_spec (Qtrunc x) hi); [|lia]. simpl. split; [reflexivity | lia].
Qed.

Lemma fmodf_range x y : 0 <= x -> 0 < y -> 0 <= fmodf x y /\ fmodf x y < y.
Proof.
  intros Hx Hy. unfold fmodf.
  assert (Hq : 0 <= x / y) by (apply Qle_shift_div_l; lra).
  destruct (Qtrunc_bounds (x / y) Hq) as [A B].
  assert (E : x == (x / y) * y) by (field; lra).
  split; nra.
Qed.

(** A conversion whose operand lies in the range of the target type yields
    the integral part. *)
Lemma cast_in_range hi z :
  0 <= z -> z <= inject_Z hi ->
  exists k, cast_to 0 hi z = Some k /\ (0 <= k <= hi)%Z /\
            inject_Z k <= z /\ z < inject_Z k + 1.
Proof.
  intros H0 H1. destruct (cast_to_some 0 hi z (Z.le_refl 0) H0 H1) as [C R].
  exists (Qtrunc z). repeat split; try assumption; try lia; apply (Qtrunc_bounds z H0).
Qed.

Lemma b32_int n : (Z.abs n <= 2 ^ 24)%Z -> b32 (inject_Z n) == inject_Z n.
Proof.
  intros H. apply b32_exact. exists n, 0%Z. repeat split; try lia.
  change (2 ^ 0) with 1. ring.
Qed.

Lemma on_grid_scale x k : (0 <= k)%Z -> on_grid x -> on_grid (x * 2 ^ k).
Proof.
  intros Hk (m & e & Hm & He & E). exists m, (e + k)%Z.
  repeat split; try lia. rewrite E, pow2_add. ring.
Qed.

Lemma of_int_exact n : (Z.abs n <= 2 ^ 24)%Z -> of_int n == inject_Z n.
Proof. apply b32_int. Qed.

Lemma u32_value : u32 == 1 # 16777216.
Proof. reflexivity. Qed.

Lemma eta32_small : 0 < eta32 /\ eta32 <= 1 # 1000000000000000000000000000000.
Proof. split; vm_compute; [reflexivity | discriminate]. Qed.

Lemma inject_Z_succ k : inject_Z (k + 1) == inject_Z k + 1.
Proof. now rewrite inject_Z_plus. Qed.

(** Truncation after rounding stays within one unit of the exact value. *)
Lemma trunc_b32_near y :
  0 <= y -> y <= 16777215 ->
  y - 1 < inject_Z (Qtrunc (b32 y)) /\ inject_Z (Qtrunc (b32 y)) < y + 1.
Proof.
  intros H0 H1.
  destruct (Qfloor_bounds y) as [F1 F2]. set (f := Qfloor y) in *.
  assert (Hf : (0 <= f <= 16777215)%Z).
  { split.
    - rewrite <- (Qfloor_Z 0). now apply Qfloor_resp_le.
    - rewrite <- (Qfloor_Z 16777215). now apply Qfloor_resp_le. }
  assert (Z0 : 0 <= b32 y) by now apply b32_nonneg.
  assert (L : inject_Z f <= b32 y).
  { rewrite <- (b32_int f) by (simpl; lia). now apply b32_mono. }
  assert (U : b32 y <= inject_Z f + 1).
  { rewrite <- inject_Z_succ, <- (b32_int (f + 1)) by (simpl; lia).
    apply b32_mono. rewrite inject_Z_succ. lra. }
  destruct (Qtrunc_bounds (b32 y) Z0) as [T1 T2].
  set (k := Qtrunc (b32 y)) in *.
  assert (K1 : (f <= k)%Z).
  { unfold k. rewrite Qtrunc_nonneg by exact Z0.
    rewrite <- (Qfloor_Z f). now apply Qfloor_resp_le. }
  assert (K2 : (k <= f + 1)%Z).
  { rewrite Zle_Qle, inject_Z_succ. lra. }
  rewrite Zle_Qle in K1.
  split; [lra|].
  destruct (Qeq_dec y (inject_Z f)) as [E | N].
  - assert (B : b32 y == inject_Z f).
    { rewrite E. apply b32_int. simpl; lia. }
    lra.
  - assert (F3 : inject_Z f < y).
    { apply Qle_lt_or_eq in F1. destruct F1; [auto | exfalso; apply N; lra]. }
    rewrite Zle_Qle, inject_Z_succ in K2. lra.
Qed.

(** Two-sided rounding error with the constants spelled out. *)
Lemma b32_err_num x :
  0 <= x ->
  x * (16777215 # 16777216) - (1 # 1000000000000000000000000000000) <= b32 x /\
  b32 x <= x * (16777217 # 16777216) + (1 # 1000000000000000000000000000000).
Proof.
  intros H. destruct (b32_err_nonneg x H) as [A B].
  rewrite u32_value in A, B. destruct eta32_small as [E1 E2]. lra.
Qed.

Lemma cast_to_spec lo hi x k :
  cast_to lo hi x = Some k -> k = Qtrunc x /\ (lo <= k <= hi)%Z.
Proof.
  unfold cast_to. destruct (Z.leb_spec lo (Qtrunc x)); [|discriminate].
  destruct (Z.leb_spec (Qtrunc x) hi); [|discriminate].
  simpl. intros E. injection E as <-. split; [reflexivity | lia].
Qed.

Lemma cast_to_none lo hi x :
  (Qtrunc x < lo \/ hi < Qtrunc x)%Z -> cast_to lo hi x = None.
Proof.
  intros H. unfold cast_to.
  destruct (Z.leb_spec lo (Qtrunc x)); [|reflexivity].
  destruct (Z.leb_spec (Qtrunc x) hi); [lia | reflexivity].
Qed.

(** Closes goals stating that a numeral is a binary32 number. *)
Ltac fl :=
  match goal with
  | |- is_float _ => unfold is_float; vm_compute; reflexivity
  end.

End F32Facts.

Import F32Facts.

(** On the literals of the program and on sample operations of each kind,
    [b32] and the rounded operations coincide with [SpecFloat] at binary32. *)
Example b32_agrees_with_SpecFloat :
  forallb (fun p => agree (fst p) (snd p))
    [ (SFratio 1 1000, lit (1 # 1000));
      (SFratio 1 100, lit (1 # 100));
      (SFratio 5 100, lit (5 # 100));
      (SFratio 8 10, lit (8 # 10));
      (SFratio 3 10, lit (3 # 10));
      (SFratio 2 10, lit (2 # 10));
      (SFratio 392157 1000000, lit (392157 # 1000000));
      (SFmul 24 128 (SFratio 1603 1) (SFratio 1 100),
       (of_int 1603 * lit (1 # 100))%f32);
      (SFadd 24 128 (SFratio 249985 10000) (SFratio 1 1000),
       (lit (249985 # 10000) + lit (1 # 1000))%f32);
      (SFdiv 24 128 (SFmul 24 128 (SFratio 997 10) (SFratio 255 1))
                    (SFratio 100 1),
       (lit (997 # 10) * 255 / 100)%f32);
      (SFsub 24 128 (SFratio 2500 1)
                    (SFmul 24 128 (SFratio 1700 1) (SFratio 1 3)),
       (2500 - 1700 * lit (1 # 3))%f32);
      (SFdiv 24 128 (SFratio 16039999 1000000) (SFratio 1 100),
       (lit (16039999 # 1000000) / lit (1 # 100))%f32) ]
  = true.
Proof. vm_compute. reflexivity. Qed.

(* ====================================================================== *)
(** * The diagnostic handler *)
(* ====================================================================== *)

(** An accepted Mode 01 frame reaches [handle_obd2_mode01] with the PID the
    dispatcher extracted. *)
Lemma process_mode01 frame s :
  obd_request_id frame -> (2 <= can_dlc frame)%Z ->
  request_mode frame = OBD2_MODE_CURRENT_DATA ->
  process_obd2_request frame s = handle_obd2_mode01 (request_pid frame) s.
Proof.
  intros Hid Hlen Hmode. unfold process_obd2_request.
  assert (G : negb (can_id frame =? CAN_ID_OBD_BROADCAST)%Z
              && negb (can_id frame =? CAN_ID_OBD_ECU_ENGINE)%Z = false).
  { destruct Hid as [E | E]; rewrite E; reflexivity. }
  rewrite G.
  destruct (Z.ltb_spec (can_dlc frame) 2) as [L | _]; [lia|].
  now rewrite Hmode.
Qed.

Lemma to_uint16_eq x n :
  x == inject_Z n -> (0 <= n <= 65535)%Z -> to_uint16 x = Some n.
Proof.
  intros E R. unfold to_uint16, cast_to.
  rewrite (Qtrunc_comp _ _ E), Qtrunc_nonneg, Qfloor_Z.
  - destruct (Z.leb_spec 0 n); [|lia].
    destruct (Z.leb_spec n 65535); [|lia]. reflexivity.
  - change 0 with (inject_Z 0). rewrite <- Zle_Qle. lia.
Qed.

(** C1. A Mode 01 request with PID 0x0C, received on 0x7DF or 0x7E0 with at
    least 2 payload bytes, against a state with rpm = 2000.0, adds exactly one
    frame to the bus: identifier 0x7E8, length 5, payload
    04 41 0C 1F 40.  The PID of a request is the value the dispatcher
    extracts ([request_pid]). *)
Theorem mode01_rpm_2000 frame s :
  obd_request_id frame -> (2 <= can_dlc frame)%Z ->
  request_mode frame = OBD2_MODE_CURRENT_DATA ->
  request_pid frame = OBD2_PID_ENGINE_RPM ->
  rpm (vehicle s) == 2000 ->
  process_obd2_request frame s =
    Some (reply s (obd_response 5 [0x04; 0x41; 0x0C; 0x1F; 0x40; 0; 0; 0]%Z)).
Proof.
  intros Hid Hlen Hmode Hpid Hrpm.
  rewrite process_mode01, Hpid by assumption.
  unfold handle_obd2_mode01, mode01_response.
  change (OBD2_PID_ENGINE_RPM =? OBD2_PID_SUPPORTED_01_20)%Z with false.
  change (OBD2_PID_ENGINE_RPM =? OBD2_PID_ENGINE_LOAD)%Z with false.
  change (OBD2_PID_ENGINE_RPM =? OBD2_PID_COOLANT_TEMP)%Z with false.
  change (OBD2_PID_ENGINE_RPM =? OBD2_PID_ENGINE_RPM)%Z with true.
  cbv iota.
  assert (E : to_uint16 (rpm (vehicle s) * 4)%f32 = Some 8000%Z).
  { apply to_uint16_eq; [|lia]. unfold fmul. rewrite Hrpm. reflexivity. }
  rewrite E. reflexivity.
Qed.

Lemma mode01_rpm_2000_witness :
  let frame := request 0x7DF 3 [0x02; 0x01; 0x0C; 0; 0; 0; 0; 0]%Z in
  let s := {| vehicle := v_rpm_2000; bus := [] |} in
  (obd_request_id frame /\ (2 <= can_dlc frame)%Z /\
   request_mode frame = OBD2_MODE_CURRENT_DATA /\
   request_pid frame = OBD2_PID_ENGINE_RPM /\
   rpm (vehicle s) == 2000) /\
  process_obd2_request frame s =
    Some (reply s (obd_response 5 [0x04; 0x41; 0x0C; 0x1F; 0x40; 0; 0; 0]%Z)).
Proof.
  cbv zeta.
  set (frame := request 0x7DF 3 [0x02; 0x01; 0x0C; 0; 0; 0; 0; 0]%Z).
  set (s := {| vehicle := v_rpm_2000; bus := [] |}).
  assert (H1 : obd_request_id frame) by (left; reflexivity).
  assert (H2 : (2 <= can_dlc frame)%Z) by (simpl; lia).
  assert (H5 : rpm (vehicle s) == 2000) by reflexivity.
  split; [repeat split; assumption || reflexivity|].
  exact (mode01_rpm_2000 frame s H1 H2 eq_refl eq_refl H5).
Defined.

(** The [default] branch of the switch, whatever the vehicle state. *)
Lemma mode01_unsupported v pid :
  ~ In pid supported_pids ->
  mode01_response v pid = Some ([0x03; 0x7F; 0x01; 0x12; 0; 0; 0; 0]%Z, 4%Z).
Proof.
  intros H. unfold supported_pids in H. simpl in H.
  unfold mode01_response.
  repeat match goal with
  | |- context [(pid =? ?c)%Z] =>
      destruct (Z.eqb_spec pid c) as [E | _];
      [exfalso; apply H; rewrite E; cbv; tauto|]
  end.
  reflexivity.
Qed.

(** C2. A Mode 01 request whose PID is none of the PIDs of the switch is
    answered, whatever the vehicle state, by one frame on 0x7E8 with payload
    03 7F 01 12. *)
Theorem mode01_unsupported_pid frame s :
  obd_request_id frame -> (2 <= can_dlc frame)%Z ->
  request_mode frame = OBD2_MODE_CURRENT_DATA ->
  ~ In (request_pid frame) supported_pids ->
  process_obd2_request frame s = Some (reply s negative_response).
Proof.
  intros Hid Hlen Hmode Hpid.
  rewrite process_mode01 by assumption.
  unfold handle_obd2_mode01. now rewrite mode01_unsupported.
Qed.

Lemma mode01_unsupported_pid_witness :
  let frame := request 0x7DF 3 [0x02; 0x01; 0xFF; 0; 0; 0; 0; 0]%Z in
  (obd_request_id frame /\ (2 <= can_dlc frame)%Z /\
   request_mode frame = OBD2_MODE_CURRENT_DATA /\
   ~ In (request_pid frame) supported_pids) /\
  process_obd2_request frame ecu_init = Some (reply ecu_init negative_response).
Proof.
  assert (H : let frame := request 0x7DF 3 [0x02; 0x01; 0xFF; 0; 0; 0; 0; 0]%Z in
              obd_request_id frame /\ (2 <= can_dlc frame)%Z /\
              request_mode frame = OBD2_MODE_CURRENT_DATA /\
              ~ In (request_pid frame) supported_pids).
  { cbv zeta. split; [left; reflexivity|]. split; [simpl; lia|].
    split; [reflexivity|]. cbv. intuition discriminate. }
  cbv zeta in *. split; [exact H|].
  destruct H as (H1 & H2 & H3 & H4).
  exact (mode01_unsupported_pid _ ecu_init H1 H2 H3 H4).
Defined.

(** C3 (amended). Whatever the vehicle state, PID 0x00 is answered with the
    fixed bitmap 06 41 00 18 3E 80 00, and PID 0x20, which the switch does
    not list, with the negative response 03 7F 01 12. *)
Theorem supported_pid_query s :
  handle_obd2_mode01 OBD2_PID_SUPPORTED_01_20 s = Some (reply s bitmap_response) /\
  handle_obd2_mode01 OBD2_PID_SUPPORTED_21_40 s = Some (reply s negative_response).
Proof. split; reflexivity. Qed.

(** PID 0x20 from the initial state: the answer is the negative response, not
    a bitmap. *)
Lemma pid_0x20_not_bitmap :
  handle_obd2_mode01 0x20 ecu_init = Some (reply ecu_init negative_response) /\
  ~ (exists f, handle_obd2_mode01 0x20 ecu_init = Some (reply ecu_init f) /\
               is_bitmap_response 0x20 f).
Proof.
  split; [reflexivity|].
  intros (f & E & b3 & b4 & b5 & b6 & F). subst f.
  vm_compute in E. discriminate E.
Qed.

(** C7. A frame with fewer than 2 payload bytes, or with a mode other than
    0x01, leaves the whole process state as it was: nothing is sent and the
    vehicle is untouched. *)
Theorem invalid_request_dropped frame s :
  (can_dlc frame < 2)%Z \/ request_mode frame <> OBD2_MODE_CURRENT_DATA ->
  process_obd2_request frame s = Some s.
Proof.
  intros H. unfold process_obd2_request.
  destruct (negb (can_id frame =? CAN_ID_OBD_BROADCAST)%Z
            && negb (can_id frame =? CAN_ID_OBD_ECU_ENGINE)%Z); [reflexivity|].
  destruct (Z.ltb_spec (can_dlc frame) 2) as [L | G]; [reflexivity|].
  destruct H as [H | H]; [lia|].
  destruct (Z.eqb_spec (request_mode frame) OBD2_MODE_CURRENT_DATA);
    [contradiction | reflexivity].
Qed.

Lemma invalid_request_dropped_witness :
  let short := request 0x7DF 1 [0x01; 0x01; 0x0C; 0; 0; 0; 0; 0]%Z in
  let mode3 := request 0x7E0 2 [0x01; 0x03; 0; 0; 0; 0; 0; 0]%Z in
  ((can_dlc short < 2)%Z /\ process_obd2_request short ecu_init = Some ecu_init) /\
  (request_mode mode3 <> OBD2_MODE_CURRENT_DATA /\
   process_obd2_request mode3 ecu_init = Some ecu_init).
Proof.
  cbv zeta. split.
  - assert (H : (can_dlc (request 0x7DF 1 [0x01; 0x01; 0x0C; 0; 0; 0; 0; 0]%Z) < 2)%Z)
      by (simpl; lia).
    split; [exact H|]. exact (invalid_request_dropped _ ecu_init (or_introl H)).
  - assert (H : request_mode (request 0x7E0 2 [0x01; 0x03; 0; 0; 0; 0; 0; 0]%Z)
                <> OBD2_MODE_CURRENT_DATA) by (cbv; discriminate).
    split; [exact H|]. exact (invalid_request_dropped _ ecu_init (or_intror H)).
Defined.

(** C9. A Mode 01 frame with exactly 2 payload bytes is dispatched with PID 0,
    whatever byte 2 of the data array holds, and is answered with the
    supported-PID bitmap. *)
Theorem two_byte_request_reads_pid_0 frame s :
  obd_request_id frame -> can_dlc frame = 2%Z ->
  request_mode frame = OBD2_MODE_CURRENT_DATA ->
  request_pid frame = 0%Z /\
  process_obd2_request frame s = Some (reply s bitmap_response).
Proof.
  intros Hid Hlen Hmode.
  assert (P : request_pid frame = 0%Z) by (unfold request_pid; now rewrite Hlen).
  split; [exact P|].
  rewrite process_mode01, P by (assumption || lia). reflexivity.
Qed.

Lemma two_byte_request_witness :
  let frame := request 0x7E0 2 [0x01; 0x01; 0x0C; 0; 0; 0; 0; 0]%Z in
  (obd_request_id frame /\ can_dlc frame = 2%Z /\
   request_mode frame = OBD2_MODE_CURRENT_DATA) /\
  request_pid frame = 0%Z /\
  process_obd2_request frame ecu_init = Some (reply ecu_init bitmap_response).
Proof.
  cbv zeta.
  assert (H1 : obd_request_id (request 0x7E0 2 [0x01; 0x01; 0x0C; 0; 0; 0; 0; 0]%Z))
    by (right; reflexivity).
  split; [split; [exact H1 | split; reflexivity]|].
  exact (two_byte_request_reads_pid_0 _ ecu_init H1 eq_refl eq_refl).
Defined.

(* ====================================================================== *)
(** * The signal codec *)
(* ====================================================================== *)

Lemma land_255 x : Z.land x 0xFF = (x mod 256)%Z.
Proof. change 0xFF%Z with (Z.ones 8). now rewrite Z.land_ones by lia. Qed.

Lemma land_65535 x : Z.land x 0xFFFF = (x mod 65536)%Z.
Proof. change 0xFFFF%Z with (Z.ones 16). now rewrite Z.land_ones by lia. Qed.

Lemma lor_high_low hi lo :
  (0 <= lo < 256)%Z -> Z.lor (hi * 256) lo = (hi * 256 + lo)%Z.
Proof.
  intros H.
  assert (D : Z.land (hi * 256) lo = 0%Z).
  { apply Z.bits_inj'. intros n Hn. rewrite Z.land_spec, Z.bits_0.
    destruct (Z.lt_ge_cases n 8) as [L | G].
    - change 256%Z with (2 ^ 8)%Z. rewrite Z.mul_pow2_bits_low by lia. reflexivity.
    - replace lo with (lo mod 2 ^ 8)%Z by (apply Z.mod_small; simpl; lia).
      rewrite Z.mod_pow2_bits_high by lia. apply andb_false_r. }
  rewrite <- Z.lxor_lor by exact D. symmetry. now apply Z.add_nocarry_lxor.
Qed.

(** The two bytes written for a 16-bit raw value are read back by
    [CAN_GET_U16_BE]. *)
Lemma u16_bytes_roundtrip r :
  (0 <= r <= 65535)%Z ->
  Z.lor (Z.land (Z.shiftl (Z.land (Z.land (Z.shiftr r 8) 0xFF) 0xFF) 8) 0xFFFF)
        (Z.land (Z.land r 0xFF) 0xFF) = r.
Proof.
  intros H. rewrite !land_255, Z.shiftr_div_pow2, Z.shiftl_mul_pow2 by lia.
  rewrite land_65535. change (2 ^ 8)%Z with 256%Z.
  rewrite (Z.mod_small ((r / 256) mod 256 mod 256 * 256) 65536)
    by (Z.div_mod_to_equations; lia).
  rewrite lor_high_low by (Z.div_mod_to_equations; lia).
  Z.div_mod_to_equations; lia.
Qed.

Lemma u8_byte_roundtrip r :
  (0 <= r <= 255)%Z -> Z.land (Z.land r 0xFF) 0xFF = r.
Proof. intros H. rewrite !land_255. Z.div_mod_to_equations; lia. Qed.

Lemma u32_bytes_roundtrip o :
  (0 <= o < 2 ^ 32)%Z ->
  (Z.land (Z.land (Z.shiftr o 24) 0xFF) 0xFF * 2 ^ 24
   + Z.land (Z.land (Z.shiftr o 16) 0xFF) 0xFF * 2 ^ 16
   + Z.land (Z.land (Z.shiftr o 8) 0xFF) 0xFF * 2 ^ 8
   + Z.land (Z.land o 0xFF) 0xFF = o)%Z.
Proof.
  intros H. rewrite !land_255, !Z.shiftr_div_pow2 by lia.
  change (2 ^ 32)%Z with 4294967296%Z in H.
  change (2 ^ 24)%Z with 16777216%Z. change (2 ^ 16)%Z with 65536%Z.
  change (2 ^ 8)%Z with 256%Z.
  Z.div_mod_to_equations; lia.
Qed.

Lemma temp_roundtrip c :
  -40 <= c <= 215 ->
  exists k, to_uint8 (c + 40)%f32 = Some k /\ (0 <= k <= 255)%Z /\
            Qabs (c - inject_Z (k - 40)) < 1.
Proof.
  intros [H1 H2]. unfold fadd.
  assert (R : 0 <= b32 (c + 40) <= 255) by (apply b32_in; try fl; lra).
  destruct (cast_to_some 0 255 (b32 (c + 40))) as [C K];
    [lia | lra | change (inject_Z 255) with 255; lra|].
  exists (Qtrunc (b32 (c + 40))). split; [exact C|]. split; [exact K|].
  destruct (trunc_b32_near (c + 40)) as [A B]; try lra.
  rewrite inj_sub. change (inject_Z 40) with 40.
  apply Qabs_Qlt_condition. lra.
Qed.

Lemma speed_roundtrip s :
  0 <= s <= 255 ->
  exists k, to_uint16 s = Some k /\ (0 <= k <= 255)%Z /\
            0 <= s - inject_Z k /\ s - inject_Z k < 1.
Proof.
  intros [H1 H2].
  destruct (cast_to_some 0 65535 s) as [C K];
    [lia | lra | change (inject_Z 65535) with 65535; lra|].
  exists (Qtrunc s). split; [exact C|].
  destruct (Qtrunc_bounds s H1) as [A B].
  assert (K' : (0 <= Qtrunc s <= 255)%Z).
  { apply Qtrunc_range; [lia | lra | change (inject_Z 255) with 255; lra]. }
  repeat split; try lia; lra.
Qed.

Lemma lit_quarter : lit (25 # 100) == 1 # 4.
Proof. vm_compute. reflexivity. Qed.

Lemma rpm_roundtrip x :
  is_float x -> 0 <= x <= 16383.75 ->
  exists k, to_uint16 (x / lit (25 # 100))%f32 = Some k /\ (0 <= k <= 65535)%Z /\
            (of_int k * ENGINE1_RPM_FACTOR)%f32 == inject_Z k / 4 /\
            0 <= x - inject_Z k / 4 /\ x - inject_Z k / 4 < 1 # 4.
Proof.
  intros F [H1 H2]. unfold fdiv.
  assert (E : b32 (x / lit (25 # 100)) == x * 4).
  { assert (D : x / lit (25 # 100) == x * 2 ^ 2).
    { rewrite lit_quarter. change (2 ^ 2) with 4. field. }
    rewrite D. apply b32_exact. apply (on_grid_scale x 2); [lia|].
    now apply is_float_on_grid. }
  destruct (cast_in_range 65535 (b32 (x / lit (25 # 100)))) as (k & C & K & A & B).
  { rewrite E. lra. }
  { rewrite E. change (inject_Z 65535) with 65535. lra. }
  exists k. split; [exact C|]. split; [exact K|].
  rewrite E in A, B.
  assert (D : (of_int k * ENGINE1_RPM_FACTOR)%f32 == inject_Z k / 4).
  { unfold fmul, ENGINE1_RPM_FACTOR.
    rewrite of_int_exact by (simpl; lia). rewrite lit_quarter.
    assert (G : inject_Z k * (1 # 4) == inject_Z k * 2 ^ (-2)) by reflexivity.
    rewrite G. rewrite b32_exact.
    - change (2 ^ (-2)) with (1 # 4). field.
    - exists k, (-2)%Z. repeat split; simpl; try lia; try reflexivity. }
  split; [exact D|]. unfold Qdiv. change (/ 4) with (1 # 4). lra.
Qed.

Lemma throttle_factor_value : ENGINE1_THROTTLE_FACTOR == 13158605 # 33554432.
Proof. vm_compute. reflexivity. Qed.

Lemma maf_factor_value : ENGINE1_MAF_FACTOR == 5368709 # 536870912.
Proof. vm_compute. reflexivity. Qed.

Lemma pct_roundtrip x :
  0 <= x <= 100 ->
  exists k, pct_raw x = Some k /\ (0 <= k <= 255)%Z /\
            Qabs (x - inject_Z k * 100 / 255) < 100 / 255 /\
            Qabs (x - (of_int k * ENGINE1_THROTTLE_FACTOR)%f32) < 100 / 255.
Proof.
  intros [H0 H1]. unfold pct_raw, fmul, fdiv.
  set (a := b32 (x * 255)).
  assert (Ra : 0 <= a <= 25500) by (apply b32_in; try fl; lra).
  assert (Da : a / 100 == a * (1 # 100)) by (unfold Qdiv; reflexivity).
  set (q := b32 (a / 100)).
  assert (Rq : 0 <= q <= 255) by (apply b32_in; try fl; rewrite Da; lra).
  destruct (cast_in_range 255 q) as (k & C & K & A & B);
    [lra | change (inject_Z 255) with 255; lra|].
  exists k. split; [exact C|]. split; [exact K|].
  assert (Kq : 0 <= inject_Z k <= 255).
  { split; [change 0 with (inject_Z 0) | change 255 with (inject_Z 255)];
      rewrite <- Zle_Qle; lia. }
  (* upper bound on x: the next raw value would have been reached *)
  assert (U : x * 255 < (inject_Z k + 1) * 100).
  { apply Qnot_le_lt. intros G.
    assert (G1 : inject_Z ((k + 1) * 100) <= a).
    { rewrite <- (b32_int ((k + 1) * 100)) by (simpl; lia). apply b32_mono.
      rewrite inject_Z_mult, inject_Z_succ. exact G. }
    assert (G2 : inject_Z (k + 1) <= q).
    { rewrite <- (b32_int (k + 1)) by (simpl; lia). apply b32_mono.
      rewrite Da. rewrite inject_Z_mult in G1. change (inject_Z 100) with 100 in G1. lra. }
    rewrite inject_Z_succ in G2. lra. }
  (* lower bound on x from the two rounding errors *)
  destruct (b32_err_num (x * 255)) as [_ Ea]; [lra|]. fold a in Ea.
  destruct (b32_err_num (a / 100)) as [_ Eq]; [rewrite Da; lra|]. fold q in Eq.
  rewrite Da in Eq.
  split.
  - unfold Qdiv. change (/ 255) with (1 # 255).
    apply Qabs_Qlt_condition. lra.
  - assert (Dk : of_int k == inject_Z k) by (apply of_int_exact; simpl; lia).
    assert (Ed : b32 (of_int k * ENGINE1_THROTTLE_FACTOR)
                 == b32 (inject_Z k * (13158605 # 33554432)))
      by (now rewrite Dk, throttle_factor_value).
    rewrite Ed. unfold Qdiv. change (/ 255) with (1 # 255).
    destruct (Z.eq_dec k 0) as [Z | NZ].
    + subst k.
      assert (E0 : b32 (inject_Z 0 * (13158605 # 33554432)) == 0)
        by (vm_compute; reflexivity).
      rewrite E0.
      change (inject_Z 0) with 0 in *. apply Qabs_Qlt_condition. lra.
    + assert (K1 : 1 <= inject_Z k).
      { change 1 with (inject_Z 1). rewrite <- Zle_Qle. lia. }
      destruct (b32_err_num (inject_Z k * (13158605 # 33554432))) as [D1 D2]; [lra|].
      apply Qabs_Qlt_condition. lra.
Qed.

Lemma maf_roundtrip x :
  0 <= x <= 655.35 ->
  exists k, to_uint16 (x / lit (1 # 100))%f32 = Some k /\ (0 <= k <= 65535)%Z /\
            Qabs (x - (of_int k * ENGINE1_MAF_FACTOR)%f32) < 0.0101.
Proof.
  intros [H0 H1]. unfold fmul, fdiv.
  assert (Dc : forall y, y / lit (1 # 100) == y * (536870912 # 5368709)).
  { intros y. change (lit (1 # 100)) with ENGINE1_MAF_FACTOR.
    rewrite maf_factor_value. unfold Qdiv. reflexivity. }
  set (q := b32 (x / lit (1 # 100))).
  assert (Rq : 0 <= q <= 65535).
  { split.
    - apply b32_ge_lo; [fl|]. rewrite Dc. lra.
    - assert (E : b32 (655.35 / lit (1 # 100)) == 65535) by (vm_compute; reflexivity).
      rewrite <- E. apply b32_mono. rewrite !Dc. lra. }
  destruct (cast_in_range 65535 q) as (k & C & K & A & B);
    [lra | change (inject_Z 65535) with 65535; lra|].
  exists k. split; [exact C|]. split; [exact K|].
  assert (Kq : 0 <= inject_Z k <= 65535).
  { split; [change 0 with (inject_Z 0) | change 65535 with (inject_Z 65535)];
      rewrite <- Zle_Qle; lia. }
  assert (U : x * (536870912 # 5368709) < inject_Z k + 1).
  { apply Qnot_le_lt. intros G.
    assert (G2 : inject_Z (k + 1) <= q).
    { rewrite <- (b32_int (k + 1)) by (simpl; lia). apply b32_mono.
      rewrite Dc, inject_Z_succ. exact G. }
    rewrite inject_Z_succ in G2. lra. }
  destruct (b32_err_num (x / lit (1 # 100))) as [_ Eq]; [rewrite Dc; lra|].
  fold q in Eq. rewrite Dc in Eq.
  assert (Dk : of_int k == inject_Z k) by (apply of_int_exact; simpl; lia).
  assert (Ed : b32 (of_int k * ENGINE1_MAF_FACTOR)
               == b32 (inject_Z k * (5368709 # 536870912)))
    by (now rewrite Dk, maf_factor_value).
  rewrite Ed.
  destruct (b32_err_num (inject_Z k * (5368709 # 536870912))) as [D1 D2]; [lra|].
  apply Qabs_Qlt_condition. lra.
Qed.

Lemma Qabs_lt_le x y : Qabs x < y -> Qabs x <= y.
Proof. apply Qlt_le_weak. Qed.

(** C4 (amended). For every state inside the declared ranges (whose rpm is a
    binary32 value) the three encoders produce a payload, and decoding returns
    rpm within 0.25, maf within 0.0101, throttle, engine_load and fuel_level
    within 100/255, coolant and fluid temperature within 1 degree,
    vehicle_speed within 1 km/h, and gear and odometer exactly. *)
Theorem codec_roundtrip v :
  encodable v ->
  exists d1 d2 d3,
    engine_data_1 v = Some d1 /\ trans_data v = Some d2 /\
    bcm_data v = Some d3 /\ decodes_within 0.0101 1 1 v d1 d2 d3.
Proof.
  intros (Fr & Hr & Hc & Hth & Hm & Hl & Hg & Ht & Hf & Ho & Hs).
  destruct (rpm_roundtrip (rpm v) Fr Hr) as (r & Cr & Kr & Dr & Br1 & Br2).
  destruct (temp_roundtrip (coolant_temp v) Hc) as (c & Cc & Kc & Bc).
  destruct (pct_roundtrip (throttle v) Hth) as (th & Cth & Kth & _ & Bth).
  destruct (maf_roundtrip (maf v) Hm) as (m & Cm & Km & Bm).
  destruct (pct_roundtrip (engine_load v) Hl) as (l & Cl & Kl & Bl & _).
  destruct (temp_roundtrip (trans_temp v) Ht) as (t & Ct & Kt & Bt).
  destruct (speed_roundtrip (vehicle_speed v) Hs) as (s & Cs & Ks & Bs1 & Bs2).
  destruct (pct_roundtrip (fuel_level v) Hf) as (f & Cf & Kf & Bf & _).
  eexists. eexists. eexists.
  split; [unfold engine_data_1; rewrite Cr, Cc, Cth, Cm, Cl; reflexivity|].
  split; [unfold trans_data; rewrite Ct, Cs; reflexivity|].
  split; [unfold bcm_data; rewrite Cf; reflexivity|].
  unfold decodes_within, ENGINE1_GET_RPM, ENGINE1_GET_MAF, ENGINE1_GET_THROTTLE,
    ENGINE1_GET_LOAD, ENGINE1_GET_COOLANT, BCM_GET_FUEL_LEVEL, BCM_GET_ODOMETER,
    TRANS_GET_FLUID_TEMP, TRANS_GET_OUTPUT_RPM, TRANS_GET_GEAR,
    CAN_GET_U16_BE, CAN_GET_U8, ENGINE1_COOLANT_OFFSET, TRANS_TEMP_OFFSET.
  cbn [set_byte zeroed8 repeat byte_at nth Nat.add].
  rewrite !u16_bytes_roundtrip, !u8_byte_roundtrip, u32_bytes_roundtrip by lia.
  repeat split.
  - rewrite Dr. apply Qabs_Qlt_condition. unfold Qdiv in *.
    change (/ 4) with (1 # 4) in *. split; [lra|].
    assert (Q25 : 0.25 == 1 # 4) by reflexivity. lra.
  - apply Qabs_lt_le. exact Bm.
  - exact Bth.
  - exact Bl.
  - exact Bf.
  - apply Qabs_lt_le. exact Bc.
  - apply Qabs_lt_le. exact Bt.
  - apply Qabs_Qle_condition. lra.
Qed.

Lemma v_fractional_encodable : encodable v_fractional.
Proof.
  unfold encodable.
  repeat match goal with |- _ /\ _ => split end;
    try (vm_compute; first [reflexivity | let H := fresh in intro H; discriminate H]).
Qed.

Lemma codec_roundtrip_witness :
  encodable v_fractional /\
  exists d1 d2 d3,
    engine_data_1 v_fractional = Some d1 /\ trans_data v_fractional = Some d2 /\
    bcm_data v_fractional = Some d3 /\
    decodes_within 0.0101 1 1 v_fractional d1 d2 d3.
Proof.
  split; [exact v_fractional_encodable|].
  exact (codec_roundtrip v_fractional v_fractional_encodable).
Defined.

Lemma fractional_state_is_not_recovered :
  encodable v_fractional /\
  engine_data_1 v_fractional = Some d1_fractional /\
  trans_data v_fractional = Some d2_fractional /\
  bcm_data v_fractional = Some d3_fractional /\
  ENGINE1_GET_COOLANT d1_fractional = 85%Z /\
  TRANS_GET_FLUID_TEMP d2_fractional = 60%Z /\
  TRANS_GET_OUTPUT_RPM d2_fractional = 50%Z /\
  0.01 < maf v_fractional - ENGINE1_GET_MAF d1_fractional /\
  ~ decodes_within 0.01 0 0 v_fractional d1_fractional d2_fractional d3_fractional.
Proof.
  split; [exact v_fractional_encodable|].
  repeat match goal with |- _ /\ _ => split end;
    try (vm_compute; reflexivity).
  intros (_ & _ & _ & _ & _ & C & _).
  vm_compute in C. apply C. reflexivity.
Qed.

Lemma engine_data_1_fields v d :
  engine_data_1 v = Some d ->
  CAN_GET_U16_BE d 0 = Qtrunc (rpm v / lit (25 # 100))%f32 /\
  CAN_GET_U8 d 2 = Qtrunc (coolant_temp v + 40)%f32 /\
  CAN_GET_U8 d 3 = Qtrunc (throttle v * 255 / 100)%f32 /\
  CAN_GET_U16_BE d 4 = Qtrunc (maf v / lit (1 # 100))%f32 /\
  CAN_GET_U8 d 6 = Qtrunc (engine_load v * 255 / 100)%f32.
Proof.
  unfold engine_data_1, pct_raw.
  destruct (to_uint16 (rpm v / _)%f32) as [r |] eqn:Cr; [|discriminate].
  destruct (to_uint8 (coolant_temp v + 40)%f32) as [c |] eqn:Cc; [|discriminate].
  destruct (to_uint8 (throttle v * 255 / 100)%f32) as [th |] eqn:Cth; [|discriminate].
  destruct (to_uint16 (maf v / _)%f32) as [m |] eqn:Cm; [|discriminate].
  destruct (to_uint8 (engine_load v * 255 / 100)%f32) as [l |] eqn:Cl; [|discriminate].
  cbn [obind]. intros E. injection E as <-.
  apply cast_to_spec in Cr, Cc, Cth, Cm, Cl.
  destruct Cr as [<- Rr], Cc as [<- Rc], Cth as [<- Rth], Cm as [<- Rm], Cl as [<- Rl].
  unfold CAN_GET_U16_BE, CAN_GET_U8.
  cbn [set_byte zeroed8 repeat byte_at nth Nat.add].
  rewrite !u16_bytes_roundtrip, !u8_byte_roundtrip by lia.
  repeat split.
Qed.

(* ====================================================================== *)
(** * The driving cycle *)
(* ====================================================================== *)

Lemma clamp1_range x : -1 <= clamp1 x <= 1.
Proof.
  unfold clamp1. destruct (Qle_bool x (-1)) eqn:A; [lra|].
  destruct (Qle_bool 1 x) eqn:B; [lra|].
  assert (~ x <= -1) by (intro L; apply Qle_bool_iff in L; congruence).
  assert (~ 1 <= x) by (intro L; apply Qle_bool_iff in L; congruence).
  lra.
Qed.

Lemma sinf_model_range x : -1 <= sinf_model x <= 1.
Proof. apply clamp1_range. Qed.

Section SimulationFacts.


Variable sinf : float -> float.
Hypothesis sinf_range : forall x, -1 <= sinf x <= 1.

Lemma wave_range base amp x :
  0 <= amp -> is_float amp -> is_float (- amp) ->
  is_float (base - amp) -> is_float (base + amp) ->
  base - amp <= (base + amp * sinf x)%f32 <= base + amp.
Proof.
  intros Ha F1 F2 F3 F4. unfold fadd, fmul.
  pose proof (sinf_range x) as S.
  assert (P : - amp <= b32 (amp * sinf x) <= amp) by (apply b32_in; auto; nra).
  apply b32_in; auto; lra.
Qed.

Lemma progress_range cycle lo :
  is_float 0 -> lo <= cycle -> cycle < lo + 15 ->
  0 <= ((cycle - lo) / 15)%f32 <= 1.
Proof.
  intros _ H1 H2. unfold fdiv, fsub.
  assert (A : 0 <= b32 (cycle - lo) <= 15) by (apply b32_in; try fl; lra).
  apply b32_in; try fl.
  split.
  - apply Qle_shift_div_l; lra.
  - apply Qle_shift_div_r; lra.
Qed.

Lemma gear_step_defined p :
  0 <= p <= 1 ->
  exists g, to_int (p * of_int 5)%f32 = Some g /\ (0 <= g <= 5)%Z.
Proof.
  intros Hp. unfold fmul, to_int.
  assert (E5 : of_int 5 == 5) by (vm_compute; reflexivity).
  assert (A : 0 <= b32 (p * of_int 5) <= 5).
  { apply b32_in; try fl. rewrite E5. lra. }
  destruct (cast_to_some (-2147483648) 2147483647 (b32 (p * of_int 5))) as [C R];
    [lia | lra | change (inject_Z 2147483647) with 2147483647; lra |].
  exists (Qtrunc (b32 (p * of_int 5))). split; [exact C|].
  apply Qtrunc_range; [lia | lra | change (inject_Z 5) with 5; lra].
Qed.

Lemma drive_phase_ok cycle t :
  0 <= cycle -> cycle < 60 ->
  exists r, drive_phase sinf cycle t = Some r /\ phase_ok r.
Proof.
  intros H0 H60. unfold drive_phase.
  destruct (fltb_spec cycle 10) as [L10 | G10].
  { eexists; split; [reflexivity|]. cbv beta iota zeta delta [phase_ok].
    pose proof (wave_range 800 50 (t * 2)%f32) as W.
    assert (W' : 800 - 50 <= (800 + 50 * sinf (t * 2)%f32)%f32 <= 800 + 50)
      by (apply W; try fl; lra).
    repeat split; try lra; try lia. }
  apply Qnot_lt_le in G10.
  destruct (fltb_spec cycle 25) as [L25 | G25].
  { pose proof (progress_range cycle 10) as P.
    assert (Hp : 0 <= ((cycle - 10) / 15)%f32 <= 1) by (apply P; try fl; lra).
    set (p := ((cycle - 10) / 15)%f32) in *.
    destruct (gear_step_defined p Hp) as (g & Eg & Rg). rewrite Eg. cbn [obind].
    eexists; split; [reflexivity|]. cbv beta iota zeta delta [phase_ok].
    unfold fadd, fmul.
    assert (A1 : 0 <= b32 (4200 * p) <= 4200) by (apply b32_in; try fl; lra).
    assert (A2 : 0 <= b32 (50 * p) <= 50) by (apply b32_in; try fl; lra).
    assert (A3 : 0 <= b32 (120 * p) <= 120) by (apply b32_in; try fl; lra).
    assert (B1 : 800 <= b32 (800 + b32 (4200 * p)) <= 5000) by (apply b32_in; try fl; lra).
    assert (B2 : 30 <= b32 (30 + b32 (50 * p)) <= 80) by (apply b32_in; try fl; lra).
    repeat split; try lra; destruct (Z.gtb_spec (1 + g) 6); lia. }
  apply Qnot_lt_le in G25.
  destruct (fltb_spec cycle 45) as [L45 | G45].
  { eexists; split; [reflexivity|]. cbv beta iota zeta delta [phase_ok].
    assert (W1 : 2500 - 200 <= (2500 + 200 * sinf (t * lit (5 # 10))%f32)%f32 <= 2500 + 200)
      by (apply wave_range; try fl; lra).
    assert (W2 : 25 - 5 <= (25 + 5 * sinf (t * lit (3 # 10))%f32)%f32 <= 25 + 5)
      by (apply wave_range; try fl; lra).
    assert (W3 : 100 - 10 <= (100 + 10 * sinf (t * lit (2 # 10))%f32)%f32 <= 100 + 10)
      by (apply wave_range; try fl; lra).
    repeat split; try lra; lia. }
  apply Qnot_lt_le in G45.
  pose proof (progress_range cycle 45) as P.
  assert (Hp : 0 <= ((cycle - 45) / 15)%f32 <= 1) by (apply P; try fl; lra).
  set (p := ((cycle - 45) / 15)%f32) in *.
  destruct (gear_step_defined p Hp) as (g & Eg & Rg). rewrite Eg. cbn [obind].
  eexists; split; [reflexivity|]. cbv beta iota zeta delta [phase_ok].
  unfold fadd, fsub, fmul.
  assert (A1 : 0 <= b32 (1700 * p) <= 1700) by (apply b32_in; try fl; lra).
  assert (A2 : 0 <= b32 (1 - p) <= 1) by (apply b32_in; try fl; lra).
  assert (B1 : 800 <= b32 (2500 - b32 (1700 * p)) <= 2500) by (apply b32_in; try fl; lra).
  assert (B2 : 0 <= b32 (25 * b32 (1 - p)) <= 25) by (apply b32_in; try fl; lra).
  assert (B3 : 0 <= b32 (100 * b32 (1 - p)) <= 100) by (apply b32_in; try fl; lra).
  repeat split; try lra; destruct (Z.ltb_spec (6 - g) 0); lia.
Qed.

Lemma main_dt_value : main_dt == 8589935 # 8589934592.
Proof. vm_compute. reflexivity. Qed.

Lemma odometer_step_zero speed :
  0 <= speed <= 255 -> to_uint32 (speed * main_dt / 3600)%f32 = Some 0%Z.
Proof.
  intros H. unfold fmul, fdiv.
  assert (A : 0 <= b32 (speed * main_dt) <= 1).
  { apply b32_in; try fl. rewrite main_dt_value. lra. }
  assert (B : 0 <= b32 (b32 (speed * main_dt) / 3600) <= 1 # 2).
  { apply b32_in; try fl. split.
    - apply Qle_shift_div_l; lra.
    - apply Qle_shift_div_r; lra. }
  unfold to_uint32.
  destruct (cast_to_some 0 4294967295 (b32 (b32 (speed * main_dt) / 3600))) as [C R];
    [lia | lra | change (inject_Z 4294967295) with 4294967295; lra |].
  rewrite C. f_equal.
  rewrite Qtrunc_nonneg by lra. apply Qfloor_unique; change (inject_Z 0) with 0; lra.
Qed.

Lemma tick_ok v :
  0 <= sim_time v ->
  exists v', tick sinf v = Some v' /\ in_bounds v' /\ 0 <= sim_time v' /\
             odometer v' = (odometer v mod 2 ^ 32)%Z.
Proof.
  intros Ht. unfold tick, update_vehicle.
  set (t := (sim_time v + main_dt)%f32).
  assert (Ht' : 0 <= t).
  { unfold t, fadd. apply b32_ge_lo; [fl|]. rewrite main_dt_value. lra. }
  destruct (fmodf_range t 60 Ht') as [C0 C60]; [lra|].
  destruct (drive_phase_ok (fmodf t 60) t C0 C60) as ([[[r th] sp] g] & E & P).
  rewrite E. cbn [obind]. cbv beta iota zeta delta [phase_ok] in P.
  destruct P as (Pr & Pth & Psp & Pg).
  rewrite odometer_step_zero by lra. cbn [obind].
  eexists; split; [reflexivity|].
  unfold in_bounds; cbn [rpm throttle engine_load fuel_level vehicle_speed gear sim_time odometer].
  assert (L1 : 0 <= (th * lit (8 # 10))%f32 <= 80).
  { unfold fmul. apply b32_in; try fl.
    assert (E8 : lit (8 # 10) == 13421773 # 16777216) by (vm_compute; reflexivity).
    rewrite E8. lra. }
  assert (L2 : 10 <= (th * lit (8 # 10) + 10)%f32 <= 90).
  { unfold fadd. apply b32_in; try fl. lra. }
  assert (F1 : 0 <= (t * lit (1 # 100))%f32).
  { unfold fmul. apply b32_ge_lo; [fl|].
    assert (E1 : lit (1 # 100) == 5368709 # 536870912) by (vm_compute; reflexivity).
    rewrite E1. lra. }
  destruct (fmodf_range (t * lit (1 # 100))%f32 50 F1) as [M0 M50]; [lra|].
  assert (F2 : 25 <= (75 - fmodf (t * lit (1 # 100)) 50)%f32 <= 75).
  { unfold fsub at 1. apply b32_in; try fl. lra. }
  repeat split; try lra; try lia.
  now rewrite Z.add_0_r.
Qed.

Lemma run_ok n :
  exists v, run sinf n vehicle_init = Some v /\ in_bounds v /\ 0 <= sim_time v /\
            odometer v = 45231%Z.
Proof.
  induction n as [| n IH].
  - exists vehicle_init. split; [reflexivity|]. split.
    + unfold in_bounds; simpl. repeat split; try lra; lia.
    + simpl. split; [lra | reflexivity].
  - destruct IH as (v & R & B & T & O).
    destruct (tick_ok v T) as (v' & E & B' & T' & O').
    exists v'. simpl. rewrite R. cbn [obind]. rewrite E.
    split; [reflexivity|]. split; [exact B'|]. split; [exact T'|].
    rewrite O', O. reflexivity.
Qed.

Lemma tick_inv v v' :
  tick sinf v = Some v' ->
  let t := (sim_time v + main_dt)%f32 in
  exists r th sp g,
    drive_phase sinf (fmodf t 60) t = Some (r, th, sp, g) /\
    rpm v' = r /\ vehicle_speed v' = sp /\ sim_time v' = t.
Proof.
  unfold tick, update_vehicle. intros H. cbv zeta.
  destruct (drive_phase sinf _ _) as [[[[r th] sp] g] |]; [|discriminate].
  cbn [obind] in H.
  destruct (to_uint32 _) as [inc |]; [|discriminate].
  cbn [obind] in H. injection H as <-. exists r, th, sp, g. repeat split.
Qed.

Lemma time_step_le t :
  0 <= t <= 32768 -> (t + main_dt)%f32 <= 32768.
Proof.
  intros [H0 H1]. unfold fadd. assert (D := main_dt_value).
  assert (E : b32 (32768 + main_dt) == 32768) by (vm_compute; reflexivity).
  rewrite <- E. apply b32_mono. lra.
Qed.

Lemma time_step t :
  is_float t -> 0 <= t <= 32768 ->
  t <= (t + main_dt)%f32 <= t + (1 # 256) /\ (t + main_dt)%f32 <= 32768.
Proof.
  intros F [H0 H1]. unfold is_float in F. unfold fadd. assert (D := main_dt_value).
  split; [split|].
  - rewrite <- F at 1. apply b32_mono. lra.
  - destruct (b32_err_nonneg (t + main_dt)) as [_ U]; [lra|].
    assert (Eu : u32 == 1 # 16777216) by reflexivity.
    assert (Ee : eta32 <= 1 # 16777216) by (vm_compute; discriminate).
    rewrite Eu in U. nra.
  - assert (E : b32 (32768 + main_dt) == 32768) by (vm_compute; reflexivity).
    rewrite <- E. apply b32_mono. lra.
Qed.

Lemma Qtrunc_mono x y : 0 <= x -> x <= y -> (Qtrunc x <= Qtrunc y)%Z.
Proof.
  intros H0 H. rewrite !Qtrunc_nonneg by lra. now apply Qfloor_resp_le.
Qed.

Lemma crossing_close t1 t2 d b :
  0 <= t1 -> t1 <= t2 -> t2 <= t1 + d -> d < 60 ->
  fmodf t1 60 < b -> b <= fmodf t2 60 ->
  b - d <= fmodf t1 60 /\ fmodf t2 60 <= b + d.
Proof.
  intros H0 H12 Hd D C1 C2. unfold fmodf in *.
  assert (K : (Qtrunc (t1 / 60) <= Qtrunc (t2 / 60))%Z).
  { apply Qtrunc_mono.
    - apply Qle_shift_div_l; lra.
    - apply Qmult_le_compat_r; [lra | discriminate]. }
  destruct (Z.eq_dec (Qtrunc (t1 / 60)) (Qtrunc (t2 / 60))) as [E | N].
  - rewrite E in *. lra.
  - assert (K' : (Qtrunc (t1 / 60) + 1 <= Qtrunc (t2 / 60))%Z) by lia.
    rewrite Zle_Qle, inject_Z_plus in K'. change (inject_Z 1) with 1 in K'. lra.
Qed.


Lemma progress_start lo c :
  near_start lo c -> 0 <= ((c - lo) / 15)%f32 <= 1 # 2048.
Proof.
  intros [H1 H2]. unfold fdiv, fsub.
  assert (A : 0 <= b32 (c - lo) <= 1 # 256) by (apply b32_in; try fl; lra).
  apply b32_in; try fl. split.
  - apply Qle_shift_div_l; lra.
  - apply Qle_shift_div_r; lra.
Qed.

Lemma progress_end lo c :
  near_end (lo + 15) c -> 2047 # 2048 <= ((c - lo) / 15)%f32 <= 1.
Proof.
  intros [H1 H2]. unfold fdiv, fsub.
  assert (A : 3839 # 256 <= b32 (c - lo) <= 15) by (apply b32_in; try fl; lra).
  apply b32_in; try fl. split.
  - apply Qle_shift_div_l; lra.
  - apply Qle_shift_div_r; lra.
Qed.

Lemma idle_values c t r th sp g :
  c < 10 -> drive_phase sinf c t = Some (r, th, sp, g) ->
  750 <= r <= 850 /\ sp == 0.
Proof.
  intros H. unfold drive_phase.
  destruct (fltb_spec c 10) as [_ | N]; [|lra].
  intros E. injection E as <- _ <- _. split; [|reflexivity].
  assert (W : 800 - 50 <= (800 + 50 * sinf (t * 2)%f32)%f32 <= 800 + 50)
    by (apply wave_range; auto; try fl; lra).
  lra.
Qed.

Lemma cruise_values c t r th sp g :
  25 <= c -> c < 45 -> drive_phase sinf c t = Some (r, th, sp, g) ->
  2300 <= r <= 2700 /\ 90 <= sp <= 110.
Proof.
  intros H1 H2. unfold drive_phase.
  destruct (fltb_spec c 10) as [N | _]; [lra|].
  destruct (fltb_spec c 25) as [N | _]; [lra|].
  destruct (fltb_spec c 45) as [_ | N]; [|lra].
  intros E. injection E as <- _ <- _.
  assert (W1 : 2500 - 200 <= (2500 + 200 * sinf (t * lit (5 # 10))%f32)%f32 <= 2500 + 200)
    by (apply wave_range; auto; try fl; lra).
  assert (W3 : 100 - 10 <= (100 + 10 * sinf (t * lit (2 # 10))%f32)%f32 <= 100 + 10)
    by (apply wave_range; auto; try fl; lra).
  lra.
Qed.

Lemma accel_values c t r th sp g :
  10 <= c -> c < 25 -> drive_phase sinf c t = Some (r, th, sp, g) ->
  let p := ((c - 10) / 15)%f32 in
  r = (800 + 4200 * p)%f32 /\ sp = (120 * p)%f32.
Proof.
  intros H1 H2. unfold drive_phase.
  destruct (fltb_spec c 10) as [N | _]; [lra|].
  destruct (fltb_spec c 25) as [_ | N]; [|lra].
  destruct (to_int _) as [k |]; [|discriminate]. cbn [obind].
  intros E. injection E as <- _ <- _. split; reflexivity.
Qed.

Lemma decel_values c t r th sp g :
  45 <= c -> drive_phase sinf c t = Some (r, th, sp, g) ->
  let p := ((c - 45) / 15)%f32 in
  r = (2500 - 1700 * p)%f32 /\ sp = (100 * (1 - p))%f32.
Proof.
  intros H1. unfold drive_phase.
  destruct (fltb_spec c 10) as [N | _]; [lra|].
  destruct (fltb_spec c 25) as [N | _]; [lra|].
  destruct (fltb_spec c 45) as [N | _]; [lra|].
  destruct (to_int _) as [k |]; [|discriminate]. cbn [obind].
  intros E. injection E as <- _ <- _. split; reflexivity.
Qed.

Lemma accel_start c :
  near_start 10 c ->
  let p := ((c - 10) / 15)%f32 in
  800 <= (800 + 4200 * p)%f32 <= 804 /\ 0 <= (120 * p)%f32 <= 1 # 16.
Proof.
  intros N p. pose proof (progress_start 10 c N) as P. fold p in P.
  unfold fadd, fmul.
  assert (A : 0 <= b32 (4200 * p) <= 4) by (apply b32_in; try fl; lra).
  split; apply b32_in; try fl; lra.
Qed.

Lemma accel_end c :
  near_end 25 c ->
  let p := ((c - 10) / 15)%f32 in
  4997 <= (800 + 4200 * p)%f32 <= 5000 /\ 119 <= (120 * p)%f32 <= 120.
Proof.
  intros N p. pose proof (progress_end 10 c N) as P. fold p in P.
  unfold fadd, fmul.
  assert (A : 4197 <= b32 (4200 * p) <= 4200) by (apply b32_in; try fl; lra).
  split; apply b32_in; try fl; lra.
Qed.

Lemma decel_start c :
  near_start 45 c ->
  let p := ((c - 45) / 15)%f32 in
  2499 <= (2500 - 1700 * p)%f32 <= 2500 /\ 99 <= (100 * (1 - p))%f32 <= 100.
Proof.
  intros N p. pose proof (progress_start 45 c N) as P. fold p in P.
  unfold fsub, fmul.
  assert (A : 0 <= b32 (1700 * p) <= 1) by (apply b32_in; try fl; lra).
  assert (B : 2047 # 2048 <= b32 (1 - p) <= 1) by (apply b32_in; try fl; lra).
  split; apply b32_in; try fl; lra.
Qed.

Lemma cross_bounds v0 v1 v2 b :
  0 <= sim_time v0 <= 32768 ->
  tick sinf v0 = Some v1 -> tick sinf v1 = Some v2 ->
  crosses b v1 v2 ->
  near_end b (cycle_of v1) /\ near_start b (cycle_of v2).
Proof.
  intros H0 T1 T2 [C1 C2].
  destruct (tick_inv v0 v1 T1) as (_ & _ & _ & _ & _ & _ & _ & E1).
  destruct (tick_inv v1 v2 T2) as (_ & _ & _ & _ & _ & _ & _ & E2).
  assert (A : 0 <= sim_time v1 <= 32768).
  { rewrite E1. split.
    - unfold fadd. apply b32_ge_lo; [fl|]. pose proof main_dt_value. lra.
    - apply time_step_le. exact H0. }
  assert (F : is_float (sim_time v1)) by (rewrite E1; apply b32_idem).
  destruct (time_step (sim_time v1) F A) as [[S1 S2] _]. rewrite <- E2 in S1, S2.
  unfold cycle_of in *.
  destruct (crossing_close (sim_time v1) (sim_time v2) (1 # 256) b) as [D1 D2];
    try lra.
  unfold near_end, near_start. lra.
Qed.

Lemma phase_of v v' :
  tick sinf v = Some v' ->
  exists th g, drive_phase sinf (cycle_of v') (sim_time v')
               = Some (rpm v', th, vehicle_speed v', g).
Proof.
  intros T. destruct (tick_inv v v' T) as (r & th & sp & g & D & <- & <- & E).
  exists th, g. unfold cycle_of. rewrite E. exact D.
Qed.

(** Entering the cruise phase: the ramp ends near 5000 rpm and 120 km/h,
    the cruise values lie within 2500 +/- 200 and 100 +/- 10. *)
Lemma cruise_entry_drop v0 v1 v2 :
  0 <= sim_time v0 <= 32768 ->
  tick sinf v0 = Some v1 -> tick sinf v1 = Some v2 ->
  crosses 25 v1 v2 ->
  2297 <= rpm v1 - rpm v2 /\ 9 <= vehicle_speed v1 - vehicle_speed v2.
Proof.
  intros H0 T1 T2 X.
  destruct (phase_of v0 v1 T1) as (th1 & g1 & P1).
  destruct (phase_of v1 v2 T2) as (th2 & g2 & P2).
  destruct (cross_bounds v0 v1 v2 _ H0 T1 T2 X) as [[A1 A2] [B1 B2]].
  assert (A3 : 10 <= cycle_of v1) by lra.
  destruct (accel_values _ _ _ _ _ _ A3 A2 P1) as [R1 S1].
  destruct (accel_end (cycle_of v1) (conj A1 A2)) as [R1' S1'].
  rewrite <- R1 in R1'. rewrite <- S1 in S1'.
  assert (B3 : cycle_of v2 < 45) by lra.
  destruct (cruise_values _ _ _ _ _ _ B1 B3 P2) as [R2 S2].
  lra.
Qed.

Lemma run_clock n v : run sinf n vehicle_init = Some v -> sim_time v = clock n.
Proof.
  revert v. induction n as [| n IH]; intros v R.
  - injection R as <-. reflexivity.
  - simpl in R. destruct (run sinf n vehicle_init) as [w |]; [|discriminate].
    cbn [obind] in R. destruct (tick_inv w v R) as (_ & _ & _ & _ & _ & _ & _ & E).
    rewrite E, (IH w eq_refl). reflexivity.
Qed.

Lemma run_time_bound n v :
  run sinf n vehicle_init = Some v -> 0 <= sim_time v <= 32768.
Proof.
  revert v. induction n as [| n IH]; intros v R.
  - injection R as <-. simpl. lra.
  - simpl in R. destruct (run sinf n vehicle_init) as [w |]; [|discriminate].
    cbn [obind] in R. destruct (tick_inv w v R) as (_ & _ & _ & _ & _ & _ & _ & E).
    specialize (IH w eq_refl). rewrite E. split.
    + unfold fadd. apply b32_ge_lo; [fl|]. pose proof main_dt_value. lra.
    + now apply time_step_le.
Qed.

(** C5. At every tick of the simulation started from the initial state, rpm
    lies in [0, 16383.75], throttle, engine_load and fuel_level in [0, 100],
    vehicle_speed in [0, 255] and gear in 0..7, the next tick is defined and
    satisfies the same bounds, and the odometer does not decrease. *)
Theorem simulation_stays_in_bounds (n : nat) :
  exists v v',
    run sinf n vehicle_init = Some v /\ tick sinf v = Some v' /\
    in_bounds v /\ in_bounds v' /\ (odometer v <= odometer v')%Z.
Proof.
  destruct (run_ok n) as (v & R & B & T & O).
  destruct (tick_ok v T) as (v' & E & B' & _ & O').
  exists v, v'. repeat split; try assumption; try apply B; try apply B'.
  rewrite O', O. vm_compute. discriminate.
Qed.

(** C10. With the tick size [0.001f] of the main loop, the odometer increment
    of a tick is zero for every vehicle_speed in [0, 255], and the odometer
    reads 45231 after any number of ticks. *)
Theorem odometer_stays_at_initial_value :
  (forall speed : float,
     0 <= speed <= 255 -> to_uint32 (speed * main_dt / 3600)%f32 = Some 0%Z) /\
  (forall n, exists v, run sinf n vehicle_init = Some v /\ odometer v = 45231%Z).
Proof.
  split.
  - apply odometer_step_zero.
  - intros n. destruct (run_ok n) as (v & R & _ & _ & O). eauto.
Qed.

(** C8 (amended). For consecutive ticks on either side of a phase boundary:
    at t=10 rpm changes by at most 54 and vehicle_speed by at most 1/16; at
    t=45 rpm changes by at most 201 and vehicle_speed by at most 11; at t=25
    rpm falls by at least 2297 and vehicle_speed by at least 9. *)
Theorem phase_boundary_jumps v0 v1 v2 :
  0 <= sim_time v0 <= 32768 ->
  tick sinf v0 = Some v1 -> tick sinf v1 = Some v2 ->
  (crosses 10 v1 v2 -> jump_within 54 (1 # 16) v1 v2) /\
  (crosses 45 v1 v2 -> jump_within 201 11 v1 v2) /\
  (crosses 25 v1 v2 ->
     2297 <= rpm v1 - rpm v2 /\ 9 <= vehicle_speed v1 - vehicle_speed v2).
Proof.
  intros H0 T1 T2.
  destruct (phase_of v0 v1 T1) as (th1 & g1 & P1).
  destruct (phase_of v1 v2 T2) as (th2 & g2 & P2).
  split; [|split]; intros X.
  - (* idle, then the first steps of the ramp *)
    destruct (cross_bounds v0 v1 v2 _ H0 T1 T2 X) as [[A1 A2] [B1 B2]].
    destruct (idle_values _ _ _ _ _ _ A2 P1) as [R1 S1].
    assert (B3 : cycle_of v2 < 25) by lra.
    destruct (accel_values _ _ _ _ _ _ B1 B3 P2) as [R2 S2].
    destruct (accel_start (cycle_of v2) (conj B1 B2)) as [R2' S2'].
    rewrite <- R2 in R2'. rewrite <- S2 in S2'.
    split; apply Qabs_Qle_condition; lra.
  - (* cruise, then the first steps of the deceleration *)
    destruct (cross_bounds v0 v1 v2 _ H0 T1 T2 X) as [[A1 A2] [B1 B2]].
    assert (A3 : 25 <= cycle_of v1) by lra.
    destruct (cruise_values _ _ _ _ _ _ A3 A2 P1) as [R1 S1].
    destruct (decel_values _ _ _ _ _ _ B1 P2) as [R2 S2].
    destruct (decel_start (cycle_of v2) (conj B1 B2)) as [R2' S2'].
    rewrite <- R2 in R2'. rewrite <- S2 in S2'.
    split; apply Qabs_Qle_condition; lra.
  - exact (cruise_entry_drop v0 v1 v2 H0 T1 T2 X).
Qed.

End SimulationFacts.

Lemma clock_at_25001 : clock 25001 = 6553309 # 262144.
Proof. vm_compute. reflexivity. Qed.

Lemma clock_S n : clock (S n) = (clock n + main_dt)%f32.
Proof. reflexivity. Qed.

(** The run from the initial state passes t=25 between its ticks 25002 and
    25003. *)
Lemma clock_crosses_25 :
  fmodf (clock 25002) 60 < 25 /\ 25 <= fmodf (clock 25003) 60.
Proof.
  change 25003%nat with (S (S 25001)). change 25002%nat with (S 25001).
  rewrite !clock_S, clock_at_25001. vm_compute. split; [reflexivity | discriminate].
Qed.

Lemma simulation_stays_in_bounds_witness :
  (forall x, -1 <= sinf_model x <= 1) /\
  exists v v',
    run sinf_model 3 vehicle_init = Some v /\ tick sinf_model v = Some v' /\
    in_bounds v /\ in_bounds v' /\ (odometer v <= odometer v')%Z.
Proof.
  split; [exact sinf_model_range|].
  exact (simulation_stays_in_bounds sinf_model sinf_model_range 3).
Defined.

Lemma odometer_stays_at_initial_value_witness :
  (forall x, -1 <= sinf_model x <= 1) /\ 0 <= 120 <= 255 /\
  to_uint32 (120 * main_dt / 3600)%f32 = Some 0%Z /\
  exists v, run sinf_model 60 vehicle_init = Some v /\ odometer v = 45231%Z.
Proof.
  assert (H : 0 <= 120 <= 255) by (split; discriminate).
  split; [exact sinf_model_range|]. split; [exact H|].
  split.
  - exact (proj1 (odometer_stays_at_initial_value sinf_model sinf_model_range) 120 H).
  - exact (proj2 (odometer_stays_at_initial_value sinf_model sinf_model_range) 60%nat).
Defined.

(** Decides a closed comparison of rationals by evaluation. *)
Ltac qcmp :=
  vm_compute;
  repeat match goal with |- _ /\ _ => split end;
  first [reflexivity | let H := fresh in intro H; discriminate H].

(** Evaluates two ticks from [at_time t0] and hands the resulting states,
    with the hypotheses of the boundary theorem, to [k]. *)
Ltac two_ticks t0 b k :=
  let o1 := eval vm_compute in (tick sinf_model (at_time t0)) in
  match o1 with
  | Some ?v1 =>
    let o2 := eval vm_compute in (tick sinf_model v1) in
    match o2 with
    | Some ?v2 =>
      exists v1, v2;
      assert (H0 : 0 <= sim_time (at_time t0) <= 32768)
        by qcmp;
      assert (T1 : tick sinf_model (at_time t0) = Some v1)
        by (vm_compute; reflexivity);
      assert (T2 : tick sinf_model v1 = Some v2) by (vm_compute; reflexivity);
      assert (X : crosses b v1 v2) by qcmp;
      split; [exact (conj H0 (conj T1 (conj T2 X)))|];
      k H0 T1 T2 X
    end
  end.

Lemma phase_boundary_jumps_witness :
  (forall x, -1 <= sinf_model x <= 1) /\
  boundary_case (lit 9.9985) 10 (jump_within 54 (1 # 16)) /\
  boundary_case (lit 44.9985) 45 (jump_within 201 11) /\
  boundary_case (lit 24.9985) 25
    (fun v1 v2 => 2297 <= rpm v1 - rpm v2 /\ 9 <= vehicle_speed v1 - vehicle_speed v2).
Proof.
  split; [exact sinf_model_range|].
  split; [|split]; unfold boundary_case.
  - two_ticks (lit 9.9985) 10 ltac:(fun H0 T1 T2 X =>
      exact (proj1 (phase_boundary_jumps sinf_model sinf_model_range
                      _ _ _ H0 T1 T2) X)).
  - two_ticks (lit 44.9985) 45 ltac:(fun H0 T1 T2 X =>
      exact (proj1 (proj2 (phase_boundary_jumps sinf_model sinf_model_range
                             _ _ _ H0 T1 T2)) X)).
  - two_ticks (lit 24.9985) 25 ltac:(fun H0 T1 T2 X =>
      exact (proj2 (proj2 (phase_boundary_jumps sinf_model sinf_model_range
                             _ _ _ H0 T1 T2)) X)).
Defined.

Lemma run_S sinf n v : run sinf (S n) v = (v' <- run sinf n v ;; tick sinf v').
Proof. reflexivity. Qed.

Lemma cruise_entry_jump : ~ continuous_at sinf_model 25 2000 9.
Proof.
  intros C.
  destruct (run_ok sinf_model sinf_model_range 25001) as (v0 & R0 & _ & _ & _).
  pose proof (run_time_bound sinf_model 25001 v0 R0) as T0.
  destruct (tick_ok sinf_model sinf_model_range v0 (proj1 T0)) as (v1 & E1 & _ & T1 & _).
  destruct (tick_ok sinf_model sinf_model_range v1 T1) as (v2 & E2 & _ & _ & _).
  assert (R1 : run sinf_model 25002 vehicle_init = Some v1).
  { change 25002%nat with (S 25001). rewrite run_S, R0. exact E1. }
  assert (R2 : run sinf_model 25003 vehicle_init = Some v2).
  { change 25003%nat with (S 25002). rewrite run_S, R1. exact E2. }
  assert (X : crosses 25 v1 v2).
  { unfold crosses, cycle_of.
    rewrite (run_clock sinf_model _ _ R1), (run_clock sinf_model _ _ R2).
    destruct clock_crosses_25 as (A & B). split; [exact A | exact B]. }
  destruct (cruise_entry_drop sinf_model sinf_model_range v0 v1 v2 T0 E1 E2 X)
    as [D _].
  destruct (C _ _ _ R1 E2 X) as [A _].
  apply Qabs_Qle_condition in A. lra.
Qed.

(* ====================================================================== *)
(** * Shape of the Mode 01 answers *)
(* ====================================================================== *)

Lemma land_byte x : (0 <= Z.land x 0xFF <= 255)%Z.
Proof. rewrite land_255. pose proof (Z.mod_pos_bound x 256). lia. Qed.


Lemma set_byte_bytes i x a :
  Forall (fun b => (0 <= b <= 255)%Z) a ->
  Forall (fun b => (0 <= b <= 255)%Z) (set_byte i x a).
Proof.
  intros H. revert i. induction H as [| h t Hh Ht IH]; intros [| j]; simpl.
  - constructor.
  - constructor.
  - constructor; [apply land_byte | exact Ht].
  - constructor; [exact Hh | apply IH].
Qed.

Lemma byte_at_set_same i x a :
  (i < length a)%nat -> byte_at (set_byte i x a) i = Z.land x 0xFF.
Proof.
  unfold byte_at. revert i. induction a as [| h t IH]; intros [| j] H; simpl in *;
    try lia; auto. apply IH. lia.
Qed.

Lemma byte_at_set_other i j x a :
  i <> j -> byte_at (set_byte i x a) j = byte_at a j.
Proof.
  unfold byte_at. revert i j. induction a as [| h t IH]; intros [| i] [| j] H; simpl;
    try reflexivity; try congruence. apply IH. congruence.
Qed.

Lemma zeroed8_bytes : Forall (fun b => (0 <= b <= 255)%Z) zeroed8.
Proof. repeat constructor; lia. Qed.

Lemma pct_raw_defined x : 0 <= x <= 100 -> exists k, pct_raw x = Some k.
Proof.
  intros H. destruct (pct_roundtrip x H) as (k & E & _). exists k. exact E.
Qed.

Lemma temp_raw_defined c :
  -40 <= c <= 215 -> exists k, to_uint8 (c + 40)%f32 = Some k.
Proof.
  intros H. destruct (temp_roundtrip c H) as (k & E & _). exists k. exact E.
Qed.

Lemma speed_byte_defined x : 0 <= x <= 255 -> exists k, to_uint8 x = Some k.
Proof.
  intros [H0 H1].
  destruct (cast_to_some 0 255 x) as [C _];
    [lia | lra | change (inject_Z 255) with 255; lra|].
  eexists. exact C.
Qed.

Lemma rpm_x4_defined x :
  0 <= x <= 16383.75 -> exists k, to_uint16 (x * 4)%f32 = Some k.
Proof.
  intros [H0 H1]. unfold fmul.
  assert (R : 0 <= b32 (x * 4) <= 65535) by (apply b32_in; try fl; lra).
  destruct (cast_to_some 0 65535 (b32 (x * 4))) as [C _];
    [lia | lra | change (inject_Z 65535) with 65535; lra|].
  eexists. exact C.
Qed.

Lemma maf_x100_defined x :
  0 <= x <= 655.35 -> exists k, to_uint16 (x * 100)%f32 = Some k.
Proof.
  intros [H0 H1]. unfold fmul.
  assert (R : 0 <= b32 (x * 100) <= 65535) by (apply b32_in; try fl; lra).
  destruct (cast_to_some 0 65535 (b32 (x * 100))) as [C _];
    [lia | lra | change (inject_Z 65535) with 65535; lra|].
  eexists. exact C.
Qed.

Ltac shape_tac :=
  unfold response_shape, supported_pids, byte_at;
  cbn [set_byte zeroed8 repeat length nth In];
  repeat match goal with |- _ /\ _ => split end;
  [ reflexivity
  | repeat constructor; try apply land_byte; try lia
  | auto
  | reflexivity
  | let i := fresh "i" in let H := fresh "H" in
    intros i H;
    do 8 (destruct i as [| i]; [simpl in H; try lia; try reflexivity|]);
    destruct i; reflexivity
  | let H := fresh in intros H; split; try reflexivity;
    repeat (destruct H as [H | H]; [try discriminate H; try (subst; reflexivity)|]);
    try contradiction
  | let H := fresh in intros H; exfalso; apply H; simpl; auto 12 ].

Lemma mode01_response_shape v pid :
  answerable v ->
  exists r len, mode01_response v pid = Some (r, len) /\ response_shape pid r len.
Proof.
  intros (Hl & Hc & Hr & Hs & Hi & Hm & Ht & Hf).
  unfold mode01_response.
  destruct (Z.eqb_spec pid OBD2_PID_SUPPORTED_01_20) as [-> |N0].
  { eexists _, _. split; [reflexivity|]. shape_tac. }
  destruct (Z.eqb_spec pid OBD2_PID_ENGINE_LOAD) as [-> |N1].
  { destruct (pct_raw_defined _ Hl) as (k & ->). cbn [obind].
    eexists _, _. split; [reflexivity|]. shape_tac. }
  destruct (Z.eqb_spec pid OBD2_PID_COOLANT_TEMP) as [-> |N2].
  { destruct (temp_raw_defined _ Hc) as (k & ->). cbn [obind].
    eexists _, _. split; [reflexivity|]. shape_tac. }
  destruct (Z.eqb_spec pid OBD2_PID_ENGINE_RPM) as [-> |N3].
  { destruct (rpm_x4_defined _ Hr) as (k & ->). cbn [obind].
    eexists _, _. split; [reflexivity|]. shape_tac. }
  destruct (Z.eqb_spec pid OBD2_PID_VEHICLE_SPEED) as [-> |N4].
  { destruct (speed_byte_defined _ Hs) as (k & ->). cbn [obind].
    eexists _, _. split; [reflexivity|]. shape_tac. }
  destruct (Z.eqb_spec pid OBD2_PID_INTAKE_TEMP) as [-> |N5].
  { destruct (temp_raw_defined _ Hi) as (k & ->). cbn [obind].
    eexists _, _. split; [reflexivity|]. shape_tac. }
  destruct (Z.eqb_spec pid OBD2_PID_MAF) as [-> |N6].
  { destruct (maf_x100_defined _ Hm) as (k & ->). cbn [obind].
    eexists _, _. split; [reflexivity|]. shape_tac. }
  destruct (Z.eqb_spec pid OBD2_PID_THROTTLE_POS) as [-> |N7].
  { destruct (pct_raw_defined _ Ht) as (k & ->). cbn [obind].
    eexists _, _. split; [reflexivity|]. shape_tac. }
  destruct (Z.eqb_spec pid OBD2_PID_FUEL_LEVEL) as [-> |N8].
  { destruct (pct_raw_defined _ Hf) as (k & ->). cbn [obind].
    eexists _, _. split; [reflexivity|]. shape_tac. }
  eexists _, _. split; [reflexivity|].
  unfold response_shape, byte_at.
  cbn [set_byte zeroed8 repeat length nth].
  repeat match goal with |- _ /\ _ => split end.
  - reflexivity.
  - repeat constructor; try apply land_byte; lia.
  - auto.
  - reflexivity.
  - intros i H.
    do 8 (destruct i as [| i]; [simpl in H; try lia; try reflexivity|]).
    destruct i; reflexivity.
  - unfold supported_pids. intros H. exfalso.
    unfold OBD2_PID_SUPPORTED_01_20, OBD2_PID_ENGINE_LOAD, OBD2_PID_COOLANT_TEMP,
      OBD2_PID_ENGINE_RPM, OBD2_PID_VEHICLE_SPEED, OBD2_PID_INTAKE_TEMP, OBD2_PID_MAF,
      OBD2_PID_THROTTLE_POS, OBD2_PID_FUEL_LEVEL in *.
    simpl in H. intuition congruence.
  - intros _. repeat split.
Qed.

Lemma handle_reply pid s r len :
  mode01_response (vehicle s) pid = Some (r, len) -> (0 < len)%Z ->
  handle_obd2_mode01 pid s =
    Some (reply s (obd_response len
                     (firstn (Z.to_nat len) r ++ repeat 0%Z (8 - Z.to_nat len)))).
Proof.
  intros E L. unfold handle_obd2_mode01. rewrite E. cbn [obind].
  destruct (Z.gtb_spec len 0) as [_ | N]; [|lia]. reflexivity.
Qed.

(** X1. For every accepted Mode 01 request (identifier 0x7DF or 0x7E0, at
    least 2 data bytes, mode 0x01), whatever its PID byte, and every vehicle
    state whose values fit the OBD fields, the simulator writes exactly one
    frame, on 0x7E8: 8 data bytes each in 0..255, length code 4, 5 or 7,
    data[0] = length - 1 and all bytes from the length code on zero. A
    supported PID is answered with 0x41 followed by the PID; every other PID
    with the negative response 03 7F 01 12. *)
Theorem mode01_reply_well_formed frame s :
  obd_request_id frame -> (2 <= can_dlc frame)%Z ->
  request_mode frame = OBD2_MODE_CURRENT_DATA ->
  answerable (vehicle s) ->
  exists f,
    process_obd2_request frame s = Some (reply s f) /\
    can_id f = CAN_ID_OBD_RESP_ENGINE /\ tidy_frame f /\
    (can_dlc f = 4 \/ can_dlc f = 5 \/ can_dlc f = 7)%Z /\
    byte_at (data f) 0 = (can_dlc f - 1)%Z /\
    (In (request_pid frame) supported_pids ->
       byte_at (data f) 1 = 0x41%Z /\ byte_at (data f) 2 = request_pid frame) /\
    (~ In (request_pid frame) supported_pids -> f = negative_response).
Proof.
  intros Hid Hdlc Hmode Hv.
  rewrite (process_mode01 frame s Hid Hdlc Hmode).
  destruct (mode01_response_shape (vehicle s) (request_pid frame) Hv)
    as (r & len & E & Hlen & Hb & Hl & H0 & Hz & Hpos & Hneg).
  rewrite (handle_reply _ _ _ _ E) by lia.
  eexists. split; [reflexivity|].
  assert (NEG : ~ In (request_pid frame) supported_pids ->
                r = [0x03; 0x7F; 0x01; 0x12; 0; 0; 0; 0]%Z /\ len = 4%Z).
  { intros N. rewrite (mode01_unsupported _ _ N) in E. injection E as <- <-. auto. }
  destruct r as [| b0 [| b1 [| b2 [| b3 [| b4 [| b5 [| b6 [| b7 [| ? ?]]]]]]]]];
    try discriminate Hlen.
  unfold byte_at in *. cbn [nth] in H0, Hpos, Hneg.
  assert (Z4 : byte_at [b0; b1; b2; b3; b4; b5; b6; b7] 4 = 0%Z \/ len <> 4%Z).
  { destruct (Z.eq_dec len 4) as [-> |]; [left; apply Hz; simpl; lia | now right]. }
  assert (Z5 : forall i, (5 <= i)%nat -> len <> 7%Z ->
                 nth i [b0; b1; b2; b3; b4; b5; b6; b7] 0%Z = 0%Z).
  { intros i Hi N7. apply Hz. lia. }
  assert (Z7 : b7 = 0%Z) by (apply (Hz 7%nat); lia).
  unfold tidy_frame, obd_response, byte_at; cbn [can_id can_dlc data].
  destruct Hl as [-> | [-> | ->]]; cbn [Z.to_nat Pos.to_nat Pos.iter_op Nat.add
    firstn repeat app Nat.sub length nth].
  - (* len = 4 *)
    repeat match goal with |- _ /\ _ => split end; auto; try lia.
    + inversion Hb as [| ? ? A0 Hb1]; inversion Hb1 as [| ? ? A1 Hb2];
        inversion Hb2 as [| ? ? A2 Hb3]; inversion Hb3 as [| ? ? A3 _].
      repeat constructor; lia.
    + intros i Hi. do 8 (destruct i as [| i]; [simpl in Hi; try lia; reflexivity|]).
      destruct i; reflexivity.
    + intros N. destruct (NEG N) as [R _]. injection R as -> -> -> -> -> -> -> ->.
      reflexivity.
  - (* len = 5 *)
    repeat match goal with |- _ /\ _ => split end; auto; try lia.
    + inversion Hb as [| ? ? A0 Hb1]; inversion Hb1 as [| ? ? A1 Hb2];
        inversion Hb2 as [| ? ? A2 Hb3]; inversion Hb3 as [| ? ? A3 Hb4];
        inversion Hb4 as [| ? ? A4 _].
      repeat constructor; lia.
    + intros i Hi. do 8 (destruct i as [| i]; [simpl in Hi; try lia; reflexivity|]).
      destruct i; reflexivity.
    + intros N. destruct (NEG N) as [_ L]. discriminate L.
  - (* len = 7 *)
    repeat match goal with |- _ /\ _ => split end; auto; try lia.
    + inversion Hb as [| ? ? A0 Hb1]; inversion Hb1 as [| ? ? A1 Hb2];
        inversion Hb2 as [| ? ? A2 Hb3]; inversion Hb3 as [| ? ? A3 Hb4];
        inversion Hb4 as [| ? ? A4 Hb5]; inversion Hb5 as [| ? ? A5 Hb6];
        inversion Hb6 as [| ? ? A6 _].
      repeat constructor; lia.
    + intros i Hi. do 8 (destruct i as [| i]; [simpl in Hi; try lia; reflexivity|]).
      destruct i; reflexivity.
    + intros N. destruct (NEG N) as [_ L]. discriminate L.
Qed.

(* ====================================================================== *)
(** * Round trips through the Mode 01 answers *)
(* ====================================================================== *)

Lemma answerable_init : answerable vehicle_init.
Proof. unfold answerable, vehicle_init; simpl. repeat split; lra. Qed.

Lemma mode01_reply_well_formed_witness :
  let frame := request 0x7DF 3 [0x02; 0x01; 0x05; 0; 0; 0; 0; 0]%Z in
  (obd_request_id frame /\ (2 <= can_dlc frame)%Z /\
   request_mode frame = OBD2_MODE_CURRENT_DATA /\ answerable (vehicle ecu_init)) /\
  exists f,
    process_obd2_request frame ecu_init = Some (reply ecu_init f) /\
    can_id f = CAN_ID_OBD_RESP_ENGINE /\ tidy_frame f /\
    (can_dlc f = 4 \/ can_dlc f = 5 \/ can_dlc f = 7)%Z /\
    byte_at (data f) 0 = (can_dlc f - 1)%Z /\
    (In (request_pid frame) supported_pids ->
       byte_at (data f) 1 = 0x41%Z /\ byte_at (data f) 2 = request_pid frame) /\
    (~ In (request_pid frame) supported_pids -> f = negative_response).
Proof.
  cbv zeta.
  set (frame := request 0x7DF 3 [0x02; 0x01; 0x05; 0; 0; 0; 0; 0]%Z).
  assert (H1 : obd_request_id frame) by (left; reflexivity).
  assert (H2 : (2 <= can_dlc frame)%Z) by (simpl; lia).
  assert (H3 : request_mode frame = OBD2_MODE_CURRENT_DATA) by reflexivity.
  split; [exact (conj H1 (conj H2 (conj H3 answerable_init)))|].
  exact (mode01_reply_well_formed frame ecu_init H1 H2 H3 answerable_init).
Defined.

(** Splitting a 16-bit raw value into the two response bytes. *)
Lemma hi_lo_bytes k :
  (0 <= k <= 65535)%Z ->
  let A := Z.land (Z.land (Z.shiftr k 8) 0xFF) 0xFF in
  let B := Z.land (Z.land k 0xFF) 0xFF in
  (0 <= A <= 255)%Z /\ (0 <= B <= 255)%Z /\ (A * 256 + B = k)%Z.
Proof.
  intros H. cbv zeta. rewrite !land_255, Z.shiftr_div_pow2 by lia.
  change (2 ^ 8)%Z with 256%Z.
  rewrite !Z.mod_mod by lia.
  Z.div_mod_to_equations. lia.
Qed.

(** [(float)a * 256.0f + (float)b] is exact on bytes. *)
Lemma word_of_bytes_exact A B :
  (0 <= A <= 255)%Z -> (0 <= B <= 255)%Z ->
  (of_int A * 256 + of_int B)%f32 == inject_Z (A * 256 + B).
Proof.
  intros HA HB. unfold fadd, fmul.
  rewrite !of_int_exact by lia.
  assert (E1 : inject_Z A * 256 == inject_Z (A * 256)).
  { rewrite inject_Z_mult. reflexivity. }
  rewrite E1, b32_int by lia.
  rewrite <- inject_Z_plus. apply b32_int. lia.
Qed.

Lemma obd2_calc_rpm_value A B :
  (0 <= A <= 255)%Z -> (0 <= B <= 255)%Z ->
  obd2_calc_rpm A B == inject_Z (A * 256 + B) / 4.
Proof.
  intros HA HB. unfold obd2_calc_rpm.
  unfold fdiv at 1. rewrite word_of_bytes_exact by assumption.
  assert (G : inject_Z (A * 256 + B) / 4 == inject_Z (A * 256 + B) * 2 ^ (-2)).
  { change (2 ^ (-2)) with (1 # 4). unfold Qdiv. reflexivity. }
  rewrite G. apply b32_exact.
  exists (A * 256 + B)%Z, (-2)%Z. repeat split; try lia; reflexivity.
Qed.

(** X2. For an engine speed in [0, 16383.75] the PID 0x0C answer is 04 41 0C A
    B with A, B bytes, and obd2_calc_rpm(A, B) is at most the simulated speed
    and less than 0.25 rpm below it. *)
Theorem obd_rpm_roundtrip s :
  is_float (rpm (vehicle s)) -> 0 <= rpm (vehicle s) <= 16383.75 ->
  exists A B,
    handle_obd2_mode01 OBD2_PID_ENGINE_RPM s =
      Some (reply s (obd_response 5 [0x04; 0x41; 0x0C; A; B; 0; 0; 0]%Z)) /\
    (0 <= A <= 255)%Z /\ (0 <= B <= 255)%Z /\
    obd2_calc_rpm A B <= rpm (vehicle s) /\
    rpm (vehicle s) - obd2_calc_rpm A B < 1 # 4.
Proof.
  intros F [H0 H1]. set (x := rpm (vehicle s)) in *.
  assert (E : (x * 4)%f32 == x * 4).
  { unfold fmul. change 4 with (2 ^ 2). apply b32_exact.
    apply (on_grid_scale x 2); [lia|]. now apply is_float_on_grid. }
  destruct (cast_in_range 65535 (x * 4)%f32) as (k & C & K & L & U).
  { rewrite E. lra. }
  { rewrite E. change (inject_Z 65535) with 65535. lra. }
  rewrite E in L, U.
  destruct (hi_lo_bytes k K) as (HA & HB & HK). cbv zeta in HA, HB, HK.
  eexists _, _. split; [|split; [exact HA|split; [exact HB|]]].
  - assert (M : mode01_response (vehicle s) OBD2_PID_ENGINE_RPM
                = Some ([0x04; 0x41; 0x0C; Z.land (Z.land (Z.shiftr k 8) 0xFF) 0xFF;
                         Z.land (Z.land k 0xFF) 0xFF; 0; 0; 0]%Z, 5%Z)).
    { unfold mode01_response. cbn [Z.eqb OBD2_PID_ENGINE_RPM OBD2_PID_SUPPORTED_01_20
        OBD2_PID_ENGINE_LOAD OBD2_PID_COOLANT_TEMP Pos.eqb].
      fold x. unfold to_uint16. rewrite C. cbn [obind]. reflexivity. }
    rewrite (handle_reply _ _ _ _ M) by lia. reflexivity.
  - rewrite obd2_calc_rpm_value by assumption. rewrite HK.
    unfold Qdiv. change (/ 4) with (1 # 4). lra.
Qed.

Lemma land_small k : (0 <= k <= 255)%Z -> Z.land k 0xFF = k.
Proof. intros H. rewrite land_255. apply Z.mod_small. lia. Qed.

Lemma maf_obd_roundtrip x :
  0 <= x <= 655.35 ->
  exists k, to_uint16 (x * 100)%f32 = Some k /\ (0 <= k <= 65535)%Z /\
            Qabs (x - b32 (inject_Z k / 100)) < 0.0101.
Proof.
  intros [H0 H1]. unfold fmul.
  set (q := b32 (x * 100)).
  assert (Rq : 0 <= q <= 65535) by (apply b32_in; try fl; lra).
  destruct (cast_in_range 65535 q) as (k & C & K & A & B);
    [lra | change (inject_Z 65535) with 65535; lra|].
  exists k. split; [exact C|]. split; [exact K|].
  assert (Kq : 0 <= inject_Z k <= 65535).
  { split; [change 0 with (inject_Z 0) | change 65535 with (inject_Z 65535)];
      rewrite <- Zle_Qle; lia. }
  assert (U : x * 100 < inject_Z k + 1).
  { apply Qnot_le_lt. intros G.
    assert (G2 : inject_Z (k + 1) <= q).
    { rewrite <- (b32_int (k + 1)) by (simpl; lia). apply b32_mono.
      rewrite inject_Z_succ. exact G. }
    rewrite inject_Z_succ in G2. lra. }
  destruct (b32_err_num (x * 100)) as [_ Eq]; [lra|]. fold q in Eq.
  assert (Dk : inject_Z k / 100 == inject_Z k * (1 # 100)) by (unfold Qdiv; reflexivity).
  destruct (b32_err_num (inject_Z k / 100)) as [D1 D2]; [rewrite Dk; lra|].
  rewrite Dk in D1, D2. rewrite Dk.
  apply Qabs_Qlt_condition. lra.
Qed.

Lemma obd2_calc_maf_value A B :
  (0 <= A <= 255)%Z -> (0 <= B <= 255)%Z ->
  obd2_calc_maf A B == b32 (inject_Z (A * 256 + B) / 100).
Proof.
  intros HA HB. unfold obd2_calc_maf. unfold fdiv at 1.
  rewrite word_of_bytes_exact by assumption. reflexivity.
Qed.

(** X3. For an air flow in [0, 655.35] the PID 0x10 answer is 04 41 10 A B
    with A, B bytes, and obd2_calc_maf(A, B) differs from the simulated air
    flow by less than 0.0101 g/s. *)
Theorem obd_maf_roundtrip s :
  0 <= maf (vehicle s) <= 655.35 ->
  exists A B,
    handle_obd2_mode01 OBD2_PID_MAF s =
      Some (reply s (obd_response 5 [0x04; 0x41; 0x10; A; B; 0; 0; 0]%Z)) /\
    (0 <= A <= 255)%Z /\ (0 <= B <= 255)%Z /\
    Qabs (maf (vehicle s) - obd2_calc_maf A B) < 0.0101.
Proof.
  intros H.
  destruct (maf_obd_roundtrip _ H) as (k & C & K & E).
  destruct (hi_lo_bytes k K) as (HA & HB & HK). cbv zeta in HA, HB, HK.
  eexists _, _. split; [|split; [exact HA|split; [exact HB|]]].
  - assert (M : mode01_response (vehicle s) OBD2_PID_MAF
                = Some ([0x04; 0x41; 0x10; Z.land (Z.land (Z.shiftr k 8) 0xFF) 0xFF;
                         Z.land (Z.land k 0xFF) 0xFF; 0; 0; 0]%Z, 5%Z)).
    { unfold mode01_response. cbn [Z.eqb OBD2_PID_ENGINE_RPM OBD2_PID_SUPPORTED_01_20
        OBD2_PID_ENGINE_LOAD OBD2_PID_COOLANT_TEMP OBD2_PID_VEHICLE_SPEED
        OBD2_PID_INTAKE_TEMP OBD2_PID_MAF Pos.eqb].
      rewrite C. cbn [obind]. reflexivity. }
    rewrite (handle_reply _ _ _ _ M) by lia. reflexivity.
  - rewrite obd2_calc_maf_value by assumption. rewrite HK. exact E.
Qed.

Lemma pct_obd_roundtrip x :
  0 <= x <= 100 ->
  exists k, pct_raw x = Some k /\ (0 <= k <= 255)%Z /\
            Qabs (x - (of_int k * 100 / 255)%f32) < 0.3922.
Proof.
  intros H. destruct (pct_roundtrip x H) as (k & C & K & E & _).
  exists k. split; [exact C|]. split; [exact K|].
  assert (Kq : 0 <= inject_Z k <= 255).
  { split; [change 0 with (inject_Z 0) | change 255 with (inject_Z 255)];
      rewrite <- Zle_Qle; lia. }
  unfold fdiv, fmul. rewrite of_int_exact by lia.
  assert (E1 : inject_Z k * 100 == inject_Z (k * 100)).
  { rewrite inject_Z_mult. reflexivity. }
  rewrite E1, b32_int by lia. rewrite <- E1.
  assert (Dk : inject_Z k * 100 / 255 == inject_Z k * (100 # 255))
    by (unfold Qdiv; change (/ 255) with (1 # 255); field).
  rewrite Dk in E.
  destruct (b32_err_num (inject_Z k * 100 / 255)) as [D1 D2]; [rewrite Dk; lra|].
  rewrite Dk in D1, D2. rewrite Dk.
  apply Qabs_Qlt_condition in E. unfold Qdiv in E. change (/ 255) with (1 # 255) in E.
  apply Qabs_Qlt_condition. lra.
Qed.

Lemma byte_reply s pid k :
  (0 <= k <= 255)%Z ->
  mode01_response (vehicle s) pid
    = Some ([0x03; 0x41; Z.land pid 0xFF; Z.land k 0xFF; 0; 0; 0; 0]%Z, 4%Z) ->
  handle_obd2_mode01 pid s =
    Some (reply s (obd_response 4 [0x03; 0x41; Z.land pid 0xFF; k; 0; 0; 0; 0]%Z)).
Proof.
  intros K M. rewrite (handle_reply _ _ _ _ M) by lia.
  rewrite (land_small k K). reflexivity.
Qed.

(** X4. For engine load, throttle and fuel level in [0, 100] the answers to
    PIDs 0x04, 0x11 and 0x2F are 03 41 <pid> <byte>, and decoding the byte
    with obd2_calc_engine_load, obd2_calc_throttle and obd2_calc_fuel_level
    gives the simulated percentage to within 0.3922 (one step of 100/255). *)
Theorem obd_percent_roundtrip s :
  0 <= engine_load (vehicle s) <= 100 ->
  0 <= throttle (vehicle s) <= 100 ->
  0 <= fuel_level (vehicle s) <= 100 ->
  exists l t f,
    handle_obd2_mode01 OBD2_PID_ENGINE_LOAD s =
      Some (reply s (obd_response 4 [0x03; 0x41; 0x04; l; 0; 0; 0; 0]%Z)) /\
    handle_obd2_mode01 OBD2_PID_THROTTLE_POS s =
      Some (reply s (obd_response 4 [0x03; 0x41; 0x11; t; 0; 0; 0; 0]%Z)) /\
    handle_obd2_mode01 OBD2_PID_FUEL_LEVEL s =
      Some (reply s (obd_response 4 [0x03; 0x41; 0x2F; f; 0; 0; 0; 0]%Z)) /\
    Qabs (engine_load (vehicle s) - obd2_calc_engine_load l) < 0.3922 /\
    Qabs (throttle (vehicle s) - obd2_calc_throttle t) < 0.3922 /\
    Qabs (fuel_level (vehicle s) - obd2_calc_fuel_level f) < 0.3922.
Proof.
  intros Hl Ht Hf.
  destruct (pct_obd_roundtrip _ Hl) as (l & Cl & Kl & El).
  destruct (pct_obd_roundtrip _ Ht) as (t & Ct & Kt & Et).
  destruct (pct_obd_roundtrip _ Hf) as (f & Cf & Kf & Ef).
  exists l, t, f.
  split; [|split; [|split; [|split; [exact El | split; [exact Et | exact Ef]]]]].
  - apply (byte_reply s OBD2_PID_ENGINE_LOAD l Kl).
    unfold mode01_response. cbn [Z.eqb OBD2_PID_SUPPORTED_01_20 OBD2_PID_ENGINE_LOAD Pos.eqb].
    rewrite Cl. reflexivity.
  - apply (byte_reply s OBD2_PID_THROTTLE_POS t Kt).
    unfold mode01_response. cbn [Z.eqb OBD2_PID_ENGINE_RPM OBD2_PID_SUPPORTED_01_20
        OBD2_PID_ENGINE_LOAD OBD2_PID_COOLANT_TEMP OBD2_PID_VEHICLE_SPEED
        OBD2_PID_INTAKE_TEMP OBD2_PID_MAF OBD2_PID_THROTTLE_POS Pos.eqb].
    rewrite Ct. reflexivity.
  - apply (byte_reply s OBD2_PID_FUEL_LEVEL f Kf).
    unfold mode01_response. cbn [Z.eqb OBD2_PID_ENGINE_RPM OBD2_PID_SUPPORTED_01_20
        OBD2_PID_ENGINE_LOAD OBD2_PID_COOLANT_TEMP OBD2_PID_VEHICLE_SPEED
        OBD2_PID_INTAKE_TEMP OBD2_PID_MAF OBD2_PID_THROTTLE_POS OBD2_PID_FUEL_LEVEL Pos.eqb].
    rewrite Cf. reflexivity.
Qed.

Lemma speed_obd_roundtrip x :
  0 <= x <= 255 ->
  exists k, to_uint8 x = Some k /\ (0 <= k <= 255)%Z /\
            inject_Z k <= x /\ x < inject_Z k + 1.
Proof.
  intros [H0 H1].
  destruct (cast_in_range 255 x) as (k & C & K & A & B);
    [lra | change (inject_Z 255) with 255; lra|].
  exists k. repeat split; auto; lia.
Qed.

(** X5. For coolant and intake temperatures in [-40, 215] and a speed in [0,
    255] the answers to PIDs 0x05, 0x0F and 0x0D are 03 41 <pid> <byte>;
    obd2_calc_coolant_temp and obd2_calc_intake_temp of the byte are within 1
    degree of the simulated temperature, and obd2_calc_speed of the byte is
    the simulated speed rounded down. *)
Theorem obd_offset_roundtrip s :
  -40 <= coolant_temp (vehicle s) <= 215 ->
  -40 <= intake_temp (vehicle s) <= 215 ->
  0 <= vehicle_speed (vehicle s) <= 255 ->
  exists c i v,
    handle_obd2_mode01 OBD2_PID_COOLANT_TEMP s =
      Some (reply s (obd_response 4 [0x03; 0x41; 0x05; c; 0; 0; 0; 0]%Z)) /\
    handle_obd2_mode01 OBD2_PID_INTAKE_TEMP s =
      Some (reply s (obd_response 4 [0x03; 0x41; 0x0F; i; 0; 0; 0; 0]%Z)) /\
    handle_obd2_mode01 OBD2_PID_VEHICLE_SPEED s =
      Some (reply s (obd_response 4 [0x03; 0x41; 0x0D; v; 0; 0; 0; 0]%Z)) /\
    Qabs (coolant_temp (vehicle s) - inject_Z (obd2_calc_coolant_temp c)) < 1 /\
    Qabs (intake_temp (vehicle s) - inject_Z (obd2_calc_intake_temp i)) < 1 /\
    inject_Z (obd2_calc_speed v) <= vehicle_speed (vehicle s) /\
    vehicle_speed (vehicle s) < inject_Z (obd2_calc_speed v) + 1.
Proof.
  intros Hc Hi Hv.
  destruct (temp_roundtrip _ Hc) as (c & Cc & Kc & Ec).
  destruct (temp_roundtrip _ Hi) as (i & Ci & Ki & Ei).
  destruct (speed_obd_roundtrip _ Hv) as (v & Cv & Kv & Ev1 & Ev2).
  exists c, i, v.
  split; [|split; [|split; [|split; [exact Ec | split; [exact Ei | split; [exact Ev1 | exact Ev2]]]]]].
  - apply (byte_reply s OBD2_PID_COOLANT_TEMP c Kc).
    unfold mode01_response. cbn [Z.eqb OBD2_PID_SUPPORTED_01_20 OBD2_PID_ENGINE_LOAD
      OBD2_PID_COOLANT_TEMP Pos.eqb].
    rewrite Cc. reflexivity.
  - apply (byte_reply s OBD2_PID_INTAKE_TEMP i Ki).
    unfold mode01_response. cbn [Z.eqb OBD2_PID_ENGINE_RPM OBD2_PID_SUPPORTED_01_20
        OBD2_PID_ENGINE_LOAD OBD2_PID_COOLANT_TEMP OBD2_PID_VEHICLE_SPEED
        OBD2_PID_INTAKE_TEMP Pos.eqb].
    rewrite Ci. reflexivity.
  - apply (byte_reply s OBD2_PID_VEHICLE_SPEED v Kv).
    unfold mode01_response. cbn [Z.eqb OBD2_PID_ENGINE_RPM OBD2_PID_SUPPORTED_01_20
        OBD2_PID_ENGINE_LOAD OBD2_PID_COOLANT_TEMP OBD2_PID_VEHICLE_SPEED Pos.eqb].
    rewrite Cv. reflexivity.
Qed.

(* ====================================================================== *)
(** * The two encodings of engine speed and air flow *)
(* ====================================================================== *)

Lemma engine_data_1_defined v :
  encodable v -> exists d, engine_data_1 v = Some d.
Proof.
  intros (Fr & Hr & Hc & Hth & Hm & Hl & _).
  destruct (rpm_roundtrip (rpm v) Fr Hr) as (r & Cr & _).
  destruct (temp_roundtrip (coolant_temp v) Hc) as (c & Cc & _).
  destruct (pct_roundtrip (throttle v) Hth) as (th & Cth & _).
  destruct (maf_roundtrip (maf v) Hm) as (m & Cm & _).
  destruct (pct_roundtrip (engine_load v) Hl) as (l & Cl & _).
  eexists. unfold engine_data_1. rewrite Cr, Cc, Cth, Cm, Cl. reflexivity.
Qed.

Lemma rpm_scalings_agree x :
  is_float x -> 0 <= x <= 16383.75 ->
  (x / lit (25 # 100))%f32 == (x * 4)%f32.
Proof.
  intros F H. unfold fdiv, fmul. apply b32_comp. rewrite lit_quarter. field.
Qed.

Lemma maf_scalings_close x m1 m2 :
  0 <= x <= 655.35 ->
  m1 = Qtrunc (x / lit (1 # 100))%f32 -> m2 = Qtrunc (x * 100)%f32 ->
  (m2 <= m1 <= m2 + 1)%Z.
Proof.
  intros [H0 H1] -> ->. unfold fdiv, fmul.
  assert (Dc : x / lit (1 # 100) == x * (536870912 # 5368709)).
  { change (lit (1 # 100)) with ENGINE1_MAF_FACTOR.
    rewrite maf_factor_value. unfold Qdiv. reflexivity. }
  rewrite (Qtrunc_comp _ _ (b32_comp _ _ Dc)).
  set (a := b32 (x * (536870912 # 5368709))). set (b := b32 (x * 100)).
  assert (Rb : 0 <= b) by (apply b32_ge_lo; [fl | lra]).
  assert (Ra : 0 <= a) by (apply b32_ge_lo; [fl | lra]).
  assert (M : b <= a) by (apply b32_mono; lra).
  destruct (b32_err_num (x * (536870912 # 5368709))) as [_ Ua]; [lra|]. fold a in Ua.
  destruct (b32_err_num (x * 100)) as [Lb _]; [lra|]. fold b in Lb.
  destruct (Qtrunc_bounds a Ra) as [A1 A2].
  destruct (Qtrunc_bounds b Rb) as [B1 B2].
  split.
  - apply Qtrunc_mono; assumption.
  - assert (G : inject_Z (Qtrunc a) < inject_Z (Qtrunc b + 2)).
    { rewrite inject_Z_plus. change (inject_Z 2) with 2. lra. }
    rewrite <- Zlt_Qlt in G. lia.
Qed.

(** X6. For an encodable state, the 16-bit raw engine speed in the PID 0x0C
    answer (rpm * 4.0f) equals the one in bytes 0-1 of the ENGINE_DATA_1
    broadcast (rpm / 0.25f), whereas the raw air flow in the PID 0x10 answer
    (maf * 100.0f) is equal to or one less than the one in bytes 4-5 of the
    broadcast (maf / 0.01f). *)
Theorem obd_and_broadcast_raw_values s :
  encodable (vehicle s) ->
  exists d A B A' B',
    engine_data_1 (vehicle s) = Some d /\
    handle_obd2_mode01 OBD2_PID_ENGINE_RPM s =
      Some (reply s (obd_response 5 [0x04; 0x41; 0x0C; A; B; 0; 0; 0]%Z)) /\
    handle_obd2_mode01 OBD2_PID_MAF s =
      Some (reply s (obd_response 5 [0x04; 0x41; 0x10; A'; B'; 0; 0; 0]%Z)) /\
    (0 <= B <= 255)%Z /\ (0 <= B' <= 255)%Z /\
    (A * 256 + B = CAN_GET_U16_BE d 0)%Z /\
    (A' * 256 + B' <= CAN_GET_U16_BE d 4 <= A' * 256 + B' + 1)%Z.
Proof.
  intros Hv.
  destruct (engine_data_1_defined _ Hv) as (d & Ed).
  destruct (engine_data_1_fields _ _ Ed) as (Dr & _ & _ & Dm & _).
  destruct Hv as (Fr & Hr & _ & _ & Hm & _).
  (* rpm *)
  destruct (rpm_x4_defined _ Hr) as (k & Ck).
  destruct (cast_to_spec _ _ _ _ Ck) as [Ek Rk].
  destruct (hi_lo_bytes k Rk) as (HA & HB & HK). cbv zeta in HA, HB, HK.
  (* maf *)
  destruct (maf_x100_defined _ Hm) as (m & Cm).
  destruct (cast_to_spec _ _ _ _ Cm) as [Em Rm].
  destruct (hi_lo_bytes m Rm) as (HA' & HB' & HM). cbv zeta in HA', HB', HM.
  exists d. eexists _, _, _, _.
  split; [exact Ed|]. split; [|split; [|split; [exact HB | split; [exact HB'|]]]].
  - assert (M : mode01_response (vehicle s) OBD2_PID_ENGINE_RPM
                = Some ([0x04; 0x41; 0x0C; Z.land (Z.land (Z.shiftr k 8) 0xFF) 0xFF;
                         Z.land (Z.land k 0xFF) 0xFF; 0; 0; 0]%Z, 5%Z)).
    { unfold mode01_response. cbn [Z.eqb OBD2_PID_ENGINE_RPM OBD2_PID_SUPPORTED_01_20
        OBD2_PID_ENGINE_LOAD OBD2_PID_COOLANT_TEMP Pos.eqb].
      rewrite Ck. cbn [obind]. reflexivity. }
    rewrite (handle_reply _ _ _ _ M) by lia. reflexivity.
  - assert (M : mode01_response (vehicle s) OBD2_PID_MAF
                = Some ([0x04; 0x41; 0x10; Z.land (Z.land (Z.shiftr m 8) 0xFF) 0xFF;
                         Z.land (Z.land m 0xFF) 0xFF; 0; 0; 0]%Z, 5%Z)).
    { unfold mode01_response. cbn [Z.eqb OBD2_PID_ENGINE_RPM OBD2_PID_SUPPORTED_01_20
        OBD2_PID_ENGINE_LOAD OBD2_PID_COOLANT_TEMP OBD2_PID_VEHICLE_SPEED
        OBD2_PID_INTAKE_TEMP OBD2_PID_MAF Pos.eqb].
      rewrite Cm. cbn [obind]. reflexivity. }
    rewrite (handle_reply _ _ _ _ M) by lia. reflexivity.
  - split.
    + rewrite HK, Dr, Ek. apply Qtrunc_comp. symmetry.
      apply rpm_scalings_agree; assumption.
    + rewrite HM. apply (maf_scalings_close (maf (vehicle s))); assumption.
Qed.

Lemma v_maf_edge_encodable : encodable v_maf_edge.
Proof.
  unfold encodable.
  repeat match goal with |- _ /\ _ => split end;
    try (vm_compute; first [reflexivity | let H := fresh in intro H; discriminate H]).
Qed.

(** At [v_maf_edge] the two raw values of maf differ: the broadcast frame
    carries 5, the diagnostic answer 4. *)
Lemma maf_raw_values_differ :
  let s := {| vehicle := v_maf_edge; bus := [] |} in
  engine_data_1 v_maf_edge = Some [0x0C; 0x80; 125; 38; 0; 5; 51; 0]%Z /\
  handle_obd2_mode01 OBD2_PID_MAF s =
    Some (reply s (obd_response 5 [0x04; 0x41; 0x10; 0; 4; 0; 0; 0]%Z)).
Proof. cbv zeta. split; vm_compute; reflexivity. Qed.

Lemma obd_and_broadcast_raw_values_witness :
  let s := {| vehicle := v_maf_edge; bus := [] |} in
  encodable (vehicle s) /\
  exists d A B A' B',
    engine_data_1 (vehicle s) = Some d /\
    handle_obd2_mode01 OBD2_PID_ENGINE_RPM s =
      Some (reply s (obd_response 5 [0x04; 0x41; 0x0C; A; B; 0; 0; 0]%Z)) /\
    handle_obd2_mode01 OBD2_PID_MAF s =
      Some (reply s (obd_response 5 [0x04; 0x41; 0x10; A'; B'; 0; 0; 0]%Z)) /\
    (0 <= B <= 255)%Z /\ (0 <= B' <= 255)%Z /\
    (A * 256 + B = CAN_GET_U16_BE d 0)%Z /\
    (A' * 256 + B' <= CAN_GET_U16_BE d 4 <= A' * 256 + B' + 1)%Z.
Proof.
  cbv zeta. split; [exact v_maf_edge_encodable|].
  exact (obd_and_broadcast_raw_values {| vehicle := v_maf_edge; bus := [] |}
           v_maf_edge_encodable).
Defined.

Lemma is_float_800 : is_float 800.
Proof. fl. Qed.

Lemma obd_rpm_roundtrip_witness :
  (is_float (rpm (vehicle ecu_init)) /\ 0 <= rpm (vehicle ecu_init) <= 16383.75) /\
  exists A B,
    handle_obd2_mode01 OBD2_PID_ENGINE_RPM ecu_init =
      Some (reply ecu_init (obd_response 5 [0x04; 0x41; 0x0C; A; B; 0; 0; 0]%Z)) /\
    (0 <= A <= 255)%Z /\ (0 <= B <= 255)%Z /\
    obd2_calc_rpm A B <= rpm (vehicle ecu_init) /\
    rpm (vehicle ecu_init) - obd2_calc_rpm A B < 1 # 4.
Proof.
  assert (R : 0 <= rpm (vehicle ecu_init) <= 16383.75) by (simpl; lra).
  split; [exact (conj is_float_800 R)|].
  exact (obd_rpm_roundtrip ecu_init is_float_800 R).
Defined.

Lemma obd_maf_roundtrip_witness :
  let s := {| vehicle := v_fractional; bus := [] |} in
  0 <= maf (vehicle s) <= 655.35 /\
  exists A B,
    handle_obd2_mode01 OBD2_PID_MAF s =
      Some (reply s (obd_response 5 [0x04; 0x41; 0x10; A; B; 0; 0; 0]%Z)) /\
    (0 <= A <= 255)%Z /\ (0 <= B <= 255)%Z /\
    Qabs (maf (vehicle s) - obd2_calc_maf A B) < 0.0101.
Proof.
  cbv zeta.
  assert (R : 0 <= maf (vehicle {| vehicle := v_fractional; bus := [] |}) <= 655.35).
  { vm_compute. split; intro H; discriminate H. }
  split; [exact R|].
  exact (obd_maf_roundtrip {| vehicle := v_fractional; bus := [] |} R).
Defined.

Lemma obd_percent_roundtrip_witness :
  (0 <= engine_load (vehicle ecu_init) <= 100 /\
   0 <= throttle (vehicle ecu_init) <= 100 /\
   0 <= fuel_level (vehicle ecu_init) <= 100) /\
  exists l t f,
    handle_obd2_mode01 OBD2_PID_ENGINE_LOAD ecu_init =
      Some (reply ecu_init (obd_response 4 [0x03; 0x41; 0x04; l; 0; 0; 0; 0]%Z)) /\
    handle_obd2_mode01 OBD2_PID_THROTTLE_POS ecu_init =
      Some (reply ecu_init (obd_response 4 [0x03; 0x41; 0x11; t; 0; 0; 0; 0]%Z)) /\
    handle_obd2_mode01 OBD2_PID_FUEL_LEVEL ecu_init =
      Some (reply ecu_init (obd_response 4 [0x03; 0x41; 0x2F; f; 0; 0; 0; 0]%Z)) /\
    Qabs (engine_load (vehicle ecu_init) - obd2_calc_engine_load l) < 0.3922 /\
    Qabs (throttle (vehicle ecu_init) - obd2_calc_throttle t) < 0.3922 /\
    Qabs (fuel_level (vehicle ecu_init) - obd2_calc_fuel_level f) < 0.3922.
Proof.
  assert (H1 : 0 <= engine_load (vehicle ecu_init) <= 100) by (simpl; lra).
  assert (H2 : 0 <= throttle (vehicle ecu_init) <= 100) by (simpl; lra).
  assert (H3 : 0 <= fuel_level (vehicle ecu_init) <= 100) by (simpl; lra).
  split; [exact (conj H1 (conj H2 H3))|].
  exact (obd_percent_roundtrip ecu_init H1 H2 H3).
Defined.

Lemma obd_offset_roundtrip_witness :
  let s := {| vehicle := v_fractional; bus := [] |} in
  (-40 <= coolant_temp (vehicle s) <= 215 /\
   -40 <= intake_temp (vehicle s) <= 215 /\
   0 <= vehicle_speed (vehicle s) <= 255) /\
  exists c i v,
    handle_obd2_mode01 OBD2_PID_COOLANT_TEMP s =
      Some (reply s (obd_response 4 [0x03; 0x41; 0x05; c; 0; 0; 0; 0]%Z)) /\
    handle_obd2_mode01 OBD2_PID_INTAKE_TEMP s =
      Some (reply s (obd_response 4 [0x03; 0x41; 0x0F; i; 0; 0; 0; 0]%Z)) /\
    handle_obd2_mode01 OBD2_PID_VEHICLE_SPEED s =
      Some (reply s (obd_response 4 [0x03; 0x41; 0x0D; v; 0; 0; 0; 0]%Z)) /\
    Qabs (coolant_temp (vehicle s) - inject_Z (obd2_calc_coolant_temp c)) < 1 /\
    Qabs (intake_temp (vehicle s) - inject_Z (obd2_calc_intake_temp i)) < 1 /\
    inject_Z (obd2_calc_speed v) <= vehicle_speed (vehicle s) /\
    vehicle_speed (vehicle s) < inject_Z (obd2_calc_speed v) + 1.
Proof.
  cbv zeta. set (s := {| vehicle := v_fractional; bus := [] |}).
  assert (H1 : -40 <= coolant_temp (vehicle s) <= 215) by (simpl; lra).
  assert (H2 : -40 <= intake_temp (vehicle s) <= 215) by (simpl; lra).
  assert (H3 : 0 <= vehicle_speed (vehicle s) <= 255) by (simpl; lra).
  split; [exact (conj H1 (conj H2 H3))|].
  exact (obd_offset_roundtrip s H1 H2 H3).
Defined.

(* ====================================================================== *)
(** * The envelope of the driving cycle *)
(* ====================================================================== *)

Lemma b32_eq x y : x == y -> b32 x = b32 y.
Proof.
  intros E. unfold b32.
  destruct (Qeq_bool x 0) eqn:X.
  - apply Qeq_bool_iff in X.
    assert (Y : Qeq_bool y 0 = true) by (apply Qeq_bool_iff; rewrite <- E; exact X).
    rewrite Y. reflexivity.
  - assert (NX : ~ x == 0) by (intro H; apply Qeq_bool_iff in H; congruence).
    assert (Y : Qeq_bool y 0 = false).
    { destruct (Qeq_bool y 0) eqn:Y; [|reflexivity].
      apply Qeq_bool_iff in Y. exfalso. apply NX. rewrite E. exact Y. }
    rewrite Y. cbv zeta.
    rewrite (b32_exp_comp x y NX E).
    rewrite (RNE_comp (x / 2 ^ b32_exp y) (y / 2 ^ b32_exp y)) by (now rewrite E).
    reflexivity.
Qed.

Lemma b32_is_float x : is_float (b32 x).
Proof. apply b32_idem. Qed.

Section Reachable.

Variable sinf : float -> float.

Hypothesis sinf_range : forall x, -1 <= sinf x <= 1.

Lemma drive_phase_float cycle t r th sp g :
  drive_phase sinf cycle t = Some (r, th, sp, g) -> is_float r.
Proof.
  unfold drive_phase.
  destruct (fltb cycle 10).
  { intros E. injection E as <- _ _ _. apply b32_is_float. }
  destruct (fltb cycle 25).
  { destruct (to_int _) as [k |]; [|discriminate]. cbn [obind].
    intros E. injection E as <- _ _ _. apply b32_is_float. }
  destruct (fltb cycle 45).
  { intros E. injection E as <- _ _ _. apply b32_is_float. }
  destruct (to_int _) as [k |]; [|discriminate]. cbn [obind].
  intros E. injection E as <- _ _ _. apply b32_is_float.
Qed.

Lemma tick_ranges v :
  0 <= sim_time v <= 32768 -> odometer v = 45231%Z ->
  exists v', tick sinf v = Some v' /\ driving_ranges v'.
Proof.
  intros [Ht Ht2] Ho. unfold tick, update_vehicle.
  set (t := (sim_time v + main_dt)%f32).
  assert (Ht' : 0 <= t).
  { unfold t, fadd. apply b32_ge_lo; [fl|]. rewrite main_dt_value. lra. }
  assert (Ht'' : t <= 32768) by (apply time_step_le; lra).
  destruct (fmodf_range t 60 Ht') as [C0 C60]; [lra|].
  destruct (drive_phase_ok sinf sinf_range (fmodf t 60) t C0 C60) as ([[[r th] sp] g] & E & P).
  pose proof (drive_phase_float _ _ _ _ _ _ E) as Fr.
  rewrite E. cbn [obind]. cbv beta iota zeta delta [phase_ok] in P.
  destruct P as (Pr & Pth & Psp & Pg).
  rewrite odometer_step_zero by lra. cbn [obind].
  eexists; split; [reflexivity|].
  unfold driving_ranges;
    cbn [rpm throttle engine_load fuel_level vehicle_speed gear sim_time odometer
         maf coolant_temp intake_temp trans_temp].
  assert (E8 : lit (8 # 10) == 13421773 # 16777216) by (vm_compute; reflexivity).
  assert (L1 : 0 <= (th * lit (8 # 10))%f32 <= 64).
  { unfold fmul. split.
    - apply b32_ge_lo; [fl|]. rewrite E8. lra.
    - assert (M : b32 (80 * lit (8 # 10)) == 64) by (vm_compute; reflexivity).
      rewrite <- M. apply b32_mono. rewrite E8. lra. }
  set (load := (th * lit (8 # 10) + 10)%f32).
  assert (L2 : 10 <= load <= 74).
  { unfold load, fadd. apply b32_in; try fl. lra. }
  assert (Q1 : (3 # 4) <= (r / 1000)%f32 <= 5).
  { unfold fdiv. apply b32_in; try fl. unfold Qdiv. change (/ 1000) with (1 # 1000). lra. }
  assert (Q2 : (1 # 10) - (1 # 1000) <= (load / 100)%f32 <= (3 # 4)).
  { unfold fdiv. split.
    - assert (M : (1 # 10) - (1 # 1000) <= b32 (10 / 100)) by (vm_compute; discriminate).
      eapply Qle_trans; [exact M|]. apply b32_mono.
      unfold Qdiv. change (/ 100) with (1 # 100). lra.
    - apply b32_le_hi; [fl|]. unfold Qdiv. change (/ 100) with (1 # 100). lra. }
  assert (Q3 : (7 # 100) <= ((r / 1000) * (load / 100))%f32 <= 3.75).
  { unfold fmul at 1.
    set (a := (r / 1000)%f32) in *. set (b := (load / 100)%f32) in *.
    clearbody a b.
    assert (P1 : a * b <= 5 * b) by (apply Qmult_le_compat_r; lra).
    assert (P2 : (3 # 4) * b <= a * b) by (apply Qmult_le_compat_r; lra).
    split.
    - assert (M : (7 # 100) <= b32 ((3 # 4) * ((1 # 10) - (1 # 1000))))
        by (vm_compute; discriminate).
      eapply Qle_trans; [exact M|]. apply b32_mono.
      apply Qle_trans with ((3 # 4) * b); [|exact P2].
      apply Qmult_le_l; [reflexivity | apply Q2].
    - apply b32_le_hi; [fl|].
      apply Qle_trans with (5 * b); [exact P1|].
      apply Qle_trans with (5 * (3 # 4)); [|discriminate].
      apply Qmult_le_l; [reflexivity | apply Q2]. }
  assert (Q4 : 1 <= ((r / 1000) * (load / 100) * 15)%f32 <= 57).
  { unfold fmul at 1. apply b32_in; try fl. lra. }
  assert (W1 : 85 - 10 <= (85 + 10 * sinf (t * lit (1 # 100))%f32)%f32 <= 85 + 10)
    by (apply wave_range; try fl; auto; lra).
  assert (W2 : 25 - 5 <= (25 + 5 * sinf (t * lit (5 # 100))%f32)%f32 <= 25 + 5)
    by (apply wave_range; try fl; auto; lra).
  assert (T1 : 0 <= (20 * (load / 100))%f32 <= 15).
  { unfold fmul. apply b32_in; try fl. lra. }
  assert (T2 : 70 <= (70 + 20 * (load / 100))%f32 <= 85).
  { unfold fadd. apply b32_in; try fl. lra. }
  assert (F1 : 0 <= (t * lit (1 # 100))%f32).
  { unfold fmul. apply b32_ge_lo; [fl|].
    assert (E1 : lit (1 # 100) == 5368709 # 536870912) by (vm_compute; reflexivity).
    rewrite E1. lra. }
  destruct (fmodf_range (t * lit (1 # 100))%f32 50 F1) as [M0 M50]; [lra|].
  assert (F2 : 25 <= (75 - fmodf (t * lit (1 # 100)) 50)%f32 <= 75).
  { unfold fsub at 1. apply b32_in; try fl. lra. }
  fold load.
  repeat match goal with |- _ /\ _ => split end; try lra; try lia; try assumption.
  rewrite Ho. reflexivity.
Qed.

Lemma init_ranges : driving_ranges vehicle_init.
Proof.
  unfold driving_ranges, vehicle_init; simpl.
  repeat match goal with |- _ /\ _ => split end; try lra; try lia.
  fl.
Qed.

Lemma run_ranges n :
  exists v, run sinf n vehicle_init = Some v /\ driving_ranges v.
Proof.
  induction n as [| n IH].
  - exists vehicle_init. split; [reflexivity | exact init_ranges].
  - destruct IH as (v & R & D).
    assert (T : 0 <= sim_time v <= 32768) by apply D.
    assert (O : odometer v = 45231%Z) by apply D.
    destruct (tick_ranges v T O) as (v' & E & D').
    exists v'. simpl. rewrite R. cbn [obind]. split; [exact E | exact D'].
Qed.

(** X7. With sinf in [-1, 1], after any number of calls of
    update_simulation(0.001f) from the initial state the state is defined and
    has rpm in [750, 5000], throttle in [0, 80], engine load in [10, 74], air
    flow in [1, 57], coolant in [75, 95], intake temperature in [20, 30],
    transmission temperature in [60, 85], fuel level in [25, 75], speed in [0,
    120] and gear in 0..6. *)
Theorem reachable_states_in_driving_ranges n :
  exists v,
    run sinf n vehicle_init = Some v /\
    750 <= rpm v <= 5000 /\ 0 <= throttle v <= 80 /\
    10 <= engine_load v <= 74 /\ 1 <= maf v <= 57 /\
    75 <= coolant_temp v <= 95 /\ 20 <= intake_temp v <= 30 /\
    60 <= trans_temp v <= 85 /\ 25 <= fuel_level v <= 75 /\
    0 <= vehicle_speed v <= 120 /\ (0 <= gear v <= 6)%Z.
Proof.
  destruct (run_ranges n) as (v & R & D).
  exists v. split; [exact R|].
  destruct D as (_ & D1 & D2 & D3 & D4 & D5 & D6 & D7 & D8 & D9 & D10 & _).
  repeat split; tauto.
Qed.

Lemma ranges_encodable v : driving_ranges v -> encodable v.
Proof.
  intros (Fr & D1 & D2 & D3 & D4 & D5 & D6 & D7 & D8 & D9 & D10 & D11 & _).
  unfold encodable. rewrite D11.
  repeat match goal with |- _ /\ _ => split end; try lra; try lia; assumption.
Qed.

Lemma ranges_answerable v : driving_ranges v -> answerable v.
Proof.
  intros (Fr & D1 & D2 & D3 & D4 & D5 & D6 & D7 & D8 & D9 & D10 & D11 & _).
  unfold answerable.
  repeat match goal with |- _ /\ _ => split end; lra.
Qed.

Lemma payloads_defined v :
  driving_ranges v ->
  exists d1 d2 d3 d4,
    engine_data_1 v = Some d1 /\ engine_data_2 v = Some d2 /\
    trans_data v = Some d3 /\ bcm_data v = Some d4.
Proof.
  intros D. pose proof (ranges_encodable v D) as Hv.
  destruct (engine_data_1_defined v Hv) as (d1 & E1).
  destruct D as (Fr & D1 & D2 & D3 & D4 & D5 & D6 & D7 & D8 & D9 & D10 & D11 & _).
  assert (Hi : -40 <= intake_temp v <= 215) by lra.
  assert (Hl : 0 <= engine_load v <= 100) by lra.
  assert (Ht : -40 <= trans_temp v <= 215) by lra.
  assert (Hs : 0 <= vehicle_speed v <= 255) by lra.
  assert (Hf : 0 <= fuel_level v <= 100) by lra.
  destruct (temp_raw_defined _ Hi) as (i & Ci).
  destruct (pct_raw_defined _ Hl) as (l & Cl).
  destruct (temp_raw_defined _ Ht) as (tt & Ct).
  destruct (speed_roundtrip _ Hs) as (sp & Cs & _).
  destruct (pct_raw_defined _ Hf) as (f & Cf).
  exists d1. eexists _, _, _.
  split; [exact E1|].
  split; [unfold engine_data_2; rewrite Ci, Cl; reflexivity|].
  split; [unfold trans_data; rewrite Ct, Cs; reflexivity|].
  unfold bcm_data; rewrite Cf; reflexivity.
Qed.

(** X8. With sinf in [-1, 1], in every state the simulation reaches from the
    initial state all four broadcast payloads and the Mode 01 answer for every
    PID are defined: no float-to-integer conversion of the send functions or
    of the handler is ever out of the range of its target type. *)
Theorem reachable_states_encode n :
  exists v d1 d2 d3 d4,
    run sinf n vehicle_init = Some v /\
    engine_data_1 v = Some d1 /\ engine_data_2 v = Some d2 /\
    trans_data v = Some d3 /\ bcm_data v = Some d4 /\
    forall pid, exists r len, mode01_response v pid = Some (r, len).
Proof.
  destruct (run_ranges n) as (v & R & D).
  destruct (payloads_defined v D) as (d1 & d2 & d3 & d4 & E1 & E2 & E3 & E4).
  exists v, d1, d2, d3, d4.
  repeat match goal with |- _ /\ _ => split end; try assumption.
  intros pid.
  destruct (mode01_response_shape v pid (ranges_answerable v D)) as (r & len & E & _).
  exists r, len. exact E.
Qed.

End Reachable.

(** Witnesses of the statements about the driving cycle, with [sinf_model]
    for libm's [sinf]. *)
Lemma reachable_states_in_driving_ranges_witness :
  (forall x, -1 <= sinf_model x <= 1) /\
  exists v,
    run sinf_model 3 vehicle_init = Some v /\
    750 <= rpm v <= 5000 /\ 0 <= throttle v <= 80 /\
    10 <= engine_load v <= 74 /\ 1 <= maf v <= 57 /\
    75 <= coolant_temp v <= 95 /\ 20 <= intake_temp v <= 30 /\
    60 <= trans_temp v <= 85 /\ 25 <= fuel_level v <= 75 /\
    0 <= vehicle_speed v <= 120 /\ (0 <= gear v <= 6)%Z.
Proof.
  split; [exact sinf_model_range|].
  exact (reachable_states_in_driving_ranges sinf_model sinf_model_range 3).
Defined.

Lemma reachable_states_encode_witness :
  (forall x, -1 <= sinf_model x <= 1) /\
  exists v d1 d2 d3 d4,
    run sinf_model 3 vehicle_init = Some v /\
    engine_data_1 v = Some d1 /\ engine_data_2 v = Some d2 /\
    trans_data v = Some d3 /\ bcm_data v = Some d4 /\
    forall pid, exists r len, mode01_response v pid = Some (r, len).
Proof.
  split; [exact sinf_model_range|].
  exact (reachable_states_encode sinf_model sinf_model_range 3).
Defined.

(* ====================================================================== *)
(** * The simulation clock *)
(* ====================================================================== *)

Lemma cap_step t : t == SIM_TIME_CAP -> (t + main_dt)%f32 = SIM_TIME_CAP.
Proof.
  intros E. unfold fadd.
  rewrite (b32_eq (t + main_dt) (SIM_TIME_CAP + main_dt)) by (now rewrite E).
  vm_compute. reflexivity.
Qed.

Lemma tick_at_cap sinf v :
  sim_time v == SIM_TIME_CAP ->
  tick sinf v = Some (stalled sinf ((odometer v + 0) mod 2 ^ 32)%Z).
Proof.
  intros E. unfold tick, update_vehicle. cbv zeta.
  rewrite (cap_step _ E).
  assert (P : forall t, drive_phase sinf (fmodf SIM_TIME_CAP 60) t
                        = Some ((800 + 50 * sinf (t * 2))%f32, 0, 0, 0%Z)).
  { intros t. unfold drive_phase.
    assert (C : fltb (fmodf SIM_TIME_CAP 60) 10 = true) by (vm_compute; reflexivity).
    rewrite C. reflexivity. }
  rewrite P. cbn [obind].
  assert (I : to_uint32 (0 * main_dt / 3600)%f32 = Some 0%Z) by (vm_compute; reflexivity).
  rewrite I. cbn [obind]. reflexivity.
Qed.

(** X9. Once sim_time is 32768, update_simulation(0.001f) leaves it at 32768
    (32768 + 0.001f rounds back to 32768 in binary32): the cycle position
    stays at fmodf(32768, 60) = 8, inside the idle phase, with throttle 0,
    speed 0 and gear 0, and the state the call produces is a fixed point of
    every later call. *)
Theorem clock_stops_at_cap sinf v :
  sim_time v == 32768 ->
  exists v',
    tick sinf v = Some v' /\ tick sinf v' = Some v' /\
    sim_time v' = 32768 /\ fmodf (sim_time v') 60 == 8 /\
    throttle v' = 0 /\ vehicle_speed v' = 0 /\ gear v' = 0%Z.
Proof.
  intros E. exists (stalled sinf ((odometer v + 0) mod 2 ^ 32)%Z).
  split; [exact (tick_at_cap sinf v E)|].
  split; [|split; [reflexivity | split; [vm_compute; reflexivity | repeat split]]].
  rewrite tick_at_cap by reflexivity.
  cbn [odometer stalled]. rewrite !Z.add_0_r, Z.mod_mod by lia. reflexivity.
Qed.

Lemma clock_stops_at_cap_witness :
  let v := at_time 32768 in
  sim_time v == 32768 /\
  exists v',
    tick sinf_model v = Some v' /\ tick sinf_model v' = Some v' /\
    sim_time v' = 32768 /\ fmodf (sim_time v') 60 == 8 /\
    throttle v' = 0 /\ vehicle_speed v' = 0 /\ gear v' = 0%Z.
Proof.
  cbv zeta.
  assert (E : sim_time (at_time 32768) == 32768) by reflexivity.
  split; [exact E|].
  exact (clock_stops_at_cap sinf_model _ E).
Defined.

Lemma ilog2_lt x k : 0 < x -> x < 2 ^ k -> (ilog2 x < k)%Z.
Proof.
  intros P H. destruct (ilog2_spec x P) as [L _].
  destruct (Z_lt_le_dec (ilog2 x) k) as [A | A]; [exact A|].
  exfalso. pose proof (pow2_le k (ilog2 x) A). lra.
Qed.

(** Below the cap, one step of the clock gains at least 2^-16. *)
Lemma clock_progress t :
  0 <= t -> t + main_dt < 32768 -> t + 2 ^ (-16) <= (t + main_dt)%f32.
Proof.
  intros H0 H1. unfold fadd. assert (D := main_dt_value).
  set (x := t + main_dt) in *.
  assert (Px : 0 < x) by (unfold x; lra).
  assert (NZ : ~ x == 0) by lra.
  pose proof (b32_err_abs x NZ) as A.
  assert (Ex : (b32_exp x <= -9)%Z).
  { destruct (b32_exp_cases x) as [-> | ->]; [lia|].
    assert (EA : ilog2 (Qabs x) = ilog2 x).
    { apply ilog2_comp; [rewrite Qabs_pos; lra | apply Qabs_pos; lra]. }
    rewrite EA.
    assert (ilog2 x < 15)%Z by (apply ilog2_lt; [exact Px | exact H1]). lia. }
  assert (P : 2 ^ (b32_exp x - 1) <= 2 ^ (-10)) by (apply pow2_le; lia).
  apply Qabs_Qle_condition in A.
  change (2 ^ (-10)) with (1 # 1024) in P. change (2 ^ (-16)) with (1 # 65536).
  unfold x in *. lra.
Qed.

Lemma clock_bounds n : 0 <= clock n <= 32768.
Proof.
  induction n as [| n IH]; [simpl; lra|].
  rewrite clock_S. split.
  - unfold fadd. apply b32_ge_lo; [fl|]. rewrite main_dt_value. lra.
  - apply time_step_le. exact IH.
Qed.

Lemma clock_float n : is_float (clock n).
Proof. destruct n; [fl | rewrite clock_S; apply b32_is_float]. Qed.

Lemma clock_mono n : clock n <= clock (S n).
Proof.
  rewrite clock_S. apply time_step; [apply clock_float | apply clock_bounds].
Qed.

Lemma clock_gains n :
  clock n == 32768 \/ inject_Z (Z.of_nat n) * 2 ^ (-16) <= clock n.
Proof.
  induction n as [| n IH].
  - right. vm_compute. intro H; discriminate H.
  - destruct (clock_bounds n) as [L U]. destruct (clock_bounds (S n)) as [L' U'].
    destruct (Qlt_le_dec (clock n + main_dt) 32768) as [B | B].
    + right. destruct IH as [IH | IH].
      * exfalso. assert (D := main_dt_value). lra.
      * pose proof (clock_progress (clock n) L B) as P. rewrite <- clock_S in P.
        rewrite Nat2Z.inj_succ. unfold Z.succ. rewrite inject_Z_plus.
        change (inject_Z 1) with 1. change (2 ^ (-16)) with (1 # 65536) in *. lra.
    + left. rewrite clock_S. apply Qle_antisym; [rewrite <- clock_S; exact U'|].
      unfold fadd. apply b32_ge_lo; [fl | exact B].
Qed.

Lemma clock_capped n : (2 ^ 31 <= Z.of_nat n)%Z -> clock n == 32768.
Proof.
  intros H. destruct (clock_gains n) as [E | G]; [exact E|].
  destruct (clock_bounds n) as [_ U]. apply Qle_antisym; [exact U|].
  eapply Qle_trans; [|exact G].
  assert (K : inject_Z (2 ^ 31) <= inject_Z (Z.of_nat n)) by (rewrite <- Zle_Qle; exact H).
  assert (V : inject_Z (2 ^ 31) * 2 ^ (-16) == 32768) by (vm_compute; reflexivity).
  rewrite <- V. apply Qmult_le_r; [reflexivity | exact K].
Qed.

Section Stall.

Variable sinf : float -> float.

Hypothesis sinf_range : forall x, -1 <= sinf x <= 1.

Lemma run_after_cap n0 v0 k :
  run sinf n0 vehicle_init = Some v0 -> sim_time v0 == 32768 ->
  odometer v0 = 45231%Z ->
  run sinf (S n0 + k) vehicle_init = Some (stalled sinf 45231).
Proof.
  intros R E O. induction k as [| k IH].
  - rewrite Nat.add_0_r. simpl. rewrite R. cbn [obind].
    rewrite (tick_at_cap sinf v0 E), O. reflexivity.
  - rewrite Nat.add_succ_r. rewrite run_S, IH. cbn [obind].
    rewrite tick_at_cap by reflexivity. reflexivity.
Qed.

(** X10. With sinf in [-1, 1], the simulation clock advanced by 0.001f per
    pass never decreases and never exceeds 32768, and there is a number of
    passes after which it equals 32768 and the vehicle state is the same idle
    state for ever: the 60-second driving cycle stops repeating. *)
Theorem simulation_stalls :
  (forall n, clock n <= clock (S n) /\ clock n <= 32768) /\
  exists N,
    forall n, (N <= n)%nat ->
      run sinf n vehicle_init = Some (stalled sinf 45231) /\ clock n == 32768.
Proof.
  split.
  - intros n. split; [apply clock_mono | apply clock_bounds].
  - set (n0 := Z.to_nat (2 ^ 31)).
    assert (H0 : (2 ^ 31 <= Z.of_nat n0)%Z) by (unfold n0; lia).
    exists (S n0). intros n Hn.
    destruct (run_ranges sinf sinf_range n0) as (v0 & R & D).
    assert (O : odometer v0 = 45231%Z) by apply D.
    assert (E : sim_time v0 == 32768).
    { rewrite (run_clock sinf n0 v0 R). apply clock_capped. exact H0. }
    replace n with (S n0 + (n - S n0))%nat by lia.
    split; [apply (run_after_cap n0 v0 _ R E O)|].
    apply clock_capped. lia.
Qed.

(** X11. For every cycle position below 60 the phase computation is defined
    and selects the gear by phase: 0 while idling (below 10), 1 +
    (int)(progress * 5) while accelerating (10 to 25), 6 while cruising (25 to
    45) and 6 - (int)(progress * 5) while decelerating (from 45); in the
    accelerating and decelerating phases the gear lies in 1..6, so neither
    clamp of the code changes it. *)
Theorem gear_by_phase cycle t :
  cycle < 60 ->
  exists r th sp g,
    drive_phase sinf cycle t = Some (r, th, sp, g) /\
    (cycle < 10 -> g = 0%Z) /\
    (10 <= cycle -> cycle < 25 ->
       g = (1 + gear_steps cycle 10%Q)%Z /\ (1 <= g <= 6)%Z) /\
    (25 <= cycle -> cycle < 45 -> g = 6%Z) /\
    (45 <= cycle ->
       g = (6 - gear_steps cycle 45%Q)%Z /\ (1 <= g <= 6)%Z).
Proof.
  intros H60. unfold drive_phase.
  destruct (fltb_spec cycle 10) as [L10 | G10].
  { eexists _, _, _, _. split; [reflexivity|].
    repeat split; intros; try reflexivity; exfalso; lra. }
  apply Qnot_lt_le in G10.
  destruct (fltb_spec cycle 25) as [L25 | G25].
  { assert (Hp : 0 <= ((cycle - 10) / 15)%f32 <= 1)
      by (apply progress_range; try fl; lra).
    destruct (gear_step_defined _ Hp) as (k & Ek & Rk). rewrite Ek. cbn [obind].
    destruct (cast_to_spec _ _ _ _ Ek) as [Dk _].
    assert (Gk : gear_steps cycle 10 = k) by (symmetry; exact Dk).
    rewrite Gk.
    destruct (Z.gtb_spec (1 + k) 6) as [A | A]; [lia|].
    eexists _, _, _, _. split; [reflexivity|].
    repeat split; intros; try reflexivity; try lia; exfalso; lra. }
  apply Qnot_lt_le in G25.
  destruct (fltb_spec cycle 45) as [L45 | G45].
  { eexists _, _, _, _. split; [reflexivity|].
    repeat split; intros; try reflexivity; exfalso; lra. }
  apply Qnot_lt_le in G45.
  assert (Hp : 0 <= ((cycle - 45) / 15)%f32 <= 1)
    by (apply progress_range; try fl; lra).
  destruct (gear_step_defined _ Hp) as (k & Ek & Rk). rewrite Ek. cbn [obind].
  destruct (cast_to_spec _ _ _ _ Ek) as [Dk _].
  assert (Gk : gear_steps cycle 45 = k) by (symmetry; exact Dk).
  rewrite Gk.
  destruct (Z.ltb_spec (6 - k) 0) as [A | A]; [lia|].
  eexists _, _, _, _. split; [reflexivity|].
  repeat split; intros; try reflexivity; try lia; exfalso; lra.
Qed.

End Stall.

Lemma simulation_stalls_witness :
  (forall x, -1 <= sinf_model x <= 1) /\
  (forall n, clock n <= clock (S n) /\ clock n <= 32768) /\
  exists N,
    forall n, (N <= n)%nat ->
      run sinf_model n vehicle_init = Some (stalled sinf_model 45231) /\
      clock n == 32768.
Proof.
  split; [exact sinf_model_range|].
  exact (simulation_stalls sinf_model sinf_model_range).
Defined.

Lemma gear_by_phase_witness :
  let cycle : float := 52 in
  cycle < 60 /\
  exists r th sp g,
    drive_phase sinf_model cycle 52 = Some (r, th, sp, g) /\
    (cycle < 10 -> g = 0%Z) /\
    (10 <= cycle -> cycle < 25 ->
       g = (1 + gear_steps cycle 10%Q)%Z /\ (1 <= g <= 6)%Z) /\
    (25 <= cycle -> cycle < 45 -> g = 6%Z) /\
    (45 <= cycle ->
       g = (6 - gear_steps cycle 45%Q)%Z /\ (1 <= g <= 6)%Z).
Proof.
  cbv zeta.
  assert (H : 52 < 60) by lra.
  split; [exact H|].
  exact (gear_by_phase sinf_model 52 52 H).
Defined.

(* ====================================================================== *)
(** * The main loop of the simulator *)
(* ====================================================================== *)

Lemma count_id_app id b f :
  count_id id (b ++ [f]) = (count_id id b + if (can_id f =? id)%Z then 1 else 0)%Z.
Proof.
  unfold count_id. rewrite filter_app, length_app. simpl.
  destruct (can_id f =? id)%Z; simpl; lia.
Qed.

Lemma mode01_len_pos v pid r len :
  mode01_response v pid = Some (r, len) -> (0 < len)%Z.
Proof.
  unfold mode01_response.
  repeat match goal with
    | |- context [if ?c then _ else _] => destruct c
    | |- context [obind ?o _] => destruct o; cbn [obind]
    end;
    intros E; try discriminate E; injection E as _ <-; lia.
Qed.

Lemma handle_inv pid s s' :
  handle_obd2_mode01 pid s = Some s' ->
  exists f, s' = reply s f /\ can_id f = CAN_ID_OBD_RESP_ENGINE.
Proof.
  unfold handle_obd2_mode01.
  destruct (mode01_response (vehicle s) pid) as [[r len] |] eqn:E; [|discriminate].
  cbn [obind]. pose proof (mode01_len_pos _ _ _ _ E) as L.
  destruct (Z.gtb_spec len 0) as [_ | N]; [|lia].
  intros H. injection H as <-. eexists. split; reflexivity.
Qed.

Lemma process_inv frame s s' :
  process_obd2_request frame s = Some s' ->
  if accepted frame
  then exists f, s' = reply s f /\ can_id f = CAN_ID_OBD_RESP_ENGINE
  else s' = s.
Proof.
  unfold process_obd2_request, accepted.
  destruct (can_id frame =? CAN_ID_OBD_BROADCAST)%Z;
    destruct (can_id frame =? CAN_ID_OBD_ECU_ENGINE)%Z; cbn [negb andb orb];
    try (intros H; injection H as <-; reflexivity);
    (destruct (Z.ltb_spec (can_dlc frame) 2) as [A | A];
     destruct (Z.leb_spec 2 (can_dlc frame)) as [B | B]; try lia; cbn [andb];
     [intros H; injection H as <-; reflexivity|];
     destruct (request_mode frame =? OBD2_MODE_CURRENT_DATA)%Z;
     [apply handle_inv | intros H; injection H as <-; reflexivity]).
Qed.

(** X12. Whenever process_obd2_request completes, the vehicle state is
    unchanged. A frame that fails its test (identifier 0x7DF or 0x7E0, at
    least 2 data bytes, mode byte 0x01) leaves the bus as it was; a frame that
    passes it has exactly one frame appended to the bus, with identifier
    0x7E8. *)
Theorem request_answered_iff_accepted frame s s' :
  process_obd2_request frame s = Some s' ->
  vehicle s' = vehicle s /\
  (accepted frame = false -> s' = s) /\
  (accepted frame = true ->
     exists f, s' = reply s f /\ can_id f = CAN_ID_OBD_RESP_ENGINE /\ s' <> s).
Proof.
  intros P. pose proof (process_inv frame s s' P) as I.
  destruct (accepted frame).
  - destruct I as (f & -> & Ef).
    split; [reflexivity|]. split; [discriminate|].
    intros _. exists f. split; [reflexivity|]. split; [exact Ef|].
    intros Q. apply (f_equal (fun x => length (bus x))) in Q.
    unfold reply in Q. cbn [bus] in Q. rewrite length_app in Q. simpl in Q. lia.
  - subst s'. split; [reflexivity|]. split; [reflexivity | discriminate].
Qed.

Lemma request_answered_iff_accepted_witness :
  let frame := request 0x7E1 3 [0x02; 0x01; 0x0C; 0; 0; 0; 0; 0]%Z in
  process_obd2_request frame ecu_init = Some ecu_init /\
  vehicle ecu_init = vehicle ecu_init /\
  (accepted frame = false -> ecu_init = ecu_init) /\
  (accepted frame = true ->
     exists f, ecu_init = reply ecu_init f /\ can_id f = CAN_ID_OBD_RESP_ENGINE /\
               ecu_init <> ecu_init).
Proof.
  cbv zeta.
  assert (P : process_obd2_request (request 0x7E1 3 [0x02; 0x01; 0x0C; 0; 0; 0; 0; 0]%Z)
                ecu_init = Some ecu_init) by reflexivity.
  split; [exact P|].
  exact (request_answered_iff_accepted _ ecu_init ecu_init P).
Defined.

Lemma periodic_inv now last period id send s s' l' :
  (forall s s', send s = Some s' -> exists f, s' = reply s f /\ can_id f = id) ->
  periodic now last period send s = Some (s', l') ->
  fired now last period id s s' l'.
Proof.
  intros Hs. unfold periodic, fired. destruct (due now last period).
  - destruct (send s) as [s1 |] eqn:E; [|discriminate]. cbn [obind].
    intros H. injection H as <- <-. split; [reflexivity|]. apply Hs. exact E.
  - intros H. injection H as <- <-. split; reflexivity.
Qed.

Lemma send1_inv s s' :
  send_engine_data_1 s = Some s' ->
  exists f, s' = reply s f /\ can_id f = CAN_ID_ENGINE_DATA_1.
Proof.
  unfold send_engine_data_1. destruct (engine_data_1 _); [|discriminate].
  cbn [obind]. intros H. injection H as <-. eexists. split; reflexivity.
Qed.

Lemma send2_inv s s' :
  send_engine_data_2 s = Some s' ->
  exists f, s' = reply s f /\ can_id f = CAN_ID_ENGINE_DATA_2.
Proof.
  unfold send_engine_data_2. destruct (engine_data_2 _); [|discriminate].
  cbn [obind]. intros H. injection H as <-. eexists. split; reflexivity.
Qed.

Lemma send3_inv s s' :
  send_trans_data s = Some s' ->
  exists f, s' = reply s f /\ can_id f = CAN_ID_TRANS_DATA.
Proof.
  unfold send_trans_data. destruct (trans_data _); [|discriminate].
  cbn [obind]. intros H. injection H as <-. eexists. split; reflexivity.
Qed.

Lemma send4_inv s s' :
  send_bcm_data s = Some s' ->
  exists f, s' = reply s f /\ can_id f = CAN_ID_BCM_DATA.
Proof.
  unfold send_bcm_data. destruct (bcm_data _); [|discriminate].
  cbn [obind]. intros H. injection H as <-. eexists. split; reflexivity.
Qed.

Section MainLoopFacts.

Variable sinf : float -> float.

(** What one pass does, step by step. *)
Lemma loop_pass_inv now rx st st' :
  loop_pass sinf now rx st = Some st' ->
  exists v' s1 s2 s3 s4,
    tick sinf (vehicle (fst st)) = Some v' /\
    fired now (last_engine1 (snd st)) ENGINE_CYCLE_MS CAN_ID_ENGINE_DATA_1
      {| vehicle := v'; bus := bus (fst st) |} s1 (last_engine1 (snd st')) /\
    fired now (last_engine2 (snd st)) ENGINE2_CYCLE_MS CAN_ID_ENGINE_DATA_2
      s1 s2 (last_engine2 (snd st')) /\
    fired now (last_trans (snd st)) TRANS_CYCLE_MS CAN_ID_TRANS_DATA
      s2 s3 (last_trans (snd st')) /\
    fired now (last_bcm (snd st)) BCM_CYCLE_MS CAN_ID_BCM_DATA
      s3 s4 (last_bcm (snd st')) /\
    match rx with
    | Some frame =>
        if accepted frame
        then exists f, fst st' = reply s4 f /\ can_id f = CAN_ID_OBD_RESP_ENGINE
        else fst st' = s4
    | None => fst st' = s4
    end.
Proof.
  unfold loop_pass, update_simulation. fold (tick sinf).
  destruct (tick sinf (vehicle (fst st))) as [v' |]; [|discriminate]. cbn [obind].
  destruct (periodic now (last_engine1 (snd st)) _ _ _) as [[s1 l1] |] eqn:P1;
    [|discriminate]. cbn [obind].
  destruct (periodic now (last_engine2 (snd st)) _ _ _) as [[s2 l2] |] eqn:P2;
    [|discriminate]. cbn [obind].
  destruct (periodic now (last_trans (snd st)) _ _ _) as [[s3 l3] |] eqn:P3;
    [|discriminate]. cbn [obind].
  destruct (periodic now (last_bcm (snd st)) _ _ _) as [[s4 l4] |] eqn:P4;
    [|discriminate]. cbn [obind].
  intros H. exists v', s1, s2, s3, s4.
  split; [reflexivity|].
  apply (periodic_inv _ _ _ _ _ _ _ _ send1_inv) in P1.
  apply (periodic_inv _ _ _ _ _ _ _ _ send2_inv) in P2.
  apply (periodic_inv _ _ _ _ _ _ _ _ send3_inv) in P3.
  apply (periodic_inv _ _ _ _ _ _ _ _ send4_inv) in P4.
  destruct rx as [frame |].
  - destruct (process_obd2_request frame s4) as [s5 |] eqn:Q; [|discriminate].
    cbn [obind] in H. injection H as <-. cbn [fst snd last_engine1 last_engine2
      last_trans last_bcm].
    repeat (split; [assumption|]). apply process_inv. exact Q.
  - cbn [obind] in H. injection H as <-. cbn [fst snd last_engine1 last_engine2
      last_trans last_bcm].
    repeat (split; [assumption|]). reflexivity.
Qed.

End MainLoopFacts.

Lemma process_defined frame s :
  answerable (vehicle s) ->
  exists s', process_obd2_request frame s = Some s' /\ vehicle s' = vehicle s.
Proof.
  intros Hv. unfold process_obd2_request.
  destruct (negb _ && negb _); [exists s; split; reflexivity|].
  destruct (can_dlc frame <? 2)%Z; [exists s; split; reflexivity|].
  destruct (request_mode frame =? OBD2_MODE_CURRENT_DATA)%Z;
    [|exists s; split; reflexivity].
  destruct (mode01_response_shape (vehicle s) (request_pid frame) Hv)
    as (r & len & E & _ & _ & L & _).
  rewrite (handle_reply _ _ _ _ E) by lia.
  eexists. split; reflexivity.
Qed.

Lemma periodic_defined now last period send s :
  (exists s', send s = Some s' /\ vehicle s' = vehicle s) ->
  exists s' l', periodic now last period send s = Some (s', l') /\
                vehicle s' = vehicle s.
Proof.
  intros (s1 & E & V). unfold periodic. destruct (due now last period).
  - rewrite E. cbn [obind]. exists s1, now. split; [reflexivity | exact V].
  - exists s, last. split; reflexivity.
Qed.

Lemma sends_defined s :
  driving_ranges (vehicle s) ->
  (exists s', send_engine_data_1 s = Some s' /\ vehicle s' = vehicle s) /\
  (exists s', send_engine_data_2 s = Some s' /\ vehicle s' = vehicle s) /\
  (exists s', send_trans_data s = Some s' /\ vehicle s' = vehicle s) /\
  (exists s', send_bcm_data s = Some s' /\ vehicle s' = vehicle s).
Proof.
  intros D.
  destruct (payloads_defined _ D) as (d1 & d2 & d3 & d4 & E1 & E2 & E3 & E4).
  unfold send_engine_data_1, send_engine_data_2, send_trans_data, send_bcm_data.
  rewrite E1, E2, E3, E4. cbn [obind].
  repeat split; eexists; split; reflexivity.
Qed.

Section MainLoopRuns.

Variable sinf : float -> float.

Hypothesis sinf_range : forall x, -1 <= sinf x <= 1.

Lemma loop_pass_defined now rx st :
  driving_ranges (vehicle (fst st)) ->
  exists st', loop_pass sinf now rx st = Some st' /\
              tick sinf (vehicle (fst st)) = Some (vehicle (fst st')) /\
              driving_ranges (vehicle (fst st')).
Proof.
  intros D.
  assert (T : 0 <= sim_time (vehicle (fst st)) <= 32768) by apply D.
  assert (O : odometer (vehicle (fst st)) = 45231%Z) by apply D.
  destruct (tick_ranges sinf sinf_range _ T O) as (v' & E & D').
  unfold loop_pass, update_simulation. fold (tick sinf). rewrite E. cbn [obind].
  set (s0 := {| vehicle := v'; bus := bus (fst st) |}).
  assert (D0 : driving_ranges (vehicle s0)) by exact D'.
  destruct (sends_defined s0 D0) as (S1 & _).
  destruct (periodic_defined now (last_engine1 (snd st)) ENGINE_CYCLE_MS _ s0 S1)
    as (s1 & l1 & P1 & V1).
  rewrite P1. cbn [obind].
  assert (D1 : driving_ranges (vehicle s1)) by (rewrite V1; exact D0).
  destruct (sends_defined s1 D1) as (_ & S2 & _).
  destruct (periodic_defined now (last_engine2 (snd st)) ENGINE2_CYCLE_MS _ s1 S2)
    as (s2 & l2 & P2 & V2).
  rewrite P2. cbn [obind].
  assert (D2 : driving_ranges (vehicle s2)) by (rewrite V2; exact D1).
  destruct (sends_defined s2 D2) as (_ & _ & S3 & _).
  destruct (periodic_defined now (last_trans (snd st)) TRANS_CYCLE_MS _ s2 S3)
    as (s3 & l3 & P3 & V3).
  rewrite P3. cbn [obind].
  assert (D3 : driving_ranges (vehicle s3)) by (rewrite V3; exact D2).
  destruct (sends_defined s3 D3) as (_ & _ & _ & S4).
  destruct (periodic_defined now (last_bcm (snd st)) BCM_CYCLE_MS _ s3 S4)
    as (s4 & l4 & P4 & V4).
  rewrite P4. cbn [obind].
  assert (D4 : driving_ranges (vehicle s4)) by (rewrite V4; exact D3).
  assert (V : vehicle s4 = v') by (rewrite V4, V3, V2, V1; reflexivity).
  destruct rx as [frame |].
  - destruct (process_defined frame s4 (ranges_answerable _ D4)) as (s5 & Q & V5).
    rewrite Q. cbn [obind]. eexists. split; [reflexivity|]. cbn [fst].
    rewrite V5, V. split; [reflexivity | exact D'].
  - cbn [obind]. eexists. split; [reflexivity|]. cbn [fst].
    rewrite V. split; [reflexivity | exact D'].
Qed.

Lemma run_snoc k v v' :
  run sinf k vehicle_init = Some v -> tick sinf v = Some v' ->
  run sinf (S k) vehicle_init = Some v'.
Proof. intros R T. simpl. rewrite R. exact T. Qed.

Lemma main_loop_from inputs : forall st k,
  driving_ranges (vehicle (fst st)) ->
  run sinf k vehicle_init = Some (vehicle (fst st)) ->
  exists st', main_loop sinf inputs st = Some st' /\
              run sinf (k + length inputs) vehicle_init = Some (vehicle (fst st')).
Proof.
  induction inputs as [| [now rx] rest IH]; intros st k D R.
  - exists st. simpl. rewrite Nat.add_0_r. split; [reflexivity | exact R].
  - destruct (loop_pass_defined now rx st D) as (st1 & P & T & D1).
    destruct (IH st1 (S k) D1 (run_snoc _ _ _ R T)) as (st' & M & R').
    exists st'. cbn [main_loop]. rewrite P. cbn [obind].
    split; [exact M|]. cbn [length]. rewrite Nat.add_succ_r. exact R'.
Qed.

(** X13. With sinf in [-1, 1], any number of passes of the main loop, with any
    clock readings and any received frames, is defined, and the vehicle state
    after n passes is the state after n simulation ticks from the initial one:
    sending and answering requests never disturbs the simulation. *)
Theorem main_loop_runs now0 inputs :
  exists st,
    main_loop sinf inputs (main_init now0) = Some st /\
    run sinf (length inputs) vehicle_init = Some (vehicle (fst st)).
Proof.
  destruct (main_loop_from inputs (main_init now0) 0) as (st & M & R).
  - exact init_ranges.
  - reflexivity.
  - exists st. split; [exact M | exact R].
Qed.

End MainLoopRuns.

Lemma main_loop_runs_witness :
  (forall x, -1 <= sinf_model x <= 1) /\
  exists st,
    main_loop sinf_model [(1000, Some rpm_request); (1010, None)]%Z (main_init 1000)
      = Some st /\
    run sinf_model (length [(1000, Some rpm_request); (1010, None)]%Z) vehicle_init
      = Some (vehicle (fst st)).
Proof.
  split; [exact sinf_model_range|].
  exact (main_loop_runs sinf_model sinf_model_range 1000
           [(1000, Some rpm_request); (1010, None)]%Z).
Defined.

Ltac ids := let Q := fresh in intro Q; vm_compute in Q; discriminate Q.

Lemma count_reply id s f :
  count_id id (bus (reply s f)) =
  (count_id id (bus s) + if (can_id f =? id)%Z then 1 else 0)%Z.
Proof. apply count_id_app. Qed.

Lemma fired_count now last period id s s' l' id' :
  fired now last period id s s' l' ->
  count_id id' (bus s') =
  (count_id id' (bus s)
   + if due now last period then (if (id =? id')%Z then 1 else 0) else 0)%Z.
Proof.
  unfold fired. destruct (due now last period).
  - intros (_ & f & -> & <-). apply count_reply.
  - intros (_ & ->). lia.
Qed.

Lemma due_spec now last period :
  (0 <= last <= now)%Z -> (now < 2 ^ 64)%Z ->
  due now last period = (period <=? now - last)%Z.
Proof.
  intros H1 H2. unfold due, u64. rewrite Z.mod_small by lia. reflexivity.
Qed.

Lemma fired_paced now0 prev now last period id s s' l' :
  fired now last period id s s' l' ->
  (0 <= now0)%Z -> (0 < period)%Z -> (prev <= now < 2 ^ 64)%Z ->
  paced now0 prev period last (count_id id (bus s)) ->
  paced now0 now period l' (count_id id (bus s')).
Proof.
  intros F H0 Hp Hn [[A B] C].
  rewrite (fired_count _ _ _ _ _ _ _ id F).
  unfold fired in F. rewrite due_spec in * by lia.
  destruct (Z.leb_spec period (now - last)) as [D | D].
  - destruct F as (-> & _). rewrite Z.eqb_refl. unfold paced. lia.
  - destruct F as (-> & _). unfold paced. lia.
Qed.

Lemma fired_other now last period id s s' l' id' :
  fired now last period id s s' l' -> id <> id' ->
  count_id id' (bus s') = count_id id' (bus s).
Proof.
  intros F N. rewrite (fired_count _ _ _ _ _ _ _ id' F).
  destruct (Z.eqb_spec id id'); [contradiction|]. destruct (due _ _ _); lia.
Qed.

Lemma last_default (l : list Z) : forall x d d', last (x :: l) d = last (x :: l) d'.
Proof.
  induction l as [| y l IH]; intros x d d'; [reflexivity|].
  change (last (y :: l) d = last (y :: l) d'). apply IH.
Qed.

Lemma last_cons (l : list Z) a d : last (a :: l) d = last l a.
Proof.
  destruct l as [| x l]; [reflexivity|].
  change (last (x :: l) d = last (x :: l) a). apply last_default.
Qed.

Section Pacing.

Variable sinf : float -> float.

Lemma answer_other rx s4 s' id :
  id <> CAN_ID_OBD_RESP_ENGINE ->
  match rx with
  | Some frame =>
      if accepted frame
      then exists f, s' = reply s4 f /\ can_id f = CAN_ID_OBD_RESP_ENGINE
      else s' = s4
  | None => s' = s4
  end ->
  count_id id (bus s') = count_id id (bus s4).
Proof.
  intros N H. destruct rx as [frame |]; [destruct (accepted frame)|]; try (subst; reflexivity).
  destruct H as (f & -> & E). rewrite count_reply, E.
  destruct (Z.eqb_spec CAN_ID_OBD_RESP_ENGINE id); [congruence | lia].
Qed.

Lemma loop_pass_paced now0 prev now rx st st' :
  (0 <= now0)%Z -> (prev <= now < 2 ^ 64)%Z ->
  all_paced now0 prev st ->
  loop_pass sinf now rx st = Some st' ->
  all_paced now0 now st'.
Proof.
  intros H0 Hn (I1 & I2 & I3 & I4) P.
  destruct (loop_pass_inv sinf now rx st st' P)
    as (v' & s1 & s2 & s3 & s4 & _ & F1 & F2 & F3 & F4 & R).
  set (s0 := {| vehicle := v'; bus := bus (fst st) |}) in *.
  assert (B0 : bus s0 = bus (fst st)) by reflexivity.
  unfold all_paced.
  rewrite (answer_other rx s4 (fst st') CAN_ID_ENGINE_DATA_1 ltac:(ids) R).
  rewrite (answer_other rx s4 (fst st') CAN_ID_ENGINE_DATA_2 ltac:(ids) R).
  rewrite (answer_other rx s4 (fst st') CAN_ID_TRANS_DATA ltac:(ids) R).
  rewrite (answer_other rx s4 (fst st') CAN_ID_BCM_DATA ltac:(ids) R).
  split; [|split; [|split]].
  - rewrite (fired_other _ _ _ _ _ _ _ CAN_ID_ENGINE_DATA_1 F4) by ids.
    rewrite (fired_other _ _ _ _ _ _ _ CAN_ID_ENGINE_DATA_1 F3) by ids.
    rewrite (fired_other _ _ _ _ _ _ _ CAN_ID_ENGINE_DATA_1 F2) by ids.
    apply (fired_paced now0 prev _ _ _ _ _ _ _ F1 H0);
      [reflexivity | exact Hn | rewrite B0; exact I1].
  - rewrite (fired_other _ _ _ _ _ _ _ CAN_ID_ENGINE_DATA_2 F4) by ids.
    rewrite (fired_other _ _ _ _ _ _ _ CAN_ID_ENGINE_DATA_2 F3) by ids.
    apply (fired_paced now0 prev _ _ _ _ _ _ _ F2 H0); [reflexivity | exact Hn|].
    rewrite (fired_other _ _ _ _ _ _ _ CAN_ID_ENGINE_DATA_2 F1) by ids.
    rewrite B0; exact I2.
  - rewrite (fired_other _ _ _ _ _ _ _ CAN_ID_TRANS_DATA F4) by ids.
    apply (fired_paced now0 prev _ _ _ _ _ _ _ F3 H0); [reflexivity | exact Hn|].
    rewrite (fired_other _ _ _ _ _ _ _ CAN_ID_TRANS_DATA F2) by ids.
    rewrite (fired_other _ _ _ _ _ _ _ CAN_ID_TRANS_DATA F1) by ids.
    rewrite B0; exact I3.
  - apply (fired_paced now0 prev _ _ _ _ _ _ _ F4 H0); [reflexivity | exact Hn|].
    rewrite (fired_other _ _ _ _ _ _ _ CAN_ID_BCM_DATA F3) by ids.
    rewrite (fired_other _ _ _ _ _ _ _ CAN_ID_BCM_DATA F2) by ids.
    rewrite (fired_other _ _ _ _ _ _ _ CAN_ID_BCM_DATA F1) by ids.
    rewrite B0; exact I4.
Qed.

Lemma main_loop_paced now0 inputs : forall prev st st',
  (0 <= now0)%Z -> readings prev (map fst inputs) ->
  all_paced now0 prev st ->
  main_loop sinf inputs st = Some st' ->
  all_paced now0 (last (map fst inputs) prev) st'.
Proof.
  induction inputs as [| [now rx] rest IH]; intros prev st st' H0 Hr I M.
  - simpl in M. injection M as <-. exact I.
  - cbn [main_loop] in M.
    destruct (loop_pass sinf now rx st) as [st1 |] eqn:P; [|discriminate].
    cbn [obind] in M. cbn [map fst readings] in Hr. destruct Hr as [Hn Hr].
    pose proof (loop_pass_paced now0 prev now rx st st1 H0 Hn I P) as I1.
    pose proof (IH now st1 st' H0 Hr I1 M) as I'.
    replace (last (map fst ((now, rx) :: rest)) prev)
      with (last (map fst rest) now); [exact I'|].
    cbn [map fst]. symmetry. apply last_cons.
Qed.

(** X14. When the clock readings of the passes do not go backwards, each kind
    of broadcast frame is sent at most once per period: after any run the
    number of ENGINE_DATA_1 frames times 10 ms, ENGINE_DATA_2 frames times 100
    ms, TRANS_DATA frames times 50 ms and BCM_DATA frames times 100 ms are
    each at most the time elapsed between the first and the last reading. *)
Theorem broadcasts_are_paced now0 inputs st :
  (0 <= now0)%Z -> readings now0 (map fst inputs) ->
  main_loop sinf inputs (main_init now0) = Some st ->
  let elapsed := (last (map fst inputs) now0 - now0)%Z in
  (ENGINE_CYCLE_MS * count_id CAN_ID_ENGINE_DATA_1 (bus (fst st)) <= elapsed)%Z /\
  (ENGINE2_CYCLE_MS * count_id CAN_ID_ENGINE_DATA_2 (bus (fst st)) <= elapsed)%Z /\
  (TRANS_CYCLE_MS * count_id CAN_ID_TRANS_DATA (bus (fst st)) <= elapsed)%Z /\
  (BCM_CYCLE_MS * count_id CAN_ID_BCM_DATA (bus (fst st)) <= elapsed)%Z.
Proof.
  intros H0 Hr M. cbv zeta.
  assert (I : all_paced now0 now0 (main_init now0)).
  { unfold all_paced, paced, main_init, count_id; simpl. lia. }
  destruct (main_loop_paced now0 inputs now0 _ st H0 Hr I M)
    as ([A1 B1] & [A2 B2] & [A3 B3] & [A4 B4]).
  lia.
Qed.

Lemma loop_pass_answers now rx st st' :
  loop_pass sinf now rx st = Some st' ->
  count_id CAN_ID_OBD_RESP_ENGINE (bus (fst st')) =
  (count_id CAN_ID_OBD_RESP_ENGINE (bus (fst st))
   + match rx with
     | Some frame => if accepted frame then 1 else 0
     | None => 0
     end)%Z.
Proof.
  intros P.
  destruct (loop_pass_inv sinf now rx st st' P)
    as (v' & s1 & s2 & s3 & s4 & _ & F1 & F2 & F3 & F4 & R).
  assert (E : count_id CAN_ID_OBD_RESP_ENGINE (bus s4)
              = count_id CAN_ID_OBD_RESP_ENGINE (bus (fst st))).
  { rewrite (fired_other _ _ _ _ _ _ _ CAN_ID_OBD_RESP_ENGINE F4) by ids.
    rewrite (fired_other _ _ _ _ _ _ _ CAN_ID_OBD_RESP_ENGINE F3) by ids.
    rewrite (fired_other _ _ _ _ _ _ _ CAN_ID_OBD_RESP_ENGINE F2) by ids.
    rewrite (fired_other _ _ _ _ _ _ _ CAN_ID_OBD_RESP_ENGINE F1) by ids.
    reflexivity. }
  rewrite <- E.
  destruct rx as [frame |]; [destruct (accepted frame)|].
  - destruct R as (f & -> & Ef). rewrite count_reply, Ef, Z.eqb_refl. reflexivity.
  - rewrite R. lia.
  - rewrite R. lia.
Qed.

Lemma main_loop_answers inputs : forall st st',
  main_loop sinf inputs st = Some st' ->
  count_id CAN_ID_OBD_RESP_ENGINE (bus (fst st')) =
  (count_id CAN_ID_OBD_RESP_ENGINE (bus (fst st)) + requests inputs)%Z.
Proof.
  induction inputs as [| [now rx] rest IH]; intros st st' M.
  - simpl in M. injection M as <-. unfold requests. simpl. lia.
  - cbn [main_loop] in M.
    destruct (loop_pass sinf now rx st) as [st1 |] eqn:P; [|discriminate].
    cbn [obind] in M. rewrite (IH st1 st' M), (loop_pass_answers _ _ _ _ P).
    unfold requests. cbn [filter snd].
    destruct rx as [frame |]; [destruct (accepted frame)|]; cbn [length]; lia.
Qed.

(** X15. After any run of the main loop the number of frames written with
    identifier 0x7E8 equals the number of passes in which an accepted Mode 01
    request was received: every accepted request gets exactly one answer and
    nothing else is sent on 0x7E8. *)
Theorem one_answer_per_request now0 inputs st :
  main_loop sinf inputs (main_init now0) = Some st ->
  count_id CAN_ID_OBD_RESP_ENGINE (bus (fst st)) = requests inputs.
Proof.
  intros M. rewrite (main_loop_answers inputs _ st M).
  unfold count_id, main_init. simpl. lia.
Qed.

End Pacing.

Lemma broadcasts_are_paced_witness :
  let inputs := [(5, None); (10, Some rpm_request); (60, None)]%Z in
  exists st,
    ((0 <= 0)%Z /\ readings 0 (map fst inputs) /\
     main_loop sinf_model inputs (main_init 0) = Some st) /\
    let elapsed := (last (map fst inputs) 0 - 0)%Z in
    (ENGINE_CYCLE_MS * count_id CAN_ID_ENGINE_DATA_1 (bus (fst st)) <= elapsed)%Z /\
    (ENGINE2_CYCLE_MS * count_id CAN_ID_ENGINE_DATA_2 (bus (fst st)) <= elapsed)%Z /\
    (TRANS_CYCLE_MS * count_id CAN_ID_TRANS_DATA (bus (fst st)) <= elapsed)%Z /\
    (BCM_CYCLE_MS * count_id CAN_ID_BCM_DATA (bus (fst st)) <= elapsed)%Z.
Proof.
  cbv zeta.
  assert (H0 : (0 <= 0)%Z) by lia.
  assert (R : readings 0 (map fst [(5, None); (10, Some rpm_request); (60, None)]%Z))
    by (simpl; lia).
  let o := eval vm_compute in
    (main_loop sinf_model [(5, None); (10, Some rpm_request); (60, None)]%Z (main_init 0)) in
  match o with
  | Some ?st =>
      assert (M : main_loop sinf_model [(5, None); (10, Some rpm_request); (60, None)]%Z
                    (main_init 0) = Some st) by (vm_compute; reflexivity);
      exists st; split; [exact (conj H0 (conj R M))|];
      exact (broadcasts_are_paced sinf_model 0 _ st H0 R M)
  end.
Defined.

Lemma one_answer_per_request_witness :
  let inputs := [(5, None); (10, Some rpm_request); (60, None)]%Z in
  exists st,
    main_loop sinf_model inputs (main_init 0) = Some st /\
    count_id CAN_ID_OBD_RESP_ENGINE (bus (fst st)) = requests inputs.
Proof.
  cbv zeta.
  let o := eval vm_compute in
    (main_loop sinf_model [(5, None); (10, Some rpm_request); (60, None)]%Z (main_init 0)) in
  match o with
  | Some ?st =>
      assert (M : main_loop sinf_model [(5, None); (10, Some rpm_request); (60, None)]%Z
                    (main_init 0) = Some st) by (vm_compute; reflexivity);
      exists st; split; [exact M|];
      exact (one_answer_per_request sinf_model 0 _ st M)
  end.
Defined.

(* ====================================================================== *)
(** * Timing utilities, byte extractors and decoding formulas *)
(* ====================================================================== *)

Lemma get_time_ms_value sec nsec :
  normalized sec nsec -> (sec * 1000 + 1000 <= 2 ^ 64)%Z ->
  get_time_ms sec nsec = (sec * 1000 + nsec / 1000000)%Z.
Proof.
  intros [Hs Hn] Hb. unfold get_time_ms, u64.
  rewrite Z.quot_div_nonneg by lia.
  assert (0 <= nsec / 1000000 < 1000)%Z by (Z.div_mod_to_equations; lia).
  rewrite (Z.mod_small sec) by lia.
  rewrite (Z.mod_small (sec * 1000)) by lia.
  rewrite (Z.mod_small (nsec / 1000000)) by lia.
  apply Z.mod_small. lia.
Qed.

(** X16. For normalized timespec values whose milliseconds fit 64 bits,
    get_time_ms is monotone: a reading that is not later gives a value that is
    not larger, and no wrap-around occurs. *)
Theorem get_time_ms_monotone s1 n1 s2 n2 :
  normalized s1 n1 -> normalized s2 n2 -> (s2 * 1000 + 1000 <= 2 ^ 64)%Z ->
  not_later s1 n1 s2 n2 ->
  (0 <= get_time_ms s1 n1 <= get_time_ms s2 n2)%Z /\ (get_time_ms s2 n2 < 2 ^ 64)%Z.
Proof.
  intros N1 N2 Hb L.
  assert (Hb1 : (s1 * 1000 + 1000 <= 2 ^ 64)%Z).
  { destruct N1, N2, L as [L | [L _]]; lia. }
  rewrite (get_time_ms_value s1 n1 N1 Hb1), (get_time_ms_value s2 n2 N2 Hb).
  destruct N1 as [A1 B1], N2 as [A2 B2].
  assert (0 <= n1 / 1000000 < 1000)%Z by (Z.div_mod_to_equations; lia).
  assert (0 <= n2 / 1000000 < 1000)%Z by (Z.div_mod_to_equations; lia).
  destruct L as [L | [-> L]].
  - lia.
  - assert (n1 / 1000000 <= n2 / 1000000)%Z by (apply Z.div_le_mono; lia). lia.
Qed.

Lemma get_time_ms_monotone_witness :
  (normalized 5 999999999 /\ normalized 6 0 /\ (6 * 1000 + 1000 <= 2 ^ 64)%Z /\
   not_later 5 999999999 6 0) /\
  (0 <= get_time_ms 5 999999999 <= get_time_ms 6 0)%Z /\ (get_time_ms 6 0 < 2 ^ 64)%Z.
Proof.
  assert (N1 : normalized 5 999999999) by (unfold normalized; lia).
  assert (N2 : normalized 6 0) by (unfold normalized; lia).
  assert (Hb : (6 * 1000 + 1000 <= 2 ^ 64)%Z) by lia.
  assert (L : not_later 5 999999999 6 0) by (left; lia).
  split; [exact (conj N1 (conj N2 (conj Hb L)))|].
  exact (get_time_ms_monotone 5 999999999 6 0 N1 N2 Hb L).
Defined.

(** X17. For 0 <= ms <= INT_MAX, sleep_ms builds a normalized timespec (0 <=
    tv_nsec < 10^9) that denotes exactly ms milliseconds, and get_time_ms maps
    that timespec back to ms. *)
Theorem sleep_ms_timespec ms :
  (0 <= ms <= 2147483647)%Z ->
  normalized (fst (sleep_ms ms)) (snd (sleep_ms ms)) /\
  (fst (sleep_ms ms) * 1000000000 + snd (sleep_ms ms) = ms * 1000000)%Z /\
  get_time_ms (fst (sleep_ms ms)) (snd (sleep_ms ms)) = ms.
Proof.
  intros H. unfold sleep_ms. cbn [fst snd].
  rewrite Z.quot_div_nonneg, Z.rem_mod_nonneg by lia.
  assert (N : normalized (ms / 1000) (ms mod 1000 * 1000000)).
  { unfold normalized. Z.div_mod_to_equations. lia. }
  split; [exact N|]. split; [Z.div_mod_to_equations; lia|].
  rewrite get_time_ms_value; [|exact N | Z.div_mod_to_equations; lia].
  rewrite Z.div_mul by lia. Z.div_mod_to_equations. lia.
Qed.

Lemma sleep_ms_timespec_witness :
  (0 <= 1 <= 2147483647)%Z /\
  normalized (fst (sleep_ms 1)) (snd (sleep_ms 1)) /\
  (fst (sleep_ms 1) * 1000000000 + snd (sleep_ms 1) = 1 * 1000000)%Z /\
  get_time_ms (fst (sleep_ms 1)) (snd (sleep_ms 1)) = 1%Z.
Proof.
  assert (H : (0 <= 1 <= 2147483647)%Z) by lia.
  split; [exact H | exact (sleep_ms_timespec 1 H)].
Defined.

Lemma land_small16 k : (0 <= k <= 65535)%Z -> Z.land k 0xFFFF = k.
Proof. intros H. rewrite land_65535. apply Z.mod_small. lia. Qed.

Lemma lor_bytes hi lo :
  (0 <= hi <= 255)%Z -> (0 <= lo <= 255)%Z ->
  Z.lor (Z.land (Z.shiftl hi 8) 0xFFFF) lo = (hi * 256 + lo)%Z.
Proof.
  intros Hh Hl. rewrite Z.shiftl_mul_pow2 by lia. change (2 ^ 8)%Z with 256%Z.
  rewrite land_small16 by lia. apply lor_high_low. lia.
Qed.

(** X18. On a buffer of bytes and an offset with both bytes inside it,
    CAN_GET_U16_BE is data[o] * 256 + data[o+1] and CAN_GET_U16_LE is
    data[o+1] * 256 + data[o], both in 0..65535; CAN_GET_U16_BE reads back
    every 16-bit value stored high byte first as the send functions store it,
    and CAN_GET_U16_LE returns that value with its bytes swapped. *)
Theorem u16_extractors d o :
  Forall (fun b => (0 <= b <= 255)%Z) d -> (S o < length d)%nat ->
  CAN_GET_U16_BE d o = (byte_at d o * 256 + byte_at d (o + 1))%Z /\
  CAN_GET_U16_LE d o = (byte_at d (o + 1) * 256 + byte_at d o)%Z /\
  (0 <= CAN_GET_U16_BE d o <= 65535)%Z /\ (0 <= CAN_GET_U16_LE d o <= 65535)%Z /\
  (forall r, (0 <= r <= 65535)%Z ->
     firstn 2 (skipn o d) = store_u16_be r ->
     CAN_GET_U16_BE d o = r /\
     CAN_GET_U16_LE d o = (r mod 256 * 256 + r / 256)%Z).
Proof.
  intros Hb Hl.
  assert (B : forall i, (i < length d)%nat -> (0 <= byte_at d i <= 255)%Z).
  { intros i Hi. rewrite Forall_forall in Hb. apply Hb. apply nth_In. exact Hi. }
  assert (B0 := B o ltac:(lia)). assert (B1 := B (o + 1)%nat ltac:(lia)).
  assert (EB : CAN_GET_U16_BE d o = (byte_at d o * 256 + byte_at d (o + 1))%Z)
    by (apply lor_bytes; assumption).
  assert (EL : CAN_GET_U16_LE d o = (byte_at d (o + 1) * 256 + byte_at d o)%Z)
    by (apply lor_bytes; assumption).
  split; [exact EB|]. split; [exact EL|]. split; [lia|]. split; [lia|].
  intros r Hr S.
  assert (E0 : byte_at d o = nth 0 (firstn 2 (skipn o d)) 0%Z).
  { unfold byte_at. rewrite <- (Nat.add_0_r o) at 1. rewrite <- nth_skipn.
    destruct (skipn o d) as [| x [| y t]]; reflexivity. }
  assert (E1 : byte_at d (o + 1) = nth 1 (firstn 2 (skipn o d)) 0%Z).
  { unfold byte_at. rewrite <- nth_skipn.
    destruct (skipn o d) as [| x [| y t]]; reflexivity. }
  rewrite S in E0, E1. unfold store_u16_be in E0, E1. cbn [nth] in E0, E1.
  destruct (hi_lo_bytes r Hr) as (HA & HB & HK). cbv zeta in HA, HB, HK.
  rewrite EB, EL, E0, E1. split; [exact HK|].
  rewrite !land_255, Z.shiftr_div_pow2 by lia. change (2 ^ 8)%Z with 256%Z.
  rewrite !Z.mod_mod by lia. Z.div_mod_to_equations. lia.
Qed.

Lemma u16_extractors_witness :
  let d := [0x1F; 0x40; 125; 38; 0x06; 0x43; 51; 0]%Z in
  (Forall (fun b => (0 <= b <= 255)%Z) d /\ (S 4 < length d)%nat) /\
  CAN_GET_U16_BE d 4 = (byte_at d 4 * 256 + byte_at d (4 + 1))%Z /\
  CAN_GET_U16_LE d 4 = (byte_at d (4 + 1) * 256 + byte_at d 4)%Z /\
  (0 <= CAN_GET_U16_BE d 4 <= 65535)%Z /\ (0 <= CAN_GET_U16_LE d 4 <= 65535)%Z /\
  (forall r, (0 <= r <= 65535)%Z ->
     firstn 2 (skipn 4 d) = store_u16_be r ->
     CAN_GET_U16_BE d 4 = r /\
     CAN_GET_U16_LE d 4 = (r mod 256 * 256 + r / 256)%Z).
Proof.
  cbv zeta. set (d := [0x1F; 0x40; 125; 38; 0x06; 0x43; 51; 0]%Z).
  assert (Hb : Forall (fun b => (0 <= b <= 255)%Z) d) by (repeat constructor; lia).
  assert (Hl : (S 4 < length d)%nat) by (simpl; lia).
  split; [exact (conj Hb Hl)|].
  exact (u16_extractors d 4 Hb Hl).
Defined.

(** X19. For data bytes in 0..255 the decoding formulas stay inside their
    physical ranges: the three percentages in [0, 100], the four temperatures
    in [-40, 215], the speed in [0, 255], the engine speed equals (256 a + b)
    / 4 and lies in [0, 16383.75], and the air flow lies in [0, 655.35]. *)
Theorem obd2_calc_ranges a b :
  (0 <= a <= 255)%Z -> (0 <= b <= 255)%Z ->
  0 <= obd2_calc_engine_load a <= 100 /\
  0 <= obd2_calc_throttle a <= 100 /\
  0 <= obd2_calc_fuel_level a <= 100 /\
  (-40 <= obd2_calc_coolant_temp a <= 215)%Z /\
  (-40 <= obd2_calc_intake_temp a <= 215)%Z /\
  (-40 <= obd2_calc_ambient_temp a <= 215)%Z /\
  (-40 <= obd2_calc_oil_temp a <= 215)%Z /\
  (0 <= obd2_calc_speed a <= 255)%Z /\
  obd2_calc_rpm a b == inject_Z (a * 256 + b) / 4 /\
  0 <= obd2_calc_rpm a b <= 16383.75 /\
  0 <= obd2_calc_maf a b <= 655.35.
Proof.
  intros Ha Hb.
  assert (Qa : 0 <= inject_Z a <= 255).
  { split; [change 0 with (inject_Z 0) | change 255 with (inject_Z 255)];
      rewrite <- Zle_Qle; lia. }
  assert (P : 0 <= (of_int a * 100 / 255)%f32 <= 100).
  { unfold fdiv, fmul. rewrite of_int_exact by lia.
    assert (M : 0 <= b32 (inject_Z a * 100) <= 25500) by (apply b32_in; try fl; lra).
    apply b32_in; try fl. unfold Qdiv. change (/ 255) with (1 # 255). lra. }
  assert (W : 0 <= inject_Z (a * 256 + b) <= 65535).
  { split; [change 0 with (inject_Z 0) | change 65535 with (inject_Z 65535)];
      rewrite <- Zle_Qle; lia. }
  unfold obd2_calc_engine_load, obd2_calc_throttle, obd2_calc_fuel_level,
    obd2_calc_coolant_temp, obd2_calc_intake_temp, obd2_calc_ambient_temp,
    obd2_calc_oil_temp, obd2_calc_speed.
  repeat match goal with |- _ /\ _ => split end; try apply P; try lia.
  - apply obd2_calc_rpm_value; assumption.
  - rewrite obd2_calc_rpm_value by assumption.
    unfold Qdiv. change (/ 4) with (1 # 4). lra.
  - rewrite obd2_calc_rpm_value by assumption.
    unfold Qdiv. change (/ 4) with (1 # 4). lra.
  - rewrite obd2_calc_maf_value by assumption. apply b32_ge_lo; [fl|].
    unfold Qdiv. change (/ 100) with (1 # 100). lra.
  - rewrite obd2_calc_maf_value by assumption.
    assert (M : b32 (65535 / 100) <= 655.35) by (vm_compute; discriminate).
    eapply Qle_trans; [|exact M]. apply b32_mono.
    unfold Qdiv. change (/ 100) with (1 # 100). lra.
Qed.

Lemma obd2_calc_ranges_witness :
  ((0 <= 255 <= 255)%Z /\ (0 <= 255 <= 255)%Z) /\
  0 <= obd2_calc_engine_load 255 <= 100 /\
  0 <= obd2_calc_throttle 255 <= 100 /\
  0 <= obd2_calc_fuel_level 255 <= 100 /\
  (-40 <= obd2_calc_coolant_temp 255 <= 215)%Z /\
  (-40 <= obd2_calc_intake_temp 255 <= 215)%Z /\
  (-40 <= obd2_calc_ambient_temp 255 <= 215)%Z /\
  (-40 <= obd2_calc_oil_temp 255 <= 215)%Z /\
  (0 <= obd2_calc_speed 255 <= 255)%Z /\
  obd2_calc_rpm 255 255 == inject_Z (255 * 256 + 255) / 4 /\
  0 <= obd2_calc_rpm 255 255 <= 16383.75 /\
  0 <= obd2_calc_maf 255 255 <= 655.35.
Proof.
  assert (H : (0 <= 255 <= 255)%Z) by lia.
  split; [exact (conj H H) | exact (obd2_calc_ranges 255 255 H H)].
Defined.

(* ====================================================================== *)
(** * Diagnostic trouble codes *)
(* ====================================================================== *)

Section DtcFacts.

Import Stdlib.Strings.String Stdlib.Strings.Ascii.

Import DtcCodes VtuCommon.

Local Open Scope Z_scope.

Lemma in_bytes256 b : 0 <= b <= 255 -> In b bytes256.
Proof.
  intros H. unfold bytes256. rewrite <- (Z2Nat.id b) by lia.
  apply in_map. apply in_seq. lia.
Qed.

Lemma forall_bytes (P : Z -> bool) :
  forallb P bytes256 = true -> forall b, 0 <= b <= 255 -> P b = true.
Proof.
  intros H b Hb. rewrite forallb_forall in H. apply H. apply in_bytes256. exact Hb.
Qed.

Lemma chr_code c : chr (char_code c) = c.
Proof.
  unfold chr, char_code, to_u8.
  assert (B : (N_of_ascii c < 256)%N) by apply N_ascii_bounded.
  rewrite Z.mod_small by lia. rewrite N2Z.id. apply ascii_N_embedding.
Qed.

Lemma code_chr z : 0 <= z <= 255 -> char_code (chr z) = z.
Proof.
  intros H. unfold chr, char_code, to_u8. rewrite Z.mod_small by lia.
  rewrite N_ascii_embedding by lia. lia.
Qed.

(** The three fields of the first byte and the two of the second. *)
Lemma byte1_fields b :
  0 <= b <= 255 ->
  let k := Z.land (Z.shiftr b 6) 0x03 in
  let d1 := Z.land (Z.shiftr b 4) 0x03 in
  let d2 := Z.land b 0x0F in
  0 <= k <= 3 /\ 0 <= d1 <= 3 /\ 0 <= d2 <= 15 /\ b = 64 * k + 16 * d1 + d2.
Proof.
  intros H. cbv zeta.
  pose proof (forall_bytes (fun b =>
    let k := Z.land (Z.shiftr b 6) 0x03 in
    let d1 := Z.land (Z.shiftr b 4) 0x03 in
    let d2 := Z.land b 0x0F in
    (0 <=? k) && (k <=? 3) && (0 <=? d1) && (d1 <=? 3) && (0 <=? d2) && (d2 <=? 15)
    && (b =? 64 * k + 16 * d1 + d2)) ltac:(vm_compute; reflexivity) b H) as C.
  cbv beta zeta in C.
  repeat (apply andb_prop in C; destruct C as [C ?]).
  repeat match goal with
    | H : (_ <=? _) = true |- _ => apply Z.leb_le in H
    | H : (_ =? _) = true |- _ => apply Z.eqb_eq in H
    end.
  lia.
Qed.

Lemma byte2_fields b :
  0 <= b <= 255 ->
  let d3 := Z.land (Z.shiftr b 4) 0x0F in
  let d4 := Z.land b 0x0F in
  0 <= d3 <= 15 /\ 0 <= d4 <= 15 /\ b = 16 * d3 + d4.
Proof.
  intros H. cbv zeta.
  pose proof (forall_bytes (fun b =>
    let d3 := Z.land (Z.shiftr b 4) 0x0F in
    let d4 := Z.land b 0x0F in
    (0 <=? d3) && (d3 <=? 15) && (0 <=? d4) && (d4 <=? 15) && (b =? 16 * d3 + d4))
    ltac:(vm_compute; reflexivity) b H) as C.
  cbv beta zeta in C.
  repeat (apply andb_prop in C; destruct C as [C ?]).
  repeat match goal with
    | H : (_ <=? _) = true |- _ => apply Z.leb_le in H
    | H : (_ =? _) = true |- _ => apply Z.eqb_eq in H
    end.
  lia.
Qed.

Lemma pack_byte1 b :
  0 <= b <= 255 ->
  to_u8 (Z.lor (Z.lor (Z.shiftl (Z.land (Z.shiftr b 6) 0x03) 6)
                      (Z.shiftl (Z.land (Z.shiftr b 4) 0x03) 4))
               (Z.land b 0x0F)) = b.
Proof.
  intros H. apply Z.eqb_eq.
  apply (forall_bytes (fun b =>
    to_u8 (Z.lor (Z.lor (Z.shiftl (Z.land (Z.shiftr b 6) 0x03) 6)
                        (Z.shiftl (Z.land (Z.shiftr b 4) 0x03) 4))
                 (Z.land b 0x0F)) =? b)); [vm_compute; reflexivity | exact H].
Qed.

Lemma pack_byte2 b :
  0 <= b <= 255 ->
  to_u8 (Z.lor (Z.shiftl (Z.land (Z.shiftr b 4) 0x0F) 4) (Z.land b 0x0F)) = b.
Proof.
  intros H. apply Z.eqb_eq.
  apply (forall_bytes (fun b =>
    to_u8 (Z.lor (Z.shiftl (Z.land (Z.shiftr b 4) 0x0F) 4) (Z.land b 0x0F)) =? b));
    [vm_compute; reflexivity | exact H].
Qed.

Lemma category_letter k :
  0 <= k <= 3 ->
  category_of (char_code (nth (Z.to_nat k) categories zero)) = Some k.
Proof.
  intros H.
  assert (C : k = 0 \/ k = 1 \/ k = 2 \/ k = 3) by lia.
  destruct C as [-> | [-> | [-> | ->]]]; reflexivity.
Qed.

Lemma shl_digit d : 0 <= d <= 15 -> shl_int d 4 = Some (Z.shiftl d 4).
Proof.
  intros H. unfold shl_int, INT_MAX.
  rewrite Z.shiftl_mul_pow2 by lia. change (2 ^ 4) with 16.
  destruct (Z.leb_spec 0 d); [|lia].
  destruct (Z.leb_spec (d * 16) 2147483647); [reflexivity | lia].
Qed.

Lemma dtc_encode_five c0 c1 c2 c3 c4 rest o1 o2 :
  dtc_encode (String c0 (String c1 (String c2 (String c3 (String c4 rest))))) o1 o2 =
  match category_of (char_code c0) with
  | None => Some (-1, o1, o2)
  | Some cat =>
      h1 <- shl_int (char_code c1 - 48) 4 ;;
      h3 <- shl_int (char_code c3 - 48) 4 ;;
      Some (0, to_u8 (Z.lor (Z.lor (Z.shiftl cat 6) h1) (char_code c2 - 48)),
               to_u8 (Z.lor h3 (char_code c4 - 48)))
  end.
Proof.
  unfold dtc_encode, char_at. cbn [get obind].
  destruct (category_of (char_code c0)); [|reflexivity].
  change (char_code "0") with 48.
  destruct (shl_int (char_code c1 - 48) 4); [|reflexivity]. cbn [obind].
  destruct (shl_int (char_code c3 - 48) 4); reflexivity.
Qed.

Lemma encode_of_decode b1 b2 o1 o2 :
  0 <= b1 <= 255 -> 0 <= b2 <= 255 ->
  dtc_encode (dtc_decode b1 b2) o1 o2 = Some (0, b1, b2).
Proof.
  intros H1 H2. unfold dtc_decode. rewrite dtc_encode_five.
  destruct (byte1_fields b1 H1) as (Kk & K1 & K2 & _).
  destruct (byte2_fields b2 H2) as (K3 & K4 & _).
  cbv zeta in *. change (char_code "0") with 48.
  rewrite category_letter by assumption.
  rewrite !code_chr by lia.
  replace (48 + Z.land (Z.shiftr b1 4) 3 - 48) with (Z.land (Z.shiftr b1 4) 3) by lia.
  replace (48 + Z.land b1 15 - 48) with (Z.land b1 15) by lia.
  replace (48 + Z.land (Z.shiftr b2 4) 15 - 48) with (Z.land (Z.shiftr b2 4) 15) by lia.
  replace (48 + Z.land b2 15 - 48) with (Z.land b2 15) by lia.
  rewrite !shl_digit by lia. cbn [obind].
  rewrite (pack_byte1 b1 H1), (pack_byte2 b2 H2). reflexivity.
Qed.

Lemma decode_well_formed b1 b2 :
  0 <= b1 <= 255 -> 0 <= b2 <= 255 -> dtc_well_formed (dtc_decode b1 b2) = true.
Proof.
  intros H1 H2. unfold dtc_decode, dtc_well_formed.
  destruct (byte1_fields b1 H1) as (Kk & K1 & K2 & _).
  destruct (byte2_fields b2 H2) as (K3 & K4 & _).
  cbv zeta in *. change (char_code "0") with 48.
  rewrite !code_chr by lia.
  assert (C : existsb (Ascii.eqb (nth (Z.to_nat (Z.land (Z.shiftr b1 6) 3))
                                      categories zero)) categories = true).
  { set (k := Z.land (Z.shiftr b1 6) 3) in *.
    assert (C : k = 0 \/ k = 1 \/ k = 2 \/ k = 3) by lia.
    destruct C as [-> | [-> | [-> | ->]]]; reflexivity. }
  rewrite C. cbn [andb].
  repeat match goal with
    | |- context [(?a <=? ?b)] => destruct (Z.leb_spec a b); [|lia]
    end.
  reflexivity.
Qed.

(** X20. For every pair of bytes, dtc_decode produces a well-formed five-
    character code and dtc_encode of that code returns 0 and gives back the
    same two bytes. *)
Theorem dtc_encode_inverts_decode b1 b2 o1 o2 :
  0 <= b1 <= 255 -> 0 <= b2 <= 255 ->
  dtc_well_formed (dtc_decode b1 b2) = true /\
  dtc_encode (dtc_decode b1 b2) o1 o2 = Some (0, b1, b2).
Proof.
  intros H1 H2. split.
  - apply decode_well_formed; assumption.
  - apply encode_of_decode; assumption.
Qed.

Lemma dtc_encode_inverts_decode_witness :
  (0 <= 0x03 <= 255 /\ 0 <= 0x00 <= 255) /\
  dtc_well_formed (dtc_decode 0x03 0x00) = true /\
  dtc_encode (dtc_decode 0x03 0x00) 0 0 = Some (0, 0x03, 0x00).
Proof.
  assert (H1 : 0 <= 0x03 <= 255) by lia.
  assert (H2 : 0 <= 0x00 <= 255) by lia.
  split; [exact (conj H1 H2)|].
  exact (dtc_encode_inverts_decode 0x03 0x00 0 0 H1 H2).
Defined.

Lemma well_formed_is_decoded s :
  dtc_well_formed s = true ->
  exists b1 b2, 0 <= b1 <= 255 /\ 0 <= b2 <= 255 /\ dtc_decode b1 b2 = s.
Proof.
  destruct s as [| c0 [| c1 [| c2 [| c3 [| c4 [| ? ?]]]]]]; try discriminate.
  unfold dtc_well_formed. intros W.
  repeat (apply andb_prop in W; destruct W as [W ?]).
  repeat match goal with H : (_ <=? _) = true |- _ => apply Z.leb_le in H end.
  assert (K : exists k, 0 <= k <= 3 /\ c0 = nth (Z.to_nat k) categories zero).
  { unfold categories in W. cbn [existsb] in W.
    repeat (apply orb_prop in W; destruct W as [W | W]);
      try discriminate W; apply Ascii.eqb_eq in W; subst c0;
      [exists 0 | exists 1 | exists 2 | exists 3]; split; try lia; reflexivity. }
  destruct K as (k & Hk & ->).
  set (n1 := char_code c1 - 48). set (n2 := char_code c2 - 48).
  set (n3 := char_code c3 - 48). set (n4 := char_code c4 - 48).
  exists (64 * k + 16 * n1 + n2), (16 * n3 + n4).
  split; [unfold n1, n2; lia|]. split; [unfold n3, n4; lia|].
  assert (B1 : 0 <= 64 * k + 16 * n1 + n2 <= 255) by (unfold n1, n2; lia).
  assert (B2 : 0 <= 16 * n3 + n4 <= 255) by (unfold n3, n4; lia).
  destruct (byte1_fields _ B1) as (Kk & K1 & K2 & E1).
  destruct (byte2_fields _ B2) as (K3 & K4 & E2).
  cbv zeta in *. unfold dtc_decode. change (char_code "0") with 48.
  assert (Fk : Z.land (Z.shiftr (64 * k + 16 * n1 + n2) 6) 3 = k) by (unfold n1, n2 in *; lia).
  assert (F1 : Z.land (Z.shiftr (64 * k + 16 * n1 + n2) 4) 3 = n1) by (unfold n1, n2 in *; lia).
  assert (F2 : Z.land (64 * k + 16 * n1 + n2) 15 = n2) by (unfold n1, n2 in *; lia).
  assert (F3 : Z.land (Z.shiftr (16 * n3 + n4) 4) 15 = n3) by (unfold n3, n4 in *; lia).
  assert (F4 : Z.land (16 * n3 + n4) 15 = n4) by (unfold n3, n4 in *; lia).
  rewrite Fk, F1, F2, F3, F4. unfold n1, n2, n3, n4.
  replace (48 + (char_code c1 - 48)) with (char_code c1) by lia.
  replace (48 + (char_code c2 - 48)) with (char_code c2) by lia.
  replace (48 + (char_code c3 - 48)) with (char_code c3) by lia.
  replace (48 + (char_code c4 - 48)) with (char_code c4) by lia.
  rewrite !chr_code. reflexivity.
Qed.

(** X21. For every well-formed code (a letter among P, C, B, U, a digit 0-3
    and three characters from '0' to '0'+15), dtc_encode returns 0 with two
    bytes, and dtc_decode of those bytes is the same code. *)
Theorem dtc_decode_inverts_encode s o1 o2 :
  dtc_well_formed s = true ->
  exists b1 b2,
    dtc_encode s o1 o2 = Some (0, b1, b2) /\
    0 <= b1 <= 255 /\ 0 <= b2 <= 255 /\ dtc_decode b1 b2 = s.
Proof.
  intros W. destruct (well_formed_is_decoded s W) as (b1 & b2 & H1 & H2 & <-).
  exists b1, b2. split; [apply encode_of_decode; assumption|].
  repeat split; lia.
Qed.

Lemma dtc_decode_inverts_encode_witness :
  dtc_well_formed "P0300" = true /\
  exists b1 b2,
    dtc_encode "P0300" 7 9 = Some (0, b1, b2) /\
    0 <= b1 <= 255 /\ 0 <= b2 <= 255 /\ dtc_decode b1 b2 = "P0300"%string.
Proof.
  assert (W : dtc_well_formed "P0300" = true) by reflexivity.
  split; [exact W | exact (dtc_decode_inverts_encode "P0300" 7 9 W)].
Defined.

End DtcFacts.

(* ====================================================================== *)
(** * The tables of libvtu-common *)
(* ====================================================================== *)

Section TableFacts.

Import Stdlib.Strings.String Stdlib.Strings.Ascii.

Import DtcCodes VtuCommon.

Local Open Scope Z_scope.

Local Open Scope string_scope.

(** X22. Every code for which vtu_get_dtc_description returns a description
    other than "Unknown DTC" is well formed, is encoded by dtc_encode with
    return value 0 into bytes b1 <= 7 and b2 <= 255, and is read back
    unchanged by dtc_decode. *)
Theorem described_codes_round_trip s o1 o2 :
  vtu_get_dtc_description s <> "Unknown DTC" ->
  dtc_well_formed s = true /\
  exists b1 b2,
    dtc_encode s o1 o2 = Some (0, b1, b2) /\ 0 <= b1 <= 7 /\ 0 <= b2 <= 255 /\
    dtc_decode b1 b2 = s.
Proof.
  unfold vtu_get_dtc_description, streq.
  repeat match goal with
    | |- context [String.eqb s ?k] =>
        destruct (String.eqb_spec s k) as [-> | _];
        [intros _; split; [reflexivity|];
         eexists _, _; split; [reflexivity|];
         split; [vm_compute; split; intro Q; discriminate Q|];
         split; [vm_compute; split; intro Q; discriminate Q | reflexivity]|]
    end.
  intros H. contradiction H. reflexivity.
Qed.

Lemma described_codes_round_trip_witness :
  vtu_get_dtc_description "P0420" <> "Unknown DTC" /\
  dtc_well_formed "P0420" = true /\
  exists b1 b2,
    dtc_encode "P0420" 0 0 = Some (0, b1, b2) /\ 0 <= b1 <= 7 /\ 0 <= b2 <= 255 /\
    dtc_decode b1 b2 = "P0420".
Proof.
  assert (H : vtu_get_dtc_description "P0420" <> "Unknown DTC")
    by (intro Q; vm_compute in Q; discriminate Q).
  split; [exact H | exact (described_codes_round_trip "P0420" 0 0 H)].
Defined.

(** X23. vtu_get_pid_name and vtu_get_pid_units know the same PIDs: the name
    is "Unknown PID" exactly when the unit is the empty string, and the PIDs
    with a name are 0x04, 0x05, 0x0C, 0x0D, 0x0F, 0x10, 0x11, 0x2F, 0x46 and
    0x5C. Every PID the simulator answers except 0x00 has a name, and the
    named PIDs the simulator does not answer are 0x46 and 0x5C. *)
Theorem pid_tables_agree pid :
  (vtu_get_pid_name pid = "Unknown PID" <-> vtu_get_pid_units pid = "") /\
  (vtu_get_pid_name pid <> "Unknown PID" <-> In pid named_pids) /\
  (In pid supported_pids -> pid <> 0 -> In pid named_pids) /\
  (In pid named_pids -> In pid supported_pids \/ pid = 0x46 \/ pid = 0x5C).
Proof.
  unfold vtu_get_pid_name, vtu_get_pid_units, named_pids, supported_pids,
    OBD2_PID_ENGINE_LOAD, OBD2_PID_COOLANT_TEMP, OBD2_PID_ENGINE_RPM,
    OBD2_PID_VEHICLE_SPEED, OBD2_PID_INTAKE_TEMP, OBD2_PID_MAF, OBD2_PID_THROTTLE_POS,
    OBD2_PID_FUEL_LEVEL, OBD2_PID_AMBIENT_TEMP, OBD2_PID_OIL_TEMP.
  repeat match goal with
    | |- context [Z.eqb pid ?k] =>
        destruct (Z.eqb_spec pid k) as [-> | ?];
        [vm_compute;
         split; [split; intros Q; discriminate Q|];
         split; [split; [intros _; lia | intros _ Q; discriminate Q]|];
         split; [intros _ _; lia | intros _; lia]|]
    end.
  split; [split; intros _; reflexivity|].
  split; [split; [intros Q; exfalso; apply Q; reflexivity | simpl; intros Q; lia]|].
  split; simpl; intros; lia.
Qed.

End TableFacts.

(* ====================================================================== *)
(** * The telemetry decoder on the simulator frames *)
(* ====================================================================== *)

Lemma send_frame id d s :
  length d = 8%nat ->
  can_send id d 8 s = reply s {| can_id := id; can_dlc := 8; data := d |}.
Proof.
  intros L. unfold can_send, reply.
  change (Z.to_nat 8) with 8%nat. rewrite <- L at 1. rewrite firstn_all.
  cbn [Nat.sub repeat]. rewrite app_nil_r. reflexivity.
Qed.

Lemma quarter_floor r x :
  (0 <= r)%Z -> inject_Z r / 4 <= x -> x < inject_Z r / 4 + (1 # 4) ->
  (Z.quot r 4 = Qfloor x)%Z.
Proof.
  intros Hr L U. rewrite Z.quot_div_nonneg by lia. symmetry.
  unfold Qdiv in *. change (/ 4) with (1 # 4) in *.
  assert (A : (4 * (r / 4) <= r <= 4 * (r / 4) + 3)%Z) by (Z.div_mod_to_equations; lia).
  destruct A as [A1 A2].
  rewrite Zle_Qle in A1, A2. rewrite inject_Z_plus, inject_Z_mult in A2.
  rewrite inject_Z_mult in A1.
  change (inject_Z 4) with 4 in *. change (inject_Z 3) with 3 in *.
  apply Qfloor_unique; lra.
Qed.

Lemma u8_small k : (0 <= k <= 255)%Z -> to_u8 k = k.
Proof. intros H. unfold to_u8. apply Z.mod_small. lia. Qed.

Lemma u16_small k : (0 <= k <= 65535)%Z -> to_u16 k = k.
Proof. intros H. unfold to_u16. apply Z.mod_small. lia. Qed.

Lemma lor_word hi lo :
  (0 <= hi <= 255)%Z -> (0 <= lo <= 255)%Z ->
  Z.lor (Z.shiftl hi 8) lo = (hi * 256 + lo)%Z.
Proof.
  intros Hh Hl. rewrite Z.shiftl_mul_pow2 by lia. change (2 ^ 8)%Z with 256%Z.
  apply lor_high_low. lia.
Qed.

Lemma percent_floor k x :
  (0 <= k <= 255)%Z -> Qabs (x - inject_Z k * 100 / 255) < 100 / 255 ->
  Qabs (x - inject_Z (Z.quot (k * 100) 255)) < 7 # 5.
Proof.
  intros Hk E. rewrite Z.quot_div_nonneg by lia.
  assert (A : (255 * (k * 100 / 255) <= k * 100 <= 255 * (k * 100 / 255) + 254)%Z)
    by (Z.div_mod_to_equations; lia).
  destruct A as [A1 A2]. rewrite Zle_Qle in A1, A2.
  rewrite inject_Z_plus, !inject_Z_mult in A2. rewrite !inject_Z_mult in A1.
  change (inject_Z 255) with 255 in *. change (inject_Z 254) with 254 in *.
  change (inject_Z 100) with 100 in *.
  apply Qabs_Qlt_condition in E. unfold Qdiv in E. change (/ 255) with (1 # 255) in E.
  apply Qabs_Qlt_condition. lra.
Qed.

(** X24. Fed the simulator's ENGINE_DATA_1 and BCM_DATA frames of an encodable
    state, decode_can_frame of the telemetry service recovers rpm as the
    simulated rpm rounded down, the coolant temperature to within 1 degree
    when it is at most 127 (a negative value when it is 128 or more, by the
    int8_t conversion), and the fuel level to within 1.4 points; it stamps
    last_update with the time of the call. *)
Theorem telemetry_reads_rpm_coolant_fuel s now t0 :
  encodable (vehicle s) ->
  exists f1 f4,
    send_engine_data_1 s = Some (reply s f1) /\
    send_bcm_data s = Some (reply s f4) /\
    let t1 := Telemetry.decode_can_frame now f1 t0 in
    let t4 := Telemetry.decode_can_frame now f4 t0 in
    Telemetry.rpm t1 = Qfloor (rpm (vehicle s)) /\
    (coolant_temp (vehicle s) <= 127 ->
       Qabs (coolant_temp (vehicle s) - inject_Z (Telemetry.coolant_temp t1)) < 1) /\
    (128 <= coolant_temp (vehicle s) -> (Telemetry.coolant_temp t1 < 0)%Z) /\
    Telemetry.last_update t1 = now /\
    Qabs (fuel_level (vehicle s) - inject_Z (Telemetry.fuel_level t4)) < 7 # 5.
Proof.
  intros (Fr & Hr & Hc & Hth & Hm & Hl & Hg & Ht & Hf & Ho & Hs).
  destruct (rpm_roundtrip _ Fr Hr) as (r & Cr & Kr & _ & Br1 & Br2).
  destruct (temp_roundtrip _ Hc) as (c & Cc & Kc & Bc).
  destruct (pct_roundtrip _ Hth) as (th & Cth & Kth & _).
  destruct (maf_roundtrip _ Hm) as (m & Cm & Km & _).
  destruct (pct_roundtrip _ Hl) as (l & Cl & Kl & _).
  destruct (pct_roundtrip _ Hf) as (f & Cf & Kf & Bf & _).
  eexists _, _.
  split; [unfold send_engine_data_1, engine_data_1;
          rewrite Cr, Cc, Cth, Cm, Cl; cbn [obind];
          rewrite send_frame by reflexivity; reflexivity|].
  split; [unfold send_bcm_data, bcm_data; rewrite Cf; cbn [obind];
          rewrite send_frame by reflexivity; reflexivity|].
  cbv zeta. unfold Telemetry.decode_can_frame. cbn [can_id data].
  change (Z.land CAN_ID_ENGINE_DATA_1 Telemetry.CAN_SFF_MASK =? Telemetry.CAN_ID_ENGINE)%Z
    with true.
  change (Z.land CAN_ID_BCM_DATA Telemetry.CAN_SFF_MASK =? Telemetry.CAN_ID_ENGINE)%Z
    with false.
  change (Z.land CAN_ID_BCM_DATA Telemetry.CAN_SFF_MASK =? Telemetry.CAN_ID_THROTTLE)%Z
    with false.
  change (Z.land CAN_ID_BCM_DATA Telemetry.CAN_SFF_MASK =? Telemetry.CAN_ID_SPEED)%Z
    with false.
  change (Z.land CAN_ID_BCM_DATA Telemetry.CAN_SFF_MASK =? Telemetry.CAN_ID_FUEL)%Z
    with true.
  cbv iota.
  cbn [Telemetry.rpm Telemetry.coolant_temp Telemetry.last_update Telemetry.fuel_level].
  unfold byte_at. cbn [set_byte zeroed8 repeat nth].
  destruct (hi_lo_bytes r Kr) as (HA & HB & HK). cbv zeta in HA, HB, HK.
  rewrite lor_word, HK by assumption.
  rewrite (u16_small r) by lia.
  rewrite !(land_small c), !(land_small f) by assumption.
  assert (Q4 : (0 <= Z.quot r 4 <= 65535)%Z).
  { rewrite Z.quot_div_nonneg by lia. Z.div_mod_to_equations. lia. }
  rewrite u16_small by exact Q4.
  assert (QF : (0 <= Z.quot (f * 100) 255 <= 255)%Z).
  { rewrite Z.quot_div_nonneg by lia. Z.div_mod_to_equations. lia. }
  rewrite (u8_small _ QF).
  split; [apply quarter_floor; [lia | lra | lra]|].
  apply Qabs_Qlt_condition in Bc. rewrite inj_sub in Bc.
  change (inject_Z 40) with 40 in Bc.
  split; [|split; [|split; [reflexivity | apply percent_floor; assumption]]].
  - intros H127.
    assert (C167 : (c <= 167)%Z).
    { assert (G : inject_Z c < inject_Z 169) by (change (inject_Z 169) with 169; lra).
      rewrite <- Zlt_Qlt in G.
      destruct (Z.eq_dec c 168) as [-> |]; [|lia].
      change (inject_Z 168) with 168 in Bc. lra. }
    unfold to_i8. rewrite Z.mod_small by lia.
    replace (c - 40 + 128 - 128)%Z with (c - 40)%Z by lia.
    rewrite inj_sub. change (inject_Z 40) with 40.
    apply Qabs_Qlt_condition. lra.
  - intros H128.
    assert (C168 : (168 <= c)%Z).
    { assert (G : inject_Z 167 < inject_Z c) by (change (inject_Z 167) with 167; lra).
      rewrite <- Zlt_Qlt in G. lia. }
    unfold to_i8.
    assert (E : ((c - 40 + 128) mod 2 ^ 8 = c - 40 + 128 - 256)%Z).
    { change (2 ^ 8)%Z with 256%Z. Z.div_mod_to_equations. lia. }
    rewrite E. lia.
Qed.

Lemma telemetry_reads_rpm_coolant_fuel_witness :
  let s := {| vehicle := v_fractional; bus := [] |} in
  encodable (vehicle s) /\
  exists f1 f4,
    send_engine_data_1 s = Some (reply s f1) /\
    send_bcm_data s = Some (reply s f4) /\
    let t1 := Telemetry.decode_can_frame 7 f1 Telemetry.vehicle_init in
    let t4 := Telemetry.decode_can_frame 7 f4 Telemetry.vehicle_init in
    Telemetry.rpm t1 = Qfloor (rpm (vehicle s)) /\
    (coolant_temp (vehicle s) <= 127 ->
       Qabs (coolant_temp (vehicle s) - inject_Z (Telemetry.coolant_temp t1)) < 1) /\
    (128 <= coolant_temp (vehicle s) -> (Telemetry.coolant_temp t1 < 0)%Z) /\
    Telemetry.last_update t1 = 7%Z /\
    Qabs (fuel_level (vehicle s) - inject_Z (Telemetry.fuel_level t4)) < 7 # 5.
Proof.
  cbv zeta. split; [exact v_fractional_encodable|].
  exact (telemetry_reads_rpm_coolant_fuel {| vehicle := v_fractional; bus := [] |} 7
           Telemetry.vehicle_init v_fractional_encodable).
Defined.

(** X25. On the simulator's frames decode_can_frame reads four fields from
    bytes that carry something else: engine_load becomes the raw throttle byte
    of ENGINE_DATA_1, throttle is computed from the intake-temperature byte of
    ENGINE_DATA_2, speed becomes the gear of TRANS_DATA, odometer becomes 256
    times the truncated speed, and the BCM_DATA frame, which carries the
    odometer, leaves the decoded odometer unchanged. *)
Theorem telemetry_layout_mismatch s now t0 :
  encodable (vehicle s) -> -40 <= intake_temp (vehicle s) <= 215 ->
  exists f1 f2 f3 f4 th i sp,
    send_engine_data_1 s = Some (reply s f1) /\
    send_engine_data_2 s = Some (reply s f2) /\
    send_trans_data s = Some (reply s f3) /\
    send_bcm_data s = Some (reply s f4) /\
    pct_raw (throttle (vehicle s)) = Some th /\
    to_uint8 (intake_temp (vehicle s) + 40)%f32 = Some i /\
    to_uint16 (vehicle_speed (vehicle s)) = Some sp /\
    Telemetry.engine_load (Telemetry.decode_can_frame now f1 t0) = th /\
    Telemetry.throttle (Telemetry.decode_can_frame now f2 t0) = Z.quot (i * 100) 255 /\
    Telemetry.speed (Telemetry.decode_can_frame now f3 t0) = gear (vehicle s) /\
    Telemetry.odometer (Telemetry.decode_can_frame now f3 t0) = (256 * sp)%Z /\
    Telemetry.odometer (Telemetry.decode_can_frame now f4 t0) = Telemetry.odometer t0.
Proof.
  intros (Fr & Hr & Hc & Hth & Hm & Hl & Hg & Ht & Hf & Ho & Hs) Hi.
  destruct (rpm_roundtrip _ Fr Hr) as (r & Cr & Kr & _).
  destruct (temp_roundtrip _ Hc) as (c & Cc & Kc & _).
  destruct (pct_roundtrip _ Hth) as (th & Cth & Kth & _).
  destruct (maf_roundtrip _ Hm) as (m & Cm & Km & _).
  destruct (pct_roundtrip _ Hl) as (l & Cl & Kl & _).
  destruct (pct_roundtrip _ Hf) as (f & Cf & Kf & _).
  destruct (temp_roundtrip _ Hi) as (i & Ci & Ki & _).
  destruct (temp_roundtrip _ Ht) as (tt & Ct & Kt & _).
  destruct (speed_roundtrip _ Hs) as (sp & Cs & Ks & _).
  eexists _, _, _, _. exists th, i, sp.
  split; [unfold send_engine_data_1, engine_data_1;
          rewrite Cr, Cc, Cth, Cm, Cl; cbn [obind];
          rewrite send_frame by reflexivity; reflexivity|].
  split; [unfold send_engine_data_2, engine_data_2; rewrite Ci, Cl; cbn [obind];
          rewrite send_frame by reflexivity; reflexivity|].
  split; [unfold send_trans_data, trans_data; rewrite Ct, Cs; cbn [obind];
          rewrite send_frame by reflexivity; reflexivity|].
  split; [unfold send_bcm_data, bcm_data; rewrite Cf; cbn [obind];
          rewrite send_frame by reflexivity; reflexivity|].
  split; [exact Cth|]. split; [exact Ci|]. split; [exact Cs|].
  unfold Telemetry.decode_can_frame. cbn [can_id data].
  repeat match goal with
    | |- context [(Z.land ?a Telemetry.CAN_SFF_MASK =? ?b)%Z] =>
        let v := eval vm_compute in (Z.land a Telemetry.CAN_SFF_MASK =? b)%Z in
        change (Z.land a Telemetry.CAN_SFF_MASK =? b)%Z with v
    end.
  cbv iota.
  cbn [Telemetry.engine_load Telemetry.throttle Telemetry.speed Telemetry.odometer].
  unfold byte_at. cbn [set_byte zeroed8 repeat nth].
  rewrite !(land_small th), !(land_small i) by assumption.
  assert (G : Z.land (gear (vehicle s)) 0xFF = gear (vehicle s)) by (apply land_small; lia).
  rewrite G.
  assert (QT : (0 <= Z.quot (i * 100) 255 <= 255)%Z).
  { rewrite Z.quot_div_nonneg by lia. Z.div_mod_to_equations. lia. }
  rewrite (u8_small th Kth), (u8_small _ QT), u8_small by lia.
  assert (S8 : Z.shiftr sp 8 = 0%Z).
  { rewrite Z.shiftr_div_pow2 by lia. apply Z.div_small. change (2 ^ 8)%Z with 256%Z. lia. }
  rewrite S8. change (Z.land (Z.land 0 255) 255) with 0%Z.
  rewrite !(land_small sp) by assumption.
  change (Z.shiftl 0 16) with 0%Z. rewrite Z.lor_0_l, Z.lor_0_r.
  rewrite Z.shiftl_mul_pow2 by lia. change (2 ^ 8)%Z with 256%Z.
  unfold to_u32. rewrite Z.mod_small by lia.
  repeat split; try reflexivity. lia.
Qed.

Lemma telemetry_layout_mismatch_witness :
  let s := {| vehicle := v_fractional; bus := [] |} in
  let t0 := Telemetry.vehicle_init in
  (encodable (vehicle s) /\ -40 <= intake_temp (vehicle s) <= 215) /\
  exists f1 f2 f3 f4 th i sp,
    send_engine_data_1 s = Some (reply s f1) /\
    send_engine_data_2 s = Some (reply s f2) /\
    send_trans_data s = Some (reply s f3) /\
    send_bcm_data s = Some (reply s f4) /\
    pct_raw (throttle (vehicle s)) = Some th /\
    to_uint8 (intake_temp (vehicle s) + 40)%f32 = Some i /\
    to_uint16 (vehicle_speed (vehicle s)) = Some sp /\
    Telemetry.engine_load (Telemetry.decode_can_frame 7 f1 t0) = th /\
    Telemetry.throttle (Telemetry.decode_can_frame 7 f2 t0) = Z.quot (i * 100) 255 /\
    Telemetry.speed (Telemetry.decode_can_frame 7 f3 t0) = gear (vehicle s) /\
    Telemetry.odometer (Telemetry.decode_can_frame 7 f3 t0) = (256 * sp)%Z /\
    Telemetry.odometer (Telemetry.decode_can_frame 7 f4 t0) = Telemetry.odometer t0.
Proof.
  cbv zeta. set (s := {| vehicle := v_fractional; bus := [] |}).
  assert (Hi : -40 <= intake_temp (vehicle s) <= 215) by (simpl; lra).
  split; [exact (conj v_fractional_encodable Hi)|].
  exact (telemetry_layout_mismatch s 7 Telemetry.vehicle_init v_fractional_encodable Hi).
Defined.

(* ====================================================================== *)
(** * The OBD-II gateway *)
(* ====================================================================== *)

Ltac gw_frame :=
  eexists; split; [reflexivity|];
  unfold byte_at; cbn [can_id can_dlc data set_byte zeroed8 repeat length nth];
  repeat match goal with |- _ /\ _ => split end;
  try reflexivity; try (repeat constructor; try apply land_byte; lia); auto.

(** X26. The gateway answers a request exactly when its length byte is at
    least 2, its mode byte is 0x01 and its PID is one of 0x00, 0x04, 0x05,
    0x0C, 0x0D, 0x0F, 0x10, 0x11, 0x20, 0x2F; the answer is one frame on 0x7E8
    with length code 8, bytes in 0..255, 0x41 and the PID echoed and a length
    byte of 3, 4 or 6. Any other request, including an unsupported PID, is
    dropped without a negative response. *)
Theorem gateway_answers_or_stays_silent request v bus :
  if gateway_answers request
  then exists f,
         ObdGw.process_obd2_request request v bus = bus ++ [f] /\
         can_id f = ObdGw.OBD2_RESPONSE_ECU1 /\ can_dlc f = 8%Z /\
         length (data f) = 8%nat /\
         Forall (fun b => (0 <= b <= 255)%Z) (data f) /\
         byte_at (data f) 1 = 0x41%Z /\
         byte_at (data f) 2 = byte_at (data request) 2 /\
         (byte_at (data f) 0 = 3 \/ byte_at (data f) 0 = 4 \/ byte_at (data f) 0 = 6)%Z
  else ObdGw.process_obd2_request request v bus = bus.
Proof.
  unfold gateway_answers, ObdGw.process_obd2_request.
  set (len := byte_at (data request) 0). set (mode := byte_at (data request) 1).
  set (pid := byte_at (data request) 2).
  destruct (Z.ltb_spec len 2) as [A | A]; destruct (Z.leb_spec 2 len) as [B | B];
    try lia; cbn [andb]; [reflexivity|].
  change OBD2_MODE_CURRENT_DATA with 1%Z.
  destruct (Z.eqb_spec mode 1) as [_ | _]; cbn [andb]; [|reflexivity].
  unfold gateway_pids, ObdGw.build_mode01_response.
  cbn [existsb].
  unfold OBD2_PID_ENGINE_LOAD, OBD2_PID_COOLANT_TEMP, OBD2_PID_ENGINE_RPM,
    OBD2_PID_VEHICLE_SPEED, OBD2_PID_INTAKE_TEMP, OBD2_PID_MAF,
    OBD2_PID_THROTTLE_POS, OBD2_PID_FUEL_LEVEL, OBD2_PID_SUPPORTED_01_20,
    OBD2_PID_SUPPORTED_21_40.
  repeat match goal with
    | |- context [Z.eqb pid ?k] =>
        destruct (Z.eqb_spec pid k) as [E | ?];
        [rewrite ?orb_true_r; cbn [orb]; rewrite E; gw_frame |]
    end.
  reflexivity.
Qed.

Lemma hi_lo_plain k :
  (0 <= k <= 65535)%Z ->
  let A := Z.land (Z.land (Z.shiftr k 8) 0xFF) 0xFF in
  let B := Z.land (Z.land k 0xFF) 0xFF in
  (0 <= A <= 255)%Z /\ (0 <= B <= 255)%Z /\ (A * 256 + B = k)%Z.
Proof. apply hi_lo_bytes. Qed.

Lemma percent_byte x :
  (0 <= x <= 100)%Z ->
  let k := Z.quot (x * 255) 100 in
  (0 <= k <= 255)%Z /\
  0 <= inject_Z x - (of_int k * 100 / 255)%f32 /\
  inject_Z x - (of_int k * 100 / 255)%f32 < 0.3922.
Proof.
  intros H. cbv zeta. rewrite Z.quot_div_nonneg by lia.
  set (k := (x * 255 / 100)%Z).
  assert (K : (0 <= k <= 255)%Z) by (unfold k; Z.div_mod_to_equations; lia).
  assert (A : (100 * k <= x * 255 <= 100 * k + 99)%Z)
    by (unfold k; Z.div_mod_to_equations; lia).
  destruct A as [A1 A2]. rewrite Zle_Qle in A1, A2.
  rewrite inject_Z_plus, !inject_Z_mult in A2. rewrite !inject_Z_mult in A1.
  change (inject_Z 255) with 255 in *. change (inject_Z 100) with 100 in *.
  change (inject_Z 99) with 99 in *.
  assert (Kq : 0 <= inject_Z k <= 255).
  { split; [change 0 with (inject_Z 0) | change 255 with (inject_Z 255)];
      rewrite <- Zle_Qle; lia. }
  split; [exact K|].
  unfold fdiv, fmul. rewrite of_int_exact by lia.
  assert (E1 : inject_Z k * 100 == inject_Z (k * 100)).
  { rewrite inject_Z_mult. reflexivity. }
  rewrite E1, b32_int by lia. rewrite <- E1.
  assert (Dk : inject_Z k * 100 / 255 == inject_Z k * (100 # 255))
    by (unfold Qdiv; change (/ 255) with (1 # 255); field).
  rewrite Dk.
  destruct (b32_err_num (inject_Z k * (100 # 255))) as [D1 D2]; [lra|].
  split; [|lra].
  (* the decoded value does not exceed x: x is an integer, hence a float *)
  assert (Fx : b32 (inject_Z x) == inject_Z x) by (apply b32_int; lia).
  rewrite <- Fx. apply (Qle_minus_iff (b32 _) (b32 _)). apply b32_mono. lra.
Qed.

(** X27. For gateway state values that fit their fields, the decoding formulas
    of obd2_pids.h applied to the gateway's answers give back rpm, air flow,
    coolant temperature, intake temperature and speed exactly, and engine
    load, throttle and fuel level from at most 0.3922 below (the integer
    division by 100 rounds down). *)
Theorem gateway_values_round_trip v :
  gateway_plausible v ->
  let b pid i := byte_at (gateway_data pid v) i in
  obd2_calc_rpm (b OBD2_PID_ENGINE_RPM 3%nat) (b OBD2_PID_ENGINE_RPM 4%nat) == inject_Z (ObdGw.rpm v) /\
  obd2_calc_maf (b OBD2_PID_MAF 3%nat) (b OBD2_PID_MAF 4%nat) == inject_Z (ObdGw.maf v) /\
  obd2_calc_coolant_temp (b OBD2_PID_COOLANT_TEMP 3%nat) = ObdGw.coolant_temp v /\
  obd2_calc_intake_temp (b OBD2_PID_INTAKE_TEMP 3%nat) = ObdGw.intake_temp v /\
  obd2_calc_speed (b OBD2_PID_VEHICLE_SPEED 3%nat) = ObdGw.speed v /\
  (0 <= inject_Z (ObdGw.engine_load v) - obd2_calc_engine_load (b OBD2_PID_ENGINE_LOAD 3%nat) /\
   inject_Z (ObdGw.engine_load v) - obd2_calc_engine_load (b OBD2_PID_ENGINE_LOAD 3%nat) < 0.3922) /\
  (0 <= inject_Z (ObdGw.throttle v) - obd2_calc_throttle (b OBD2_PID_THROTTLE_POS 3%nat) /\
   inject_Z (ObdGw.throttle v) - obd2_calc_throttle (b OBD2_PID_THROTTLE_POS 3%nat) < 0.3922) /\
  (0 <= inject_Z (ObdGw.fuel_level v) - obd2_calc_fuel_level (b OBD2_PID_FUEL_LEVEL 3%nat) /\
   inject_Z (ObdGw.fuel_level v) - obd2_calc_fuel_level (b OBD2_PID_FUEL_LEVEL 3%nat) < 0.3922).
Proof.
  intros (Hr & Hm & Hc & Hi & Hs & Hl & Ht & Hf). cbv zeta.
  unfold gateway_data, ObdGw.build_mode01_response, byte_at.
  cbn [Z.eqb Pos.eqb OBD2_PID_ENGINE_LOAD OBD2_PID_COOLANT_TEMP OBD2_PID_ENGINE_RPM
       OBD2_PID_VEHICLE_SPEED OBD2_PID_INTAKE_TEMP OBD2_PID_MAF OBD2_PID_THROTTLE_POS
       OBD2_PID_FUEL_LEVEL data set_byte zeroed8 repeat nth].
  assert (Er : to_u16 (ObdGw.rpm v * 4) = (ObdGw.rpm v * 4)%Z) by (apply u16_small; lia).
  assert (Em : to_u16 (ObdGw.maf v * 100) = (ObdGw.maf v * 100)%Z)
    by (apply u16_small; lia).
  rewrite Er, Em.
  destruct (hi_lo_plain (ObdGw.rpm v * 4)) as (RA & RB & RK); [lia|].
  destruct (hi_lo_plain (ObdGw.maf v * 100)) as (MA & MB & MK); [lia|].
  cbv zeta in RA, RB, RK, MA, MB, MK.
  destruct (percent_byte _ Hl) as (Kl & L1 & L2).
  destruct (percent_byte _ Ht) as (Kt & T1 & T2).
  destruct (percent_byte _ Hf) as (Kf & F1 & F2).
  cbv zeta in Kl, L1, L2, Kt, T1, T2, Kf, F1, F2.
  rewrite !(land_small (Z.quot _ 100)) by assumption.
  rewrite (land_small (ObdGw.coolant_temp v + 40)) by lia.
  rewrite (land_small (ObdGw.intake_temp v + 40)) by lia.
  rewrite (land_small (ObdGw.speed v)) by lia.
  unfold obd2_calc_coolant_temp, obd2_calc_intake_temp, obd2_calc_speed,
    obd2_calc_engine_load, obd2_calc_throttle, obd2_calc_fuel_level.
  split; [|split; [|split; [lia | split; [lia | split; [reflexivity|]]]]].
  - rewrite obd2_calc_rpm_value by assumption. rewrite RK.
    rewrite inject_Z_mult. change (inject_Z 4) with 4. field.
  - rewrite obd2_calc_maf_value by assumption. rewrite MK.
    assert (E : inject_Z (ObdGw.maf v * 100) / 100 == inject_Z (ObdGw.maf v)).
    { rewrite inject_Z_mult. change (inject_Z 100) with 100. field. }
    rewrite E. apply b32_int. lia.
  - repeat split; assumption.
Qed.

Lemma gateway_init_plausible : gateway_plausible ObdGw.vehicle_state_init.
Proof. unfold gateway_plausible; simpl. lia. Qed.

Lemma gateway_values_round_trip_witness :
  let v := ObdGw.vehicle_state_init in
  gateway_plausible v /\
  let b pid i := byte_at (gateway_data pid v) i in
  obd2_calc_rpm (b OBD2_PID_ENGINE_RPM 3%nat) (b OBD2_PID_ENGINE_RPM 4%nat)
    == inject_Z (ObdGw.rpm v) /\
  obd2_calc_maf (b OBD2_PID_MAF 3%nat) (b OBD2_PID_MAF 4%nat) == inject_Z (ObdGw.maf v) /\
  obd2_calc_coolant_temp (b OBD2_PID_COOLANT_TEMP 3%nat) = ObdGw.coolant_temp v /\
  obd2_calc_intake_temp (b OBD2_PID_INTAKE_TEMP 3%nat) = ObdGw.intake_temp v /\
  obd2_calc_speed (b OBD2_PID_VEHICLE_SPEED 3%nat) = ObdGw.speed v /\
  (0 <= inject_Z (ObdGw.engine_load v) - obd2_calc_engine_load (b OBD2_PID_ENGINE_LOAD 3%nat) /\
   inject_Z (ObdGw.engine_load v) - obd2_calc_engine_load (b OBD2_PID_ENGINE_LOAD 3%nat) < 0.3922) /\
  (0 <= inject_Z (ObdGw.throttle v) - obd2_calc_throttle (b OBD2_PID_THROTTLE_POS 3%nat) /\
   inject_Z (ObdGw.throttle v) - obd2_calc_throttle (b OBD2_PID_THROTTLE_POS 3%nat) < 0.3922) /\
  (0 <= inject_Z (ObdGw.fuel_level v) - obd2_calc_fuel_level (b OBD2_PID_FUEL_LEVEL 3%nat) /\
   inject_Z (ObdGw.fuel_level v) - obd2_calc_fuel_level (b OBD2_PID_FUEL_LEVEL 3%nat) < 0.3922).
Proof.
  cbv zeta. split; [exact gateway_init_plausible|].
  exact (gateway_values_round_trip ObdGw.vehicle_state_init gateway_init_plausible).
Defined.

Lemma update_keeps r1 r2 r3 tick v tick' v' bus :
  (0 <= r1)%Z -> (0 <= r2)%Z -> (0 <= r3)%Z ->
  gateway_invariant (tick, v, bus) ->
  ObdGw.update_simulation r1 r2 r3 (tick, v) = Some (tick', v') ->
  tick' = (tick + 1)%Z /\ gateway_invariant (tick', v', bus).
Proof.
  intros H1 H2 H3 [(Ir & It & Il & Ic & Is & If & Im & Ii) Ib].
  unfold ObdGw.update_simulation.
  destruct (tick =? INT_MAX)%Z; [discriminate|].
  assert (R1 : (0 <= Z.rem r1 100 < 100)%Z) by (apply Z.rem_bound_pos; lia).
  assert (R2 : (0 <= Z.rem r2 6 < 6)%Z) by (apply Z.rem_bound_pos; lia).
  assert (R3 : (0 <= Z.rem r3 10 < 10)%Z) by (apply Z.rem_bound_pos; lia).
  set (rp := to_u16 (800 + Z.rem r1 100)).
  set (th := to_u8 (12 + Z.rem r2 6)).
  set (ld := to_u16 (20 + Z.rem r3 10)).
  set (co := if (Z.rem (tick + 1) 10 =? 0)%Z
             then if (ObdGw.coolant_temp v <? 95)%Z
                  then to_i8 (ObdGw.coolant_temp v + 1)
                  else ObdGw.coolant_temp v
             else ObdGw.coolant_temp v).
  assert (Erp : rp = (800 + Z.rem r1 100)%Z) by (apply u16_small; lia).
  assert (Eth : th = (12 + Z.rem r2 6)%Z) by (apply u8_small; lia).
  assert (Eld : ld = (20 + Z.rem r3 10)%Z) by (apply u16_small; lia).
  assert (C : (90 <= co <= 95)%Z).
  { unfold co. destruct (Z.rem (tick + 1) 10 =? 0)%Z; [|lia].
    destruct (Z.ltb_spec (ObdGw.coolant_temp v) 95); [|lia].
    unfold to_i8. rewrite Z.mod_small by lia. lia. }
  clearbody rp th ld co.
  intros E. assert (Et : tick' = (tick + 1)%Z) by congruence.
  split; [exact Et|].
  assert (Ev : v' = {| ObdGw.rpm := rp; ObdGw.speed := ObdGw.speed v;
                       ObdGw.coolant_temp := co; ObdGw.throttle := th;
                       ObdGw.fuel_level := ObdGw.fuel_level v;
                       ObdGw.engine_load := ld; ObdGw.maf := ObdGw.maf v;
                       ObdGw.intake_temp := ObdGw.intake_temp v |}) by congruence.
  subst v'. unfold gateway_invariant.
  cbn [ObdGw.rpm ObdGw.throttle ObdGw.engine_load ObdGw.coolant_temp ObdGw.speed
       ObdGw.fuel_level ObdGw.maf ObdGw.intake_temp].
  split; [|exact Ib]. repeat split; try lia; assumption.
Qed.

Lemma build_frame pid v f :
  ObdGw.build_mode01_response pid v = Some f ->
  can_id f = ObdGw.OBD2_RESPONSE_ECU1 /\ can_dlc f = 8%Z /\
  byte_at (data f) 1 = 0x41%Z.
Proof.
  unfold ObdGw.build_mode01_response.
  repeat match goal with
    | |- context [if ?c then _ else _] => destruct c
    end;
    intros E; try discriminate E; injection E as <-; repeat split.
Qed.

Lemma process_keeps request v bus tick :
  gateway_invariant (tick, v, bus) ->
  gateway_invariant (tick, v, ObdGw.process_obd2_request request v bus).
Proof.
  intros [Iv Ib]. split; [exact Iv|].
  unfold ObdGw.process_obd2_request.
  destruct (_ <? 2)%Z; [exact Ib|].
  destruct (_ =? OBD2_MODE_CURRENT_DATA)%Z; [|exact Ib].
  destruct (ObdGw.build_mode01_response _ v) as [f |] eqn:E; [|exact Ib].
  apply Forall_app. split; [exact Ib|]. constructor; [|constructor].
  exact (build_frame _ _ _ E).
Qed.

Lemma loop_pass_keeps e r1 r2 r3 tick v bus tick' v' bus' :
  (0 <= r1)%Z -> (0 <= r2)%Z -> (0 <= r3)%Z ->
  gateway_invariant (tick, v, bus) ->
  ObdGw.loop_pass e (r1, r2, r3) (tick, v, bus) = Some (tick', v', bus') ->
  tick' = (tick + match e with ObdGw.ReadFailed => 0 | _ => 1 end)%Z /\
  gateway_invariant (tick', v', bus').
Proof.
  intros H1 H2 H3 I. unfold ObdGw.loop_pass.
  destruct e as [frame | |].
  - pose proof (process_keeps frame v bus tick I) as Ib.
    destruct (ObdGw.update_simulation r1 r2 r3 (tick, v)) as [[t1 v1] |] eqn:U;
      [|discriminate].
    cbn [obind]. intros E. assert (tick' = t1 /\ v' = v1 /\
      bus' = ObdGw.process_obd2_request frame v bus) as (-> & -> & ->)
      by (repeat split; congruence).
    exact (update_keeps r1 r2 r3 tick v t1 v1 _ H1 H2 H3 Ib U).
  - destruct (ObdGw.update_simulation r1 r2 r3 (tick, v)) as [[t1 v1] |] eqn:U;
      [|discriminate].
    cbn [obind]. intros E. assert (tick' = t1 /\ v' = v1 /\ bus' = bus)
      as (-> & -> & ->) by (repeat split; congruence).
    exact (update_keeps r1 r2 r3 tick v t1 v1 _ H1 H2 H3 I U).
  - intros E. assert (tick' = tick /\ v' = v /\ bus' = bus) as (-> & -> & ->)
      by (repeat split; congruence).
    split; [lia | exact I].
Qed.

Lemma gateway_loop inputs : forall tick v bus tick' v' bus',
  rand_values inputs -> gateway_invariant (tick, v, bus) ->
  ObdGw.main_loop inputs (tick, v, bus) = Some (tick', v', bus') ->
  tick' = (tick + updates inputs)%Z /\ gateway_invariant (tick', v', bus').
Proof.
  induction inputs as [| [e [[r1 r2] r3]] rest IH]; intros tick v bus tick' v' bus' R I M.
  - simpl in M. assert (tick' = tick /\ v' = v /\ bus' = bus) as (-> & -> & ->)
      by (repeat split; congruence).
    split; [unfold updates; simpl; lia | exact I].
  - cbn [ObdGw.main_loop] in M.
    destruct (ObdGw.loop_pass e (r1, r2, r3) (tick, v, bus)) as [[[t1 v1] b1] |] eqn:P;
      [|discriminate].
    cbn [obind] in M. inversion R as [| ? ? R0 R']; subst.
    cbn [snd] in R0. destruct R0 as (H1 & H2 & H3).
    destruct (loop_pass_keeps _ _ _ _ _ _ _ _ _ _ H1 H2 H3 I P) as [-> I1].
    destruct (IH _ _ _ _ _ _ R' I1 M) as [-> I'].
    split; [|exact I'].
    unfold updates. cbn [filter fst]. destruct e; cbn [length]; lia.
Qed.

Lemma updates_cons e r rest :
  updates ((e, r) :: rest)
  = (match e with ObdGw.ReadFailed => 0 | _ => 1 end + updates rest)%Z.
Proof. unfold updates. cbn [filter fst]. destruct e; cbn [length]; lia. Qed.

Lemma updates_nonneg inputs : (0 <= updates inputs)%Z.
Proof. unfold updates. lia. Qed.

Lemma gateway_loop_defined inputs : forall tick v bus,
  (tick + updates inputs <= INT_MAX)%Z ->
  exists st, ObdGw.main_loop inputs (tick, v, bus) = Some st.
Proof.
  induction inputs as [| [e [[r1 r2] r3]] rest IH]; intros tick v bus B.
  - eexists. reflexivity.
  - rewrite updates_cons in B. pose proof (updates_nonneg rest) as N.
    cbn [ObdGw.main_loop]. unfold ObdGw.loop_pass.
    destruct e as [frame | |].
    + unfold ObdGw.update_simulation.
      destruct (Z.eqb_spec tick INT_MAX) as [A | A]; [lia|].
      cbn [obind]. apply IH. lia.
    + unfold ObdGw.update_simulation.
      destruct (Z.eqb_spec tick INT_MAX) as [A | A]; [lia|].
      cbn [obind]. apply IH. lia.
    + cbn [obind]. apply IH. lia.
Qed.

(** X28. For non-negative rand values and at most INT_MAX passes that reach
    update_simulation, the gateway loop is defined; tick counts those passes
    (a failed read skips the update), rpm stays in 800..899, throttle in
    12..17, engine load in 20..29, coolant in 90..95, speed, fuel level, air
    flow and intake temperature keep their initial values, and every frame
    written is on 0x7E8 with length code 8 and 0x41 in byte 1. *)
Theorem gateway_state_invariant inputs :
  rand_values inputs -> (updates inputs <= INT_MAX)%Z ->
  exists tick v bus,
    ObdGw.main_loop inputs ObdGw.main_init = Some (tick, v, bus) /\
    tick = updates inputs /\
    (800 <= ObdGw.rpm v <= 899 /\ 12 <= ObdGw.throttle v <= 17 /\
     20 <= ObdGw.engine_load v <= 29 /\ 90 <= ObdGw.coolant_temp v <= 95 /\
     ObdGw.speed v = 0 /\ ObdGw.fuel_level v = 75 /\ ObdGw.maf v = 10 /\
     ObdGw.intake_temp v = 25)%Z /\
    Forall (fun f => can_id f = ObdGw.OBD2_RESPONSE_ECU1 /\ can_dlc f = 8%Z /\
                     byte_at (data f) 1 = 0x41%Z) bus.
Proof.
  intros R B.
  assert (I0 : gateway_invariant ObdGw.main_init).
  { unfold gateway_invariant, ObdGw.main_init; simpl. split; [lia | constructor]. }
  destruct (gateway_loop_defined inputs 0%Z ObdGw.vehicle_state_init [])
    as ([[tick v] bus] & M); [lia|].
  exists tick, v, bus. split; [exact M|].
  destruct (gateway_loop inputs 0%Z _ [] tick v bus R I0 M) as [-> [Iv Ib]].
  split; [lia|]. split; [exact Iv | exact Ib].
Qed.

Lemma gateway_state_invariant_witness :
  let inputs := [(ObdGw.Received rpm_request, (1041, 18467, 6334));
                 (ObdGw.ReadFailed, (0, 0, 0));
                 (ObdGw.Idle, (26500, 19169, 15724))]%Z in
  (rand_values inputs /\ (updates inputs <= INT_MAX)%Z) /\
  exists tick v bus,
    ObdGw.main_loop inputs ObdGw.main_init = Some (tick, v, bus) /\
    tick = updates inputs /\
    (800 <= ObdGw.rpm v <= 899 /\ 12 <= ObdGw.throttle v <= 17 /\
     20 <= ObdGw.engine_load v <= 29 /\ 90 <= ObdGw.coolant_temp v <= 95 /\
     ObdGw.speed v = 0 /\ ObdGw.fuel_level v = 75 /\ ObdGw.maf v = 10 /\
     ObdGw.intake_temp v = 25)%Z /\
    Forall (fun f => can_id f = ObdGw.OBD2_RESPONSE_ECU1 /\ can_dlc f = 8%Z /\
                     byte_at (data f) 1 = 0x41%Z) bus.
Proof.
  cbv zeta.
  set (inputs := [(ObdGw.Received rpm_request, (1041, 18467, 6334));
                  (ObdGw.ReadFailed, (0, 0, 0));
                  (ObdGw.Idle, (26500, 19169, 15724))]%Z).
  assert (R : rand_values inputs) by (repeat constructor; simpl; lia).
  assert (B : (updates inputs <= INT_MAX)%Z) by (vm_compute; discriminate).
  split; [exact (conj R B)|].
  exact (gateway_state_invariant inputs R B).
Defined.

(* ====================================================================== *)
(** * Encoding beyond the field ranges *)
(* ====================================================================== *)










